(** * Chunking and vector-index core of the PDF RAG backend

    A shallow embedding of
    - [backend/app/services/pdf_processor.py] ([PDFProcessor.chunk_text] and
      its helpers), and
    - [backend/app/services/embedding_service.py] ([FAISSIndexManager] and
      [GlobalIndexManager]),
    together with the properties of the chunking / indexing specification
    that were checked against them.

    Python integers are [Z], Python [str] is [string] (characters are the
    8-bit code points of [ascii]), dictionaries are stdpp [gmap]s and
    exceptions are an explicit [result] type. *)

From stdpp Require Import gmap strings list fin_maps pretty sorting.
From Stdlib Require Import ZArith Ascii String Lia.

Local Open Scope Z_scope.

(** ** Python built-ins used by the code *)

Module Py.

(** The exceptions that the modelled code paths can raise. *)
Inductive exn : Type :=
| IndexError
| KeyError
| AssertionError
| AttributeError
| RuntimeError.

Inductive result (A : Type) : Type :=
| Ok (a : A)
| Raise (e : exn).
Arguments Ok {A} a.
Arguments Raise {A} e.

#[export] Instance result_ret : MRet result := fun A a => Ok a.
#[export] Instance result_bind : MBind result := fun A B k r =>
  match r with
  | Ok a => k a
  | Raise e => Raise e
  end.

(** [len(s)] *)
Definition len (s : string) : Z := Z.of_nat (String.length s).

(** [range(n)]: empty when [n <= 0]. *)
Definition range (n : Z) : list Z := List.map Z.of_nat (seq 0 (Z.to_nat n)).

(** [s[i]]: negative indices count from the end, out of range raises. *)
Definition getitem (s : string) (i : Z) : result ascii :=
  let j := if i <? 0 then i + len s else i in
  if (j <? 0) || (len s <=? j) then Raise IndexError
  else match String.get (Z.to_nat j) s with
       | Some c => Ok c
       | None => Raise IndexError
       end.

(** Index adjustment of a slice bound (step 1). *)
Definition adjust (n i : Z) : Z :=
  if i <? 0 then Z.max 0 (i + n) else Z.min i n.

(** [s[a:b]] *)
Definition slice (s : string) (a b : Z) : string :=
  let lo := adjust (len s) a in
  let hi := adjust (len s) b in
  if lo <? hi then String.substring (Z.to_nat lo) (Z.to_nat (hi - lo)) s
  else EmptyString.

(** [str.isspace] on one character, which is also what [\s] matches in
    a [str] pattern: TAB..CR, FS..US, SPACE, NEL and NBSP. *)
Definition isspace (c : ascii) : bool :=
  let n := Z.of_nat (nat_of_ascii c) in
  ((9 <=? n) && (n <=? 13)) || ((28 <=? n) && (n <=? 32))
  || (n =? 133) || (n =? 160).

Fixpoint lstrip (s : string) : string :=
  match s with
  | EmptyString => EmptyString
  | String c r => if isspace c then lstrip r else s
  end.

Fixpoint rstrip (s : string) : string :=
  match s with
  | EmptyString => EmptyString
  | String c r =>
      match rstrip r with
      | EmptyString => if isspace c then EmptyString else String c EmptyString
      | r' => String c r'
      end
  end.

(** [s.strip()] *)
Definition strip (s : string) : string := rstrip (lstrip s).

(** [re.sub(r'\s+', ' ', s)]: every maximal run of whitespace becomes one
    space; [in_run] tells that the previous character was whitespace. *)
Fixpoint sub_ws (in_run : bool) (s : string) : string :=
  match s with
  | EmptyString => EmptyString
  | String c r =>
      if isspace c
      then (if in_run then sub_ws true r else String " "%char (sub_ws true r))
      else String c (sub_ws false r)
  end.

(** [s.replace(c, '')] for a one-character [c]. *)
Fixpoint remove_char (x : ascii) (s : string) : string :=
  match s with
  | EmptyString => EmptyString
  | String c r =>
      if Ascii.eqb c x then remove_char x r else String c (remove_char x r)
  end.

(** [c in s] for a one-character [c]. *)
Fixpoint char_in (c : ascii) (s : string) : bool :=
  match s with
  | EmptyString => false
  | String d r => Ascii.eqb c d || char_in c r
  end.

End Py.

Import Py.

(** ** [pdf_processor.py] *)

Module PDF.

Record PDFChunk : Type := mkChunk {
  content : string;
  page_number : Z;
  chunk_index : Z;
  start_char : Z;
  end_char : Z;
  token_count : Z
}.

(** One entry of [page_texts]: [{'page_number', 'text', 'start_char'}]. *)
Record PageText : Type := mkPage {
  pt_page_number : Z;
  pt_text : string;
  pt_start_char : Z
}.

(** The fields set by [PDFProcessor.__init__]. *)
Record PDFProcessor : Type := mkProcessor {
  chunk_size : Z;
  chunk_overlap : Z;
  min_chunk_size : Z
}.

Definition default_processor : PDFProcessor := mkProcessor 1000 200 100.

Definition NL : ascii := ascii_of_nat 10.
Definition NUL : ascii := ascii_of_nat 0.

(** [_estimate_tokens] *)
Definition _estimate_tokens (text : string) : Z := len text / 4.

(** [_get_page_for_position] *)
Fixpoint _get_page_for_position (char_position : Z) (page_texts : list PageText) : Z :=
  match page_texts with
  | [] => 1
  | page :: rest =>
      match rest with
      | next :: _ =>
          if pt_start_char next >? char_position then pt_page_number page
          else _get_page_for_position char_position rest
      | [] => pt_page_number page
      end
  end.

(** First loop of [_find_break_point]: a paragraph break. *)
Fixpoint find_paragraph (text : string) (position : Z) (offsets : list Z) : option Z :=
  match offsets with
  | [] => None
  | i :: rest =>
      if (position + i <? len text)
         && String.eqb (slice text (position + i) (position + i + 2))
                       (String NL (String NL EmptyString))
      then Some (position + i + 2)
      else find_paragraph text position rest
  end.

(** Second loop: a sentence end; [text[...]] can raise. *)
Fixpoint find_sentence (text : string) (position : Z) (offsets : list Z) : result (option Z) :=
  match offsets with
  | [] => Ok None
  | i :: rest =>
      if position + i <? len text then
        char ← getitem text (position + i);
        if char_in char ".!?" then
          if position + i + 1 >=? len text then Ok (Some (position + i + 1))
          else
            next ← getitem text (position + i + 1);
            if Ascii.eqb next " "%char then Ok (Some (position + i + 1))
            else find_sentence text position rest
        else find_sentence text position rest
      else find_sentence text position rest
  end.

(** Third loop: a word break. *)
Fixpoint find_word (text : string) (position : Z) (offsets : list Z) : result (option Z) :=
  match offsets with
  | [] => Ok None
  | i :: rest =>
      if position + i <? len text then
        char ← getitem text (position + i);
        if Ascii.eqb char " "%char then Ok (Some (position + i + 1))
        else find_word text position rest
      else find_word text position rest
  end.

(** [_find_break_point] *)
Definition _find_break_point (text : string) (position : Z) : result Z :=
  let search_range := Z.min 200 (len text - position) in
  match find_paragraph text position (range search_range) with
  | Some p => Ok p
  | None =>
      s ← find_sentence text position (range search_range);
      match s with
      | Some p => Ok p
      | None =>
          w ← find_word text position (range search_range);
          match w with
          | Some p => Ok p
          | None => Ok position
          end
      end
  end.

(** The variables of the [while] loop of [chunk_text]. *)
Record loop_state : Type := mkLoop {
  ls_start : Z;
  ls_chunk_index : Z;
  ls_chunks : list PDFChunk
}.

(** One run of the body of [while start < len(text)]. *)
Definition loop_body (self : PDFProcessor) (text : string)
    (page_texts : list PageText) (st : loop_state) : result loop_state :=
  let start := ls_start st in
  let end0 := start + chunk_size self in
  end_ ← (if end0 <? len text then
             break_point ← _find_break_point text end0;
             Ok (if break_point >? start then break_point else end0)
           else Ok (len text));
  let chunk_text := strip (slice text start end_) in
  let '(chunks, chunk_index) :=
    if len chunk_text >=? min_chunk_size self then
      (ls_chunks st ++
         [mkChunk chunk_text (_get_page_for_position start page_texts)
                  (ls_chunk_index st) start end_ (_estimate_tokens chunk_text)],
       ls_chunk_index st + 1)
    else (ls_chunks st, ls_chunk_index st) in
  let start' := end_ - chunk_overlap self in
  (* [if start <= chunks[-1].start_char if chunks else 0:] parses as
     [if ((start <= chunks[-1].start_char) if chunks else 0):] *)
  let forced :=
    match last chunks with
    | Some c => start' <=? start_char c
    | None => false
    end in
  Ok (mkLoop (if forced then end_ else start') chunk_index chunks).

(** The [while] loop; [None] when [fuel] iterations were not enough. *)
Fixpoint chunk_loop (self : PDFProcessor) (text : string)
    (page_texts : list PageText) (fuel : nat) (st : loop_state)
    : option (result (list PDFChunk)) :=
  if ls_start st <? len text then
    match fuel with
    | O => None
    | S fuel' =>
        match loop_body self text page_texts st with
        | Ok st' => chunk_loop self text page_texts fuel' st'
        | Raise e => Some (Raise e)
        end
    end
  else Some (Ok (ls_chunks st)).

Section WithUnicode.

(** [unicodedata.normalize('NFKC', ·)], a library table. *)
Variable normalize_NFKC : string -> string.

(** [_clean_text] *)
Definition _clean_text (text : string) : string :=
  let text := sub_ws false text in
  let text := remove_char NUL text in
  let text := normalize_NFKC text in
  strip text.

(** [chunk_text] *)
Definition chunk_text (self : PDFProcessor) (fuel : nat) (text : string)
    (page_texts : list PageText) : option (result (list PDFChunk)) :=
  let text := _clean_text text in
  if len text <? min_chunk_size self then
    Some (Ok [mkChunk text 1 0 0 (len text) (_estimate_tokens text)])
  else
    chunk_loop self text page_texts fuel (mkLoop 0 0 []).

End WithUnicode.

End PDF.

(** ** Library models for [embedding_service.py] *)

(** Values stored in metadata dictionaries. *)
Inductive pyval : Type :=
| PStr (s : string)
| PInt (n : Z).

#[export] Instance pyval_eq_dec : EqDecision pyval.
Proof. solve_decision. Defined.

Abbreviation pydict := (gmap string pyval).

(** [posixpath.join(a, b)] *)
Fixpoint ends_with_sep (s : string) : bool :=
  match s with
  | EmptyString => false
  | String c EmptyString => Ascii.eqb c "/"%char
  | String _ r => ends_with_sep r
  end.

Definition path_join (a b : string) : string :=
  if String.prefix "/" b then b
  else if String.eqb a "" || ends_with_sep a then a +:+ b
  else a +:+ "/" +:+ b.

(** The parts of numpy and faiss that the index managers call.  An index
    is modelled by what it stores; only the ranking done by [Index.search]
    is left to the library interface below. *)
Module Faiss.

Section Vectors.

Context {Vec : Type}.

(** A two-dimensional float32 array of shape [(len nd_rows, nd_cols)]. *)
Record ndarray : Type := mk_ndarray {
  nd_cols : Z;
  nd_rows : list Vec
}.

(** [len(x)] *)
Definition nd_len (x : ndarray) : Z := Z.of_nat (List.length (nd_rows x)).

(** [faiss.IndexIDMap(faiss.IndexFlatIP(d))]: the dimension and the
    stored [(id, vector)] rows in insertion order. *)
Record IndexIDMap : Type := mk_flat {
  flat_d : Z;
  flat_rows : list (Z * Vec)
}.

Definition IndexFlatIP (d : Z) : IndexIDMap := mk_flat d [].

Definition ntotal (index : IndexIDMap) : Z := Z.of_nat (List.length (flat_rows index)).

(** [index.add_with_ids(x, ids)]: the wrapper asserts [d == self.d] and
    [ids.shape == (n,)] before anything is stored. *)
Definition add_with_ids (index : IndexIDMap) (x : ndarray) (ids : list Z)
    : result IndexIDMap :=
  if negb (nd_cols x =? flat_d index) then Raise AssertionError
  else if negb (Z.of_nat (List.length ids) =? nd_len x) then Raise AssertionError
  else Ok (mk_flat (flat_d index) (flat_rows index ++ zip ids (nd_rows x))).

(** [faiss.IndexIVFFlat(quantizer, d, nlist, METRIC_INNER_PRODUCT)] *)
Record IndexIVFFlat : Type := mk_ivf {
  ivf_d : Z;
  ivf_nlist : Z;
  ivf_is_trained : bool;
  ivf_training : list Vec;
  ivf_rows : list (Z * Vec);
  nprobe : Z
}.

Definition new_IndexIVFFlat (d nlist : Z) : IndexIVFFlat :=
  mk_ivf d nlist false [] [] 1.

(** [index.train(x)] *)
Definition train (index : IndexIVFFlat) (x : ndarray) : result IndexIVFFlat :=
  if negb (nd_cols x =? ivf_d index) then Raise AssertionError
  else if ivf_is_trained index then Ok index
  else if nd_len x <? ivf_nlist index then Raise RuntimeError
  else Ok (mk_ivf (ivf_d index) (ivf_nlist index) true (nd_rows x)
                  (ivf_rows index) (nprobe index)).

(** [index.add_with_ids(x, ids)] on the IVF index. *)
Definition ivf_add_with_ids (index : IndexIVFFlat) (x : ndarray) (ids : list Z)
    : result IndexIVFFlat :=
  if negb (nd_cols x =? ivf_d index) then Raise AssertionError
  else if negb (Z.of_nat (List.length ids) =? nd_len x) then Raise AssertionError
  else if negb (ivf_is_trained index) then Raise RuntimeError
  else Ok (mk_ivf (ivf_d index) (ivf_nlist index) true (ivf_training index)
                  (ivf_rows index ++ zip ids (nd_rows x)) (nprobe index)).

Definition set_nprobe (n : Z) (index : IndexIVFFlat) : IndexIVFFlat :=
  mk_ivf (ivf_d index) (ivf_nlist index) (ivf_is_trained index)
         (ivf_training index) (ivf_rows index) n.

End Vectors.

Arguments ndarray : clear implicits.
Arguments IndexIDMap : clear implicits.
Arguments IndexIVFFlat : clear implicits.

End Faiss.

Import Faiss.

(** What the code takes from the embedding model, from the ranking of
    faiss and from the serialisers. *)
Class Lib : Type := {
  (** a float32 vector, a float score, the contents of a file *)
  Vec : Type;
  Score : Type;
  Blob : Type;
  (** [EmbeddingService.get_dimension()] and [generate_embedding(text)] *)
  get_dimension : Z;
  generate_embedding : string -> Vec;
  (** [index.search(q, k)] as [zip(scores[0], indices[0])] *)
  flat_search : IndexIDMap Vec -> Vec -> Z -> result (list (Score * Z));
  ivf_search : IndexIVFFlat Vec -> Vec -> Z -> result (list (Score * Z));
  (** [faiss.write_index] / [faiss.read_index] *)
  write_index : IndexIDMap Vec -> Blob;
  read_index : Blob -> result (IndexIDMap Vec);
  (** [pickle.dump] / [pickle.load] of a metadata table *)
  pickle_dump : gmap Z pydict -> Blob;
  pickle_load : Blob -> result (gmap Z pydict)
}.

(** ** A monad for methods: state, exceptions and the log

    A method is run on the state of its object.  An exception keeps the
    mutations made before it was raised, as in Python. *)

Inductive level : Type := INFO | WARNING.

Record outcome (S A : Type) : Type := mkOutcome {
  out_val : result A;
  out_state : S;
  out_log : list (level * string)
}.
Arguments mkOutcome {S A}.
Arguments out_val {S A}.
Arguments out_state {S A}.
Arguments out_log {S A}.

Definition M (S A : Type) : Type := S -> outcome S A.

#[export] Instance M_ret {S} : MRet (M S) := fun A a s => mkOutcome (Ok a) s [].

#[export] Instance M_bind {S} : MBind (M S) := fun A B k m s =>
  match m s with
  | mkOutcome (Ok a) s1 log1 =>
      match k a s1 with
      | mkOutcome v s2 log2 => mkOutcome v s2 (log1 ++ log2)
      end
  | mkOutcome (Raise e) s1 log1 => mkOutcome (Raise e) s1 log1
  end.

Definition get {S} : M S S := fun s => mkOutcome (Ok s) s [].
Definition modify {S} (f : S -> S) : M S unit := fun s => mkOutcome (Ok tt) (f s) [].
Definition raise {S A} (e : exn) : M S A := fun s => mkOutcome (Raise e) s [].
Definition logger {S} (l : level) (msg : string) : M S unit :=
  fun s => mkOutcome (Ok tt) s [(l, msg)].

(** A library call that returns or raises. *)
Definition call {S A} (r : result A) : M S A := fun s => mkOutcome r s [].

(** ** [embedding_service.py] *)

Module Index.

Section WithLib.

Context {L : Lib}.

Record SearchResult : Type := mkSearchResult {
  chunk_id : pyval;
  content : pyval;
  score : Score;
  page_number : pyval;
  document_id : pyval
}.

(** The fields of a [FAISSIndexManager]. *)
Record FAISSIndexManager : Type := mkManager {
  index_path : string;
  indices : gmap string (IndexIDMap Vec);
  metadata : gmap string (gmap Z pydict)
}.

(** A manager and the directory tree it writes to. *)
Record World : Type := mkWorld {
  self : FAISSIndexManager;
  fs : gmap string Blob
}.

Definition set_indices (f : gmap string (IndexIDMap Vec) -> gmap string (IndexIDMap Vec))
    (w : World) : World :=
  mkWorld (mkManager (index_path (self w)) (f (indices (self w))) (metadata (self w)))
          (fs w).

Definition set_metadata (f : gmap string (gmap Z pydict) -> gmap string (gmap Z pydict))
    (w : World) : World :=
  mkWorld (mkManager (index_path (self w)) (indices (self w)) (f (metadata (self w))))
          (fs w).

Definition set_fs (f : gmap string Blob -> gmap string Blob) (w : World) : World :=
  mkWorld (self w) (f (fs w)).

(** [FAISSIndexManager.__init__] *)
Definition __init__ (index_path : string) : FAISSIndexManager :=
  mkManager index_path ∅ ∅.

(** [create_index] *)
Definition create_index (document_id : string) : M World (IndexIDMap Vec) :=
  let dimension := get_dimension in
  let index := IndexFlatIP dimension in
  modify (set_indices <[document_id := index]>);;
  modify (set_metadata <[document_id := ∅]>);;
  logger INFO ("Created FAISS index for document " +:+ document_id);;
  mret index.

(** The metadata loop of [add_embeddings]:
    [self.metadata[document_id][start_id + i] = {'chunk_id': chunk_id, **meta}]
    for [i, (chunk_id, meta)] in [enumerate(zip(chunk_ids, chunk_metadata))]. *)
Fixpoint store_metadata (document_id : string) (start_id i : Z)
    (items : list (string * pydict)) : M World unit :=
  match items with
  | [] => mret tt
  | (chunk_id, meta) :: rest =>
      w ← get;
      match metadata (self w) !! document_id with
      | None => raise KeyError
      | Some table =>
          modify (set_metadata
            <[document_id :=
                <[start_id + i := meta ∪ {["chunk_id" := PStr chunk_id]}]> table]>)
      end;;
      store_metadata document_id start_id (i + 1) rest
  end.

(** [add_embeddings] *)
Definition add_embeddings (document_id : string) (chunk_ids : list string)
    (embeddings : ndarray Vec) (chunk_metadata : list pydict) : M World unit :=
  w ← get;
  (if decide (document_id ∈ dom (indices (self w))) then mret tt
   else create_index document_id;; mret tt);;
  w ← get;
  index ← match indices (self w) !! document_id with
          | Some index => mret index
          | None => raise KeyError
          end;
  let start_id := Z.of_nat (size (default ∅ (metadata (self w) !! document_id))) in
  let numeric_ids :=
    List.map (fun i => start_id + i) (range (Z.of_nat (List.length chunk_ids))) in
  index' ← call (add_with_ids index embeddings numeric_ids);
  modify (set_indices <[document_id := index']>);;
  store_metadata document_id start_id 0 (zip chunk_ids chunk_metadata);;
  logger INFO ("Added " +:+ pretty (Z.of_nat (List.length chunk_ids))
               +:+ " embeddings to index " +:+ document_id).

(** The body of the result loop of [search]. *)
Definition result_of_hit (doc_metadata : gmap Z pydict) (document_id : string)
    (hit : Score * Z) : option SearchResult :=
  let '(score, idx) := hit in
  if idx =? -1 then None
  else
    let meta := default ∅ (doc_metadata !! idx) in
    if decide (meta = ∅) then None
    else Some (mkSearchResult
                 (default (PStr "") (meta !! "chunk_id"))
                 (default (PStr "") (meta !! "content"))
                 score
                 (default (PInt 0) (meta !! "page_number"))
                 (PStr document_id)).

(** [search] *)
Definition search (document_id query : string) (k : Z) : M World (list SearchResult) :=
  w ← get;
  match indices (self w) !! document_id with
  | None =>
      logger WARNING ("No index found for document " +:+ document_id);;
      mret []
  | Some index =>
      let query_embedding := generate_embedding query in
      hits ← call (flat_search index query_embedding k);
      let doc_metadata := default ∅ (metadata (self w) !! document_id) in
      mret (omap (result_of_hit doc_metadata document_id) hits)
  end.

Definition index_file (w : World) (document_id : string) : string :=
  path_join (index_path (self w)) (document_id +:+ ".index").
Definition meta_file (w : World) (document_id : string) : string :=
  path_join (index_path (self w)) (document_id +:+ ".meta").

(** [save_index] *)
Definition save_index (document_id : string) : M World unit :=
  w ← get;
  match indices (self w) !! document_id with
  | None => mret tt
  | Some index =>
      modify (set_fs <[index_file w document_id := write_index index]>);;
      modify (set_fs <[meta_file w document_id :=
                         pickle_dump (default ∅ (metadata (self w) !! document_id))]>);;
      logger INFO ("Saved index for document " +:+ document_id)
  end.

(** [load_index] *)
Definition load_index (document_id : string) : M World bool :=
  w ← get;
  match fs w !! index_file w document_id, fs w !! meta_file w document_id with
  | Some index_blob, Some meta_blob =>
      index ← call (read_index index_blob);
      modify (set_indices <[document_id := index]>);;
      table ← call (pickle_load meta_blob);
      modify (set_metadata <[document_id := table]>);;
      logger INFO ("Loaded index for document " +:+ document_id);;
      mret true
  | _, _ => mret false
  end.

(** [delete_index] *)
Definition delete_index (document_id : string) : M World unit :=
  modify (set_indices (delete document_id));;
  modify (set_metadata (delete document_id));;
  w ← get;
  modify (set_fs (delete (index_file w document_id)));;
  modify (set_fs (delete (meta_file w document_id)));;
  logger INFO ("Deleted index for document " +:+ document_id).

(** The dictionary returned by [get_index_stats]; [None] is [{}]. *)
Record Stats : Type := mkStats {
  total_vectors : Z;
  dimension : Z;
  metadata_entries : Z
}.

(** [get_index_stats] *)
Definition get_index_stats (document_id : string) (w : World) : option Stats :=
  match indices (self w) !! document_id with
  | None => None
  | Some index =>
      Some (mkStats (ntotal index) get_dimension
              (Z.of_nat (size (default ∅ (metadata (self w) !! document_id)))))
  end.

(** *** [GlobalIndexManager] *)

(** The fields that [GlobalIndexManager.__init__] adds to its base. *)
Record GlobalIndexManager : Type := mkGlobal {
  base : FAISSIndexManager;
  nlist : Z;
  global_index : option (IndexIVFFlat Vec);
  global_metadata : gmap Z pydict;
  is_trained : bool
}.

Definition set_global_index (f : option (IndexIVFFlat Vec) -> option (IndexIVFFlat Vec))
    (g : GlobalIndexManager) : GlobalIndexManager :=
  mkGlobal (base g) (nlist g) (f (global_index g)) (global_metadata g) (is_trained g).

Definition set_global_metadata (f : gmap Z pydict -> gmap Z pydict)
    (g : GlobalIndexManager) : GlobalIndexManager :=
  mkGlobal (base g) (nlist g) (global_index g) (f (global_metadata g)) (is_trained g).

Definition set_is_trained (b : bool) (g : GlobalIndexManager) : GlobalIndexManager :=
  mkGlobal (base g) (nlist g) (global_index g) (global_metadata g) b.

(** [GlobalIndexManager.__init__] *)
Definition global__init__ (index_path : string) (nlist : Z) : GlobalIndexManager :=
  mkGlobal (__init__ index_path) nlist None ∅ false.

(** A method call on [self.global_index]. *)
Definition on_global_index {A} (f : IndexIVFFlat Vec -> M GlobalIndexManager A)
    : M GlobalIndexManager A :=
  g ← get;
  match global_index g with
  | Some index => f index
  | None => raise AttributeError
  end.

(** [self.global_index.train(x); self.is_trained = True] *)
Definition train_global (x : ndarray Vec) : M GlobalIndexManager unit :=
  on_global_index (fun index =>
    index' ← call (train index x);
    modify (set_global_index (fun _ => Some index')));;
  modify (set_is_trained true).

(** [create_global_index] *)
Definition create_global_index (training_vectors : option (ndarray Vec))
    : M GlobalIndexManager unit :=
  let dimension := get_dimension in
  g ← get;
  modify (set_global_index (fun _ => Some (new_IndexIVFFlat dimension (nlist g))));;
  match training_vectors with
  | Some tv =>
      if nd_len tv >=? nlist g then
        train_global tv;;
        logger INFO "Global index trained"
      else mret tt
  | None => mret tt
  end.

(** The metadata loop of [add_to_global_index]. *)
Fixpoint store_global_metadata (document_id : string) (start_id i : Z)
    (items : list (string * pydict)) : M GlobalIndexManager unit :=
  match items with
  | [] => mret tt
  | (chunk_id, meta) :: rest =>
      modify (set_global_metadata
        <[start_id + i :=
            meta ∪ <["document_id" := PStr document_id]>
                     {["chunk_id" := PStr chunk_id]}]>);;
      store_global_metadata document_id start_id (i + 1) rest
  end.

(** [add_to_global_index] *)
Definition add_to_global_index (document_id : string) (chunk_ids : list string)
    (embeddings : ndarray Vec) (chunk_metadata : list pydict)
    : M GlobalIndexManager unit :=
  g ← get;
  (match global_index g with
   | None => create_global_index (Some embeddings)
   | Some _ => mret tt
   end);;
  g ← get;
  (if negb (is_trained g) && (nd_len embeddings >=? nlist g)
   then train_global embeddings
   else mret tt);;
  g ← get;
  if negb (is_trained g) then
    logger WARNING "Global index not trained yet. Need more vectors."
  else
    let start_id := Z.of_nat (size (global_metadata g)) in
    let numeric_ids :=
      List.map (fun i => start_id + i) (range (Z.of_nat (List.length chunk_ids))) in
    on_global_index (fun index =>
      index' ← call (ivf_add_with_ids index embeddings numeric_ids);
      modify (set_global_index (fun _ => Some index')));;
    store_global_metadata document_id start_id 0 (zip chunk_ids chunk_metadata).

(** The body of the result loop of [global_search]. *)
Definition global_result_of_hit (table : gmap Z pydict) (hit : Score * Z)
    : option SearchResult :=
  let '(score, idx) := hit in
  if idx =? -1 then None
  else
    let meta := default ∅ (table !! idx) in
    if decide (meta = ∅) then None
    else Some (mkSearchResult
                 (default (PStr "") (meta !! "chunk_id"))
                 (default (PStr "") (meta !! "content"))
                 score
                 (default (PInt 0) (meta !! "page_number"))
                 (default (PStr "") (meta !! "document_id"))).

(** [global_search] *)
Definition global_search (query : string) (k : Z)
    : M GlobalIndexManager (list SearchResult) :=
  g ← get;
  if bool_decide (global_index g = None) || negb (is_trained g) then mret []
  else
    let query_embedding := generate_embedding query in
    on_global_index (fun index =>
      modify (set_global_index (fun _ => Some (set_nprobe (Z.min 10 (nlist g)) index))));;
    hits ← on_global_index (fun index => call (ivf_search index query_embedding k));
    g ← get;
    mret (omap (global_result_of_hit (global_metadata g)) hits).

End WithLib.

End Index.

(** ** A small instance of the library interface

    Vectors of integers with the exact inner product as score, an
    exhaustive scan that keeps the [k] best rows and pads with label [-1],
    and files that hold what was written.  [newest_first] fixes where a row
    goes among rows of equal score. *)

Module Scan.

Definition dot (u v : list Z) : Z := foldr Z.add 0 (zip_with Z.mul u v).

Definition lowest : Z := - 2 ^ 127.

Fixpoint insert_hit (newest_first : bool) (h : Z * Z) (hits : list (Z * Z))
    : list (Z * Z) :=
  match hits with
  | [] => [h]
  | h' :: rest =>
      if (h'.1 <? h.1) || (newest_first && (h'.1 =? h.1)) then h :: hits
      else h' :: insert_hit newest_first h rest
  end.

Definition ranked (newest_first : bool) (rows : list (Z * list Z)) (q : list Z)
    : list (Z * Z) :=
  foldl (fun acc row => insert_hit newest_first (dot q row.2, row.1) acc) [] rows.

Definition top_k (newest_first : bool) (d : Z) (rows : list (Z * list Z))
    (q : list Z) (k : Z) : result (list (Z * Z)) :=
  if negb (Z.of_nat (List.length q) =? d) then Raise AssertionError
  else if k <=? 0 then Raise AssertionError
  else
    let best := take (Z.to_nat k) (ranked newest_first rows q) in
    Ok (best ++ replicate (Z.to_nat k - List.length best)%nat (lowest, -1)).

Inductive file : Type :=
| IndexFile (index : IndexIDMap (list Z))
| MetaFile (table : gmap Z pydict).

(** The embedding of a text: its length and its number of spaces. *)
Fixpoint spaces (s : string) : Z :=
  match s with
  | EmptyString => 0
  | String c r => (if Ascii.eqb c " "%char then 1 else 0) + spaces r
  end.

Definition lib (newest_first : bool) (dim : Z) : Lib := {|
  Vec := list Z;
  Score := Z;
  Blob := file;
  get_dimension := dim;
  generate_embedding := fun text => take (Z.to_nat dim) [len text; spaces text] ++
                          replicate (Z.to_nat dim - 2)%nat 0;
  flat_search := fun index q k => top_k newest_first (flat_d index) (flat_rows index) q k;
  ivf_search := fun index q k => top_k newest_first (ivf_d index) (ivf_rows index) q k;
  write_index := IndexFile;
  read_index := fun b => match b with IndexFile i => Ok i | MetaFile _ => Raise RuntimeError end;
  pickle_dump := MetaFile;
  pickle_load := fun b => match b with MetaFile t => Ok t | IndexFile _ => Raise RuntimeError end
|}.

End Scan.

(** ** Closed forms used to state what the methods do *)

Module IndexSpec.

Import Index.

Section WithLib.

Context {L : Lib}.

(** The entry written for one chunk by [add_embeddings]. *)
Definition entry (chunk_id : string) (meta : pydict) : pydict :=
  meta ∪ {["chunk_id" := PStr chunk_id]}.

(** The table after the metadata loop of [add_embeddings]. *)
Fixpoint write_entries (start_id i : Z) (items : list (string * pydict))
    (table : gmap Z pydict) : gmap Z pydict :=
  match items with
  | [] => table
  | (chunk_id, meta) :: rest =>
      write_entries start_id (i + 1) rest
        (<[start_id + i := entry chunk_id meta]> table)
  end.

(** The world after the implicit [create_index] of [add_embeddings]. *)
Definition with_index (document_id : string) (w : World) : World :=
  if decide (document_id ∈ dom (indices (self w))) then w
  else out_state (create_index document_id w).

(** What [with_index] logs. *)
Definition with_index_log (document_id : string) (w : World) : list (level * string) :=
  if decide (document_id ∈ dom (indices (self w))) then []
  else [(INFO, "Created FAISS index for document " +:+ document_id)].

(** The index and the metadata table of a document. *)
Definition doc_index (document_id : string) (w : World) : IndexIDMap Vec :=
  default (IndexFlatIP get_dimension) (indices (self w) !! document_id).

Definition doc_table (document_id : string) (w : World) : gmap Z pydict :=
  default ∅ (metadata (self w) !! document_id).

(** The ids that [add_embeddings] hands to faiss. *)
Definition numeric_ids (start_id : Z) (chunk_ids : list string) : list Z :=
  List.map (fun i => start_id + i) (range (Z.of_nat (List.length chunk_ids))).

(** In every reachable manager a document with an index has a
    metadata table. *)
Definition has_table (document_id : string) (w : World) : Prop :=
  document_id ∈ dom (indices (self w)) -> document_id ∈ dom (metadata (self w)).

(** The stored rows of the global index, none before it is created. *)
Definition global_rows (g : GlobalIndexManager) : list (Z * Vec) :=
  match global_index g with
  | Some index => ivf_rows index
  | None => []
  end.

End WithLib.

End IndexSpec.

(** ** [search_multiple_documents] and [RAGService.build_context] *)

Module MultiSearch.

Import Index.

(** [l[:k]] on a list. *)
Definition list_upto {A} (l : list A) (k : Z) : list A :=
  take (Z.to_nat (adjust (Z.of_nat (List.length l)) k)) l.

Section WithLib.

Context {L : Lib}.

(** [a < b] on the floats that are scores. *)
Variable score_lt : Score -> Score -> bool.

(** [all_results.sort(key=lambda x: x.score, reverse=True)]: the sort is
    stable, results of equal score keep their order.  A result is put
    after the results of strictly greater score. *)
Fixpoint insert_by_score (r : SearchResult) (sorted : list SearchResult)
    : list SearchResult :=
  match sorted with
  | [] => [r]
  | r' :: rest =>
      if score_lt (score r) (score r') then r' :: insert_by_score r rest
      else r :: sorted
  end.

Definition sort_by_score (results : list SearchResult) : list SearchResult :=
  foldr insert_by_score [] results.

(** The loop of [search_multiple_documents]. *)
Fixpoint search_each (document_ids : list string) (query : string) (k : Z)
    (all_results : list SearchResult) : M World (list SearchResult) :=
  match document_ids with
  | [] => mret all_results
  | doc_id :: rest =>
      results ← search doc_id query k;
      search_each rest query k (all_results ++ results)
  end.

(** [search_multiple_documents] *)
Definition search_multiple_documents (document_ids : list string) (query : string)
    (k : Z) : M World (list SearchResult) :=
  all_results ← search_each document_ids query k [];
  mret (list_upto (sort_by_score all_results) k).

End WithLib.

End MultiSearch.

Module RAG.

Import Index MultiSearch.

(** The fields of a [RAGService] that [build_context] and [query] read;
    its index manager is the state its methods run on. *)
Record RAGService : Type := mkRAG {
  model : string;
  max_context_chunks : Z;
  max_context_tokens : Z
}.

(** [RAGService.__init__] *)
Definition default_service : RAGService := mkRAG "gpt-3.5-turbo" 5 3000.

(** [len(v)]: a [TypeError] ([None]) for an int. *)
Definition pylen (v : pyval) : option Z :=
  match v with
  | PStr s => Some (len s)
  | PInt _ => None
  end.

(** [str(v)], as an f-string formats it. *)
Definition pystr (v : pyval) : string :=
  match v with
  | PStr s => s
  | PInt n => pretty n
  end.

Definition NL : string := String (ascii_of_nat 10) EmptyString.

Section WithLib.

Context {L : Lib}.

(** [f"[Source {i+1}, Page {result.page_number}]:\n{result.content}"] *)
Definition context_part (i : Z) (result : SearchResult) : string :=
  "[Source " +:+ pretty (i + 1) +:+ ", Page " +:+ pystr (page_number result)
  +:+ "]:" +:+ NL +:+ pystr (content result).

(** The loop of [build_context]; [None] is the [TypeError] of [len]. *)
Fixpoint context_loop (self : RAGService) (i : Z) (results : list SearchResult)
    (total_tokens : Z) (context_parts : list string) : option (list string) :=
  match results with
  | [] => Some context_parts
  | result :: rest =>
      n ← pylen (content result);
      let chunk_tokens := n / 4 in
      if total_tokens + chunk_tokens >? max_context_tokens self then Some context_parts
      else context_loop self (i + 1) rest (total_tokens + chunk_tokens)
             (context_parts ++ [context_part i result])
  end.

(** [build_context] *)
Definition build_context (self : RAGService) (search_results : list SearchResult)
    : option string :=
  context_parts ←
    context_loop self 0 (list_upto search_results (max_context_chunks self)) 0 [];
  Some (String.concat (NL +:+ NL) context_parts).

End WithLib.

End RAG.

(** ** [ConversationManager] *)

Module Conversation.

Import RAG MultiSearch.

(** The fields of a [ConversationManager]. *)
Record ConversationManager : Type := mkConversation {
  max_history : Z
}.

(** [l[a:]] on a list. *)
Definition list_from {A} (l : list A) (a : Z) : list A :=
  drop (Z.to_nat (adjust (Z.of_nat (List.length l)) a)) l.

(** A stored message; [timestamp] is [None] when the message has none. *)
Record StoredMessage : Type := mkStored {
  role : pyval;
  content : pyval;
  timestamp : option pyval
}.

(** The dictionary built for one message; [None] is the [KeyError] of
    [msg['role']] or [msg['content']]. *)
Definition stored_message (msg : pydict) : option StoredMessage :=
  r ← msg !! "role";
  c ← msg !! "content";
  Some (mkStored r c (msg !! "timestamp")).

(** [format_history_for_storage] *)
Definition format_history_for_storage (self : ConversationManager)
    (messages : list pydict) : option (list StoredMessage) :=
  mapM stored_message (list_from messages (- max_history self)).

(** [len(msg['content']) // 4]; [None] is the [KeyError] of the lookup
    or the [TypeError] of [len]. *)
Definition msg_tokens (msg : pydict) : option Z :=
  c ← msg !! "content";
  n ← pylen c;
  Some (n / 4).

(** The loop of [truncate_history] over [reversed(messages)]. *)
Fixpoint truncate_loop (max_tokens : Z) (reversed_messages : list pydict)
    (total_tokens : Z) (truncated : list pydict) : option (list pydict) :=
  match reversed_messages with
  | [] => Some truncated
  | msg :: rest =>
      tokens ← msg_tokens msg;
      if total_tokens + tokens >? max_tokens then Some truncated
      else truncate_loop max_tokens rest (total_tokens + tokens) (msg :: truncated)
  end.

(** [truncate_history] *)
Definition truncate_history (messages : list pydict) (max_tokens : Z)
    : option (list pydict) :=
  truncate_loop max_tokens (reverse messages) 0 [].

End Conversation.

(** ** The upload route *)

Module Routes.

Import PDF.

(** [c.lower()] on one character: A..Z and the capital letters of
    Latin-1. *)
Definition lower_char (c : ascii) : ascii :=
  let n := nat_of_ascii c in
  if ((65 <=? n) && (n <=? 90))%nat
     || ((192 <=? n) && (n <=? 222) && negb (n =? 215))%nat
  then ascii_of_nat (n + 32)
  else c.

(** [s.lower()] *)
Fixpoint lower (s : string) : string :=
  match s with
  | EmptyString => EmptyString
  | String c r => String (lower_char c) (lower r)
  end.

(** [s.rsplit(sep, 1)[1]]: what follows the last [sep]; [None] is the
    [IndexError] when [sep] is not in [s]. *)
Fixpoint after_last (sep : ascii) (s : string) : option string :=
  match s with
  | EmptyString => None
  | String c r =>
      match after_last sep r with
      | Some t => Some t
      | None => if Ascii.eqb c sep then Some r else None
      end
  end.

(** [allowed_file] *)
Definition allowed_file (filename : string) : bool :=
  char_in "."%char filename
  && match after_last "."%char filename with
     | Some extension => String.eqb (lower extension) "pdf"
     | None => false
     end.

(** The metadata record that [upload_document] builds for a chunk. *)
Definition chunk_metadata_of (chunk : PDFChunk) : pydict :=
  <["page_number" := PInt (page_number chunk)]> {["content" := PStr (content chunk)]}.

(** [chunk_metadata] after the loop of [upload_document]. *)
Definition upload_metadata (chunks : list PDFChunk) : list pydict :=
  List.map chunk_metadata_of chunks.

End Routes.

(** ** Token counts of contexts and histories *)

Module ContextSpec.

Import Index RAG Conversation.

Section WithLib.

Context {L : Lib}.

(** [len(result.content) // 4] of a result whose content is a string. *)
Definition chunk_tokens (result : SearchResult) : Z :=
  default 0 (pylen (Index.content result)) / 4.

Definition context_tokens (results : list SearchResult) : Z :=
  foldr (fun result n => chunk_tokens result + n) 0 results.

(** The parts of the results, numbered from [i + 1]. *)
Fixpoint parts_from (i : Z) (results : list SearchResult) : list string :=
  match results with
  | [] => []
  | result :: rest => context_part i result :: parts_from (i + 1) rest
  end.

End WithLib.

Definition history_tokens (messages : list pydict) : Z :=
  foldr (fun msg n => default 0 (msg_tokens msg) + n) 0 messages.

End ContextSpec.

(** ** [extract_text_from_pdf]: the page table *)

Module Extract.

Import PDF.

(** The loop of [extract_text_from_pdf] over the texts that PyMuPDF gives
    for the pages of the document. *)
Fixpoint extract_loop (texts : list string) (page_num : Z) (full_text : string)
    (page_texts : list PageText) : string * list PageText :=
  match texts with
  | [] => (full_text, page_texts)
  | text :: rest =>
      extract_loop rest (page_num + 1)
        (full_text +:+ (text +:+ String NL EmptyString))
        (page_texts ++ [mkPage (page_num + 1) text (len full_text)])
  end.

(** [full_text] and [page_texts] as [extract_text_from_pdf] returns them. *)
Definition extract_text (texts : list string) : string * list PageText :=
  extract_loop texts 0 EmptyString [].

(** The texts of the pages, each followed by a newline. *)
Fixpoint joined (texts : list string) : string :=
  match texts with
  | [] => EmptyString
  | text :: rest => text +:+ (String NL EmptyString +:+ joined rest)
  end.

(** The table of the pages numbered from [page_num + 1], the first of
    which starts at offset [start]. *)
Fixpoint pages_from (page_num start : Z) (texts : list string) : list PageText :=
  match texts with
  | [] => []
  | text :: rest =>
      mkPage (page_num + 1) text start
      :: pages_from (page_num + 1) (start + len text + 1) rest
  end.

End Extract.

(** ** [RAGService.query] *)

Module RAGQuery.

Import Index MultiSearch RAG.

(** What [query] raises: an exception of the index manager, the
    [TypeError] of [len] on a content that is no string, or the
    [OpenAIError] it logs and raises again. *)
Inductive error : Type :=
| ManagerError (e : exn)
| TypeError
| OpenAIError (message : string).

Definition system_prompt : string :=
"You are an intelligent document assistant that answers questions based on the provided context from PDF documents.

Guidelines:
1. Answer questions accurately based ONLY on the provided context
2. If the context doesn't contain relevant information, say so clearly
3. Cite specific sources using [Source N] notation when referencing information
4. Be concise but comprehensive
5. If asked about something not in the context, acknowledge the limitation
6. Maintain a professional, helpful tone".

(** [create_prompt] *)
Definition create_prompt (query context : string) : list pydict :=
  let user_prompt :=
    "Context from document:
" +:+ context +:+ "

Question: " +:+ query +:+ "

Please provide a detailed answer based on the context above. If the context doesn't contain sufficient information to answer the question, please indicate that." in
  [ <["role" := PStr "system"]> {["content" := PStr system_prompt]};
    <["role" := PStr "user"]> {["content" := PStr user_prompt]} ].

(** [content[:200] + '...' if len(content) > 200 else content]; [None] is
    the [TypeError] of [len]. *)
Definition preview (content : pyval) : option pyval :=
  match content with
  | PStr s => Some (PStr (if len s >? 200 then slice s 0 200 +:+ "..." else s))
  | PInt _ => None
  end.

Section WithLib.

Context {L : Lib}.

(** [openai.ChatCompletion.create] on the messages, with the model and
    the settings of the service: the answer and [usage.total_tokens], or
    the message of an [OpenAIError]. *)
Variable chat_completion : list pydict -> string + (string * Z).

(** [0.0] and [min(sum(scores) / len(scores), 1.0)] on floats. *)
Variable zero : Score.
Variable confidence : list Score -> Score.

(** One entry of [sources]. *)
Record Source : Type := mkSource {
  src_chunk_id : pyval;
  src_page_number : pyval;
  src_score : Score;
  src_preview : pyval
}.

(** A [RAGResponse] without [response_time_ms], which is read from the
    clock. *)
Record RAGResponse : Type := mkResponse {
  answer : string;
  sources : list Source;
  confidence_score : Score;
  tokens_used : Z;
  response_model : string
}.

(** What a call of [query] gives: the response or the exception, the
    index manager of the service, what the manager logged and what the
    service logged with [logger.error]. *)
Record run : Type := mkRun {
  run_val : error + RAGResponse;
  run_state : World;
  run_log : list (level * string);
  run_errors : list string
}.

Definition source_of (r : SearchResult) : option Source :=
  p ← preview (content r);
  Some (mkSource (chunk_id r) (page_number r) (score r) p).

(** The response of [query] when the search finds nothing. *)
Definition nothing_found (self : RAGService) : RAGResponse :=
  mkResponse
    "I couldn't find any relevant information in the document to answer your question. Please try rephrasing your question or ensure the document has been processed correctly."
    [] zero 0 (model self).

(** [query], on the index manager of the service. *)
Definition query (self : RAGService) (document_id query : string) (k : Z)
    (w : World) : run :=
  let o := search document_id query k w in
  match out_val o with
  | Raise e => mkRun (inl (ManagerError e)) (out_state o) (out_log o) []
  | Ok [] => mkRun (inr (nothing_found self)) (out_state o) (out_log o) []
  | Ok search_results =>
      match build_context self search_results with
      | None => mkRun (inl TypeError) (out_state o) (out_log o) []
      | Some context =>
          let messages := create_prompt query context in
          match chat_completion messages with
          | inl message =>
              mkRun (inl (OpenAIError message)) (out_state o) (out_log o)
                    ["OpenAI API error: " +:+ message]
          | inr (answer, tokens_used) =>
              match mapM source_of search_results with
              | None => mkRun (inl TypeError) (out_state o) (out_log o) []
              | Some sources =>
                  mkRun (inr (mkResponse answer sources
                                (confidence (score <$> search_results))
                                tokens_used (model self)))
                        (out_state o) (out_log o) []
              end
          end
      end
  end.

(** A sequence of queries [(document_id, query, k)] on one service. *)
Fixpoint queries (self : RAGService) (requests : list (string * string * Z))
    (w : World) : list (error + RAGResponse) :=
  match requests with
  | [] => []
  | (document_id, q, k) :: rest =>
      let r := query self document_id q k w in
      run_val r :: queries self rest (run_state r)
  end.

End WithLib.

End RAGQuery.

(** ** Ordinals and metadata in step *)

Module ManagerSpec.

Import Index IndexSpec.

Section WithLib.

Context {L : Lib}.

(** The ordinals [0 .. n-1] in order. *)
Definition ordinals (n : nat) : list Z := List.map Z.of_nat (seq 0 n).

(** The index and the metadata table of a document are in step: the
    stored ordinals are [0 .. n-1] in order, the table has exactly these
    keys, and no entry is empty. *)
Definition in_sync (document_id : string) (w : World) : Prop :=
  exists index table,
    indices (self w) !! document_id = Some index
    /\ metadata (self w) !! document_id = Some table
    /\ (flat_rows index).*1 = ordinals (List.length (flat_rows index))
    /\ size table = List.length (flat_rows index)
    /\ (forall j, is_Some (table !! j) <-> 0 <= j < Z.of_nat (List.length (flat_rows index)))
    /\ (forall j meta, table !! j = Some meta -> meta <> ∅).

(** The entry written for one chunk by [add_to_global_index]. *)
Definition global_entry (document_id chunk_id : string) (meta : pydict) : pydict :=
  meta ∪ <["document_id" := PStr document_id]> {["chunk_id" := PStr chunk_id]}.

(** The table after the metadata loop of [add_to_global_index]. *)
Fixpoint write_global_entries (document_id : string) (start_id i : Z)
    (items : list (string * pydict)) (table : gmap Z pydict) : gmap Z pydict :=
  match items with
  | [] => table
  | (chunk_id, meta) :: rest =>
      write_global_entries document_id start_id (i + 1) rest
        (<[start_id + i := global_entry document_id chunk_id meta]> table)
  end.

(** The trained index that [add_to_global_index] adds to: the index of
    the manager, or a new one, trained on the batch when it was not
    trained. *)
Definition ready_index (g : GlobalIndexManager) (embeddings : ndarray Vec)
    : IndexIVFFlat Vec :=
  let index := default (new_IndexIVFFlat get_dimension (nlist g)) (global_index g) in
  if ivf_is_trained index then index
  else mk_ivf (ivf_d index) (ivf_nlist index) true (nd_rows embeddings)
              (ivf_rows index) (nprobe index).

(** The flag [is_trained] of a manager tells whether its global index is
    trained, and that index has the dimension of the embeddings and
    [nlist] clusters. *)
Definition global_ok (g : GlobalIndexManager) : Prop :=
  match global_index g with
  | None => is_trained g = false
  | Some index =>
      ivf_is_trained index = is_trained g
      /\ ivf_d index = get_dimension
      /\ ivf_nlist index = nlist g
  end.

End WithLib.

End ManagerSpec.

(** ** Invariants of the chunking loop *)

Module ChunkerSpec.

Import PDF.

(** What holds of a chunk that the loop of [chunk_text] appends. *)
Definition chunk_ok (self : PDFProcessor) (text : string) (page_texts : list PageText)
    (c : PDFChunk) : Prop :=
  start_char c < end_char c
  /\ end_char c <= len text
  /\ content c = strip (slice text (start_char c) (end_char c))
  /\ min_chunk_size self <= len (content c)
  /\ token_count c = len (content c) / 4
  /\ page_number c = _get_page_for_position (start_char c) page_texts.

(** What holds of the loop variables at the head of the loop. *)
Definition loop_inv (self : PDFProcessor) (text : string) (page_texts : list PageText)
    (st : loop_state) : Prop :=
  ls_chunk_index st = Z.of_nat (List.length (ls_chunks st))
  /\ (forall (i : nat) c, ls_chunks st !! i = Some c -> chunk_index c = Z.of_nat i)
  /\ StronglySorted (fun c1 c2 => start_char c1 < start_char c2) (ls_chunks st)
  /\ Forall (fun c => start_char c < ls_start st) (ls_chunks st)
  /\ Forall (chunk_ok self text page_texts) (ls_chunks st).

(** Whether the first, or the last, character of a string is whitespace. *)
Definition head_space (s : string) : bool :=
  match s with
  | EmptyString => false
  | String c _ => isspace c
  end.

Fixpoint last_space (s : string) : bool :=
  match s with
  | EmptyString => false
  | String c EmptyString => isspace c
  | String _ r => last_space r
  end.

End ChunkerSpec.

(** ** Concrete inputs used below *)

Module Fixtures.

Import PDF Index.

(** A ten-character text and a processor whose overlap is smaller than
    its minimum chunk size. *)
Definition stall_text : string := "aaaaaaaaaa".
Definition stall_processor : PDFProcessor := mkProcessor 10 2 5.
Definition stall_pages : list PageText := [mkPage 1 stall_text 0].

(** The loop variables after the first window of [stall_text]. *)
Definition stall_state : loop_state :=
  mkLoop 8 1 [mkChunk stall_text 1 0 0 10 2].

Definition short_text : string := "  too 	short ".

(** A text of 1000 letters. *)
Fixpoint letters (n : nat) : string :=
  match n with
  | O => EmptyString
  | S n => String "a"%char (letters n)
  end.
Definition long_text : string := letters 1000.

(** Two libraries of dimension 2 that differ in the order of equal
    scores, and one of dimension 384. *)
Definition lib2 : Lib := Scan.lib false 2.
Definition lib2_newest : Lib := Scan.lib true 2.
Definition lib384 : Lib := Scan.lib false 384.

Definition meta_of (text : string) (page : Z) : pydict :=
  <["content" := PStr text]> (<["page_number" := PInt page]> ∅).

Definition empty_world {L : Lib} : World := mkWorld (__init__ "/tmp/faiss_indices") ∅.

(** A batch of one 300-dimensional vector. *)
Definition batch300 : ndarray (list Z) := mk_ndarray 300 [replicate 300 0].

(** Two equal vectors of dimension 2. *)
Definition batch2 : ndarray (list Z) := mk_ndarray 2 [[1; 0]; [1; 0]].

(** One vector of dimension 2. *)
Definition batch1 : ndarray (list Z) := mk_ndarray 2 [[1; 0]].

(** Two different vectors of dimension 2. *)
Definition batch2' : ndarray (list Z) := mk_ndarray 2 [[1; 0]; [0; 1]].

(** Four vectors of dimension 2. *)
Definition batch4 : ndarray (list Z) := mk_ndarray 2 [[1; 0]; [0; 1]; [1; 1]; [2; 0]].

(** A document with two chunks, both with metadata. *)
Definition world_two {L : Lib} (batch : ndarray Vec) : World :=
  out_state (add_embeddings "doc" ["c0"; "c1"] batch
               [meta_of "x" 1; meta_of "y" 2] empty_world).

(** A document with two vectors and metadata for the first only. *)
Definition world_orphan {L : Lib} (batch : ndarray Vec) : World :=
  out_state (add_embeddings "doc" ["c0"; "c1"] batch [meta_of "x" 1] empty_world).

(** A document whose index was created and is still empty. *)
Definition world_created {L : Lib} : World := out_state (create_index "doc" empty_world).

(** Global managers with [nlist = 2]: new, created but untrained, and
    trained on two vectors with nothing added. *)
Definition global_new {L : Lib} : GlobalIndexManager := global__init__ "/tmp/faiss_indices" 2.
Definition global_untrained {L : Lib} : GlobalIndexManager :=
  out_state (create_global_index None global_new).
Definition global_trained_empty {L : Lib} (batch : ndarray Vec) : GlobalIndexManager :=
  out_state (create_global_index (Some batch) global_new).
Definition global_orphan {L : Lib} (batch : ndarray Vec) : GlobalIndexManager :=
  out_state (add_to_global_index "doc" ["c0"; "c1"] batch [meta_of "x" 1] global_new).

End Fixtures.

(** ** More concrete inputs *)

Module Examples.

Import PDF Index Fixtures.

(** Three pages that start at offsets 0, 100 and 250. *)
Definition three_pages : list PageText :=
  [mkPage 1 "" 0; mkPage 2 "" 100; mkPage 3 "" 250].

Definition sentence_text : string := "Hello world. Next".

(** Processors that keep the last window of [stall_text], and that have no
    overlap. *)
Definition keeping_processor : PDFProcessor := mkProcessor 10 2 2.
Definition disjoint_processor : PDFProcessor := mkProcessor 4 0 2.

(** A saved document, and the same with an index file in the place of
    its metadata file. *)
Definition world_saved : World (L:=lib2) :=
  out_state (save_index "doc" (world_two (L:=lib2) batch2')).
Definition world_bad_meta : World (L:=lib2) :=
  set_fs <[meta_file world_saved "doc" := Scan.IndexFile (IndexFlatIP 2)]> world_saved.

(** Two chunks as [chunk_text] makes them. *)
Definition two_chunks : list PDFChunk :=
  [mkChunk "Hello world." 1 0 0 13 3; mkChunk "Next" 2 1 13 17 1].

(** Three results with contents of 2, 1 and 3 tokens, and a service with
    a budget of 4 tokens. *)
Definition three_results : list (SearchResult (L:=lib2)) :=
  [mkSearchResult (L:=lib2) (PStr "c0") (PStr "12345678") 9 (PInt 1) (PStr "doc");
   mkSearchResult (L:=lib2) (PStr "c1") (PStr "abcd") 7 (PInt 2) (PStr "doc");
   mkSearchResult (L:=lib2) (PStr "c2") (PStr "0123456789ab") 5 (PInt 2) (PStr "doc")].
Definition tight_service : RAG.RAGService := RAG.mkRAG "gpt-3.5-turbo" 5 4.

(** Three messages of 2, 1 and 3 tokens. *)
Definition message (role text : string) : pydict :=
  <["role" := PStr role]> {["content" := PStr text]}.
Definition chat : list pydict :=
  [message "user" "12345678"; message "assistant" "abcd";
   message "user" "0123456789ab"].

End Examples.

(** ** Properties of [chunk_text] *)

Module PDFFacts.

Import PDF Fixtures.

(** A loop state that the body maps to itself is never left. *)
Lemma chunk_loop_fixed_point self text page_texts st :
  ls_start st < len text ->
  loop_body self text page_texts st = Ok st ->
  forall fuel, chunk_loop self text page_texts fuel st = None.
Proof.
  intros Hlt Hfix fuel.
  induction fuel as [|fuel IH]; simpl.
  - destruct (Z.ltb_spec (ls_start st) (len text)); [reflexivity | lia].
  - destruct (Z.ltb_spec (ls_start st) (len text)); [| lia].
    rewrite Hfix. exact IH.
Qed.

Lemma clean_stall_text normalize_NFKC :
  normalize_NFKC stall_text = stall_text ->
  _clean_text normalize_NFKC stall_text = stall_text.
Proof.
  intros H. unfold _clean_text.
  change (remove_char NUL (sub_ws false stall_text)) with stall_text.
  rewrite H. reflexivity.
Qed.

(** C1 (the code departs from the claim): on the ten-character text
    [stall_text] with [chunk_size = 10], [chunk_overlap = 2] and
    [min_chunk_size = 5], the second window of [chunk_text] starts at 8,
    is dropped as too short, and the body of the loop leaves the window
    start at 8: the start does not increase and the loop does not end for
    any number of iterations. *)
Theorem chunk_text_stalls (normalize_NFKC : string -> string) :
  normalize_NFKC stall_text = stall_text ->
  loop_body stall_processor stall_text stall_pages (mkLoop 0 0 []) = Ok stall_state
  /\ ls_start stall_state < len stall_text
  /\ loop_body stall_processor stall_text stall_pages stall_state = Ok stall_state
  /\ forall fuel,
       chunk_text normalize_NFKC stall_processor fuel stall_text stall_pages = None.
Proof.
  intros H.
  assert (Hfirst : loop_body stall_processor stall_text stall_pages (mkLoop 0 0 [])
                   = Ok stall_state) by (vm_compute; reflexivity).
  assert (Hfix : loop_body stall_processor stall_text stall_pages stall_state
                 = Ok stall_state) by (vm_compute; reflexivity).
  assert (Hlt : ls_start stall_state < len stall_text) by (vm_compute; reflexivity).
  repeat split; try assumption.
  intros fuel. unfold chunk_text. rewrite (clean_stall_text _ H).
  change (len stall_text <? min_chunk_size stall_processor) with false. cbv iota.
  destruct fuel as [|fuel]; [reflexivity |].
  cbn [chunk_loop].
  change (ls_start (mkLoop 0 0 []) <? len stall_text) with true. cbv iota.
  rewrite Hfirst.
  apply chunk_loop_fixed_point; assumption.
Qed.

Lemma chunk_text_stalls_witness :
  (fun s : string => s) stall_text = stall_text
  /\ forall fuel,
       chunk_text (fun s => s) stall_processor fuel stall_text stall_pages = None.
Proof.
  split; [reflexivity |].
  apply (chunk_text_stalls (fun s => s)). reflexivity.
Defined.

(** C9: when the cleaned text is shorter than [min_chunk_size],
    [chunk_text] returns exactly one chunk: the whole cleaned text, from
    offset 0 to its length, on page 1 with chunk index 0. *)
Theorem chunk_text_short_document (normalize_NFKC : string -> string)
    (self : PDFProcessor) (fuel : nat) (text : string) (page_texts : list PageText) :
  len (_clean_text normalize_NFKC text) < min_chunk_size self ->
  exists c,
    chunk_text normalize_NFKC self fuel text page_texts = Some (Ok [c])
    /\ content c = _clean_text normalize_NFKC text
    /\ start_char c = 0
    /\ end_char c = len (_clean_text normalize_NFKC text)
    /\ page_number c = 1
    /\ chunk_index c = 0.
Proof.
  intros Hshort. unfold chunk_text.
  apply Z.ltb_lt in Hshort. rewrite Hshort.
  eexists. split; [reflexivity |]. cbn. auto.
Qed.

Lemma chunk_text_short_document_witness :
  len (_clean_text (fun s => s) short_text) < min_chunk_size default_processor
  /\ exists c,
       chunk_text (fun s => s) default_processor 0 short_text [] = Some (Ok [c])
       /\ content c = "too short"
       /\ start_char c = 0 /\ end_char c = 9 /\ page_number c = 1 /\ chunk_index c = 0.
Proof.
  assert (Hshort : len (_clean_text (fun s => s) short_text)
                   < min_chunk_size default_processor) by (vm_compute; reflexivity).
  split; [exact Hshort |].
  exact (chunk_text_short_document (fun s => s) default_processor 0 short_text [] Hshort).
Defined.

(** The general shape of the stall: once a chunk has been appended, a
    final window that starts at [len text - chunk_overlap] and is too
    short to be kept is repeated for ever, because its start is compared
    with the start of the last appended chunk. *)
Lemma loop_body_tail_fixed_point (self : PDFProcessor) (text : string)
    (page_texts : list PageText) (index : Z) (chunks : list PDFChunk) (c : PDFChunk) :
  let start := len text - chunk_overlap self in
  last chunks = Some c ->
  start_char c < start ->
  len text <= start + chunk_size self ->
  len (strip (slice text start (len text))) < min_chunk_size self ->
  loop_body self text page_texts (mkLoop start index chunks)
  = Ok (mkLoop start index chunks).
Proof.
  intros start Hlast Hc Hend Hshort. unfold loop_body. cbn [ls_start ls_chunks ls_chunk_index].
  destruct (Z.ltb_spec (start + chunk_size self) (len text)) as [Hlt|_]; [lia |].
  cbn.
  destruct (Z.geb_spec (len (strip (slice text start (len text)))) (min_chunk_size self))
    as [Hge|_]; [lia |].
  rewrite Hlast.
  destruct (Z.leb_spec (len text - chunk_overlap self) (start_char c)) as [Hle|_];
    [unfold start in Hc; lia |].
  reflexivity.
Qed.

(** The same stall with [chunk_size = 1000], [chunk_overlap = 50] and
    [min_chunk_size = 100] on a text of 1000 letters. *)
Lemma chunk_text_stalls_at_1000 (fuel : nat) :
  chunk_text (fun s => s) (mkProcessor 1000 50 100) fuel long_text [] = None.
Proof.
  unfold chunk_text.
  assert (Hclean : _clean_text (fun s => s) long_text = long_text)
    by (vm_compute; reflexivity).
  rewrite Hclean.
  change (len long_text <? min_chunk_size (mkProcessor 1000 50 100)) with false. cbv iota.
  destruct fuel as [|fuel]; [reflexivity |].
  cbn [chunk_loop].
  change (ls_start (mkLoop 0 0 []) <? len long_text) with true. cbv iota.
  assert (Hfirst : loop_body (mkProcessor 1000 50 100) long_text [] (mkLoop 0 0 [])
                   = Ok (mkLoop 950 1 [mkChunk long_text 1 0 0 1000 250]))
    by (vm_compute; reflexivity).
  rewrite Hfirst.
  apply chunk_loop_fixed_point; [vm_compute; reflexivity |].
  apply (loop_body_tail_fixed_point (mkProcessor 1000 50 100) long_text [] 1
           [mkChunk long_text 1 0 0 1000 250] (mkChunk long_text 1 0 0 1000 250));
    vm_compute; congruence.
Qed.

(** While no chunk has been appended the guard of the loop is the
    constant 0: with an overlap larger than the chunk size the window start
    moves backwards, below 0, and [_find_break_point] ends in an
    [IndexError]. *)
Lemma chunk_text_start_regresses :
  loop_body (mkProcessor 3 5 5) "aaaaaaaaaaaa" [] (mkLoop 0 0 []) = Ok (mkLoop (-2) 0 [])
  /\ chunk_text (fun s => s) (mkProcessor 3 5 5) 20 "aaaaaaaaaaaa" [] = Some (Raise IndexError).
Proof. split; vm_compute; reflexivity. Qed.

End PDFFacts.

(** ** Properties of the index managers *)

Module IndexFacts.

Import Index IndexSpec Fixtures.

(** Runs the monad operations of a method applied to a state. *)
Ltac run :=
  unfold mbind, mret, M_bind, M_ret, get, modify, raise, logger, call;
  cbn [out_val out_state out_log].

Section WithLib.

Context {L : Lib}.

(** *** [search] and [global_search] *)

Lemma search_no_index (w : World) (document_id query : string) (k : Z) :
  indices (self w) !! document_id = None ->
  search document_id query k w =
    mkOutcome (Ok []) w [(WARNING, "No index found for document " +:+ document_id)].
Proof.
  intros Hnone. unfold search. run. rewrite Hnone. reflexivity.
Qed.

Lemma search_with_index (w : World) (document_id query : string) (k : Z)
    (index : IndexIDMap Vec) :
  indices (self w) !! document_id = Some index ->
  search document_id query k w =
    match flat_search index (generate_embedding query) k with
    | Ok hits =>
        mkOutcome
          (Ok (omap (result_of_hit (default ∅ (metadata (self w) !! document_id))
                                   document_id) hits))
          w []
    | Raise e => mkOutcome (Raise e) w []
    end.
Proof.
  intros Hsome. unfold search. run. rewrite Hsome. run.
  destruct (flat_search index (generate_embedding query) k); reflexivity.
Qed.

(** A hit labelled [-1] gives no result. *)
Lemma omap_no_result (table : gmap Z pydict) (document_id : string)
    (hits : list (Score * Z)) :
  Forall (fun hit => hit.2 = -1) hits ->
  omap (result_of_hit table document_id) hits = [].
Proof.
  induction 1 as [|[s i] hits Hi _ IH]; [reflexivity |].
  cbn in Hi. subst i. cbn. exact IH.
Qed.

Lemma global_search_trained (g : GlobalIndexManager) (query : string) (k : Z)
    (index : IndexIVFFlat Vec) :
  global_index g = Some index ->
  is_trained g = true ->
  let probed := set_nprobe (Z.min 10 (nlist g)) index in
  global_search query k g =
    match ivf_search probed (generate_embedding query) k with
    | Ok hits =>
        mkOutcome (Ok (omap (global_result_of_hit (global_metadata g)) hits))
                  (set_global_index (fun _ => Some probed) g) []
    | Raise e => mkOutcome (Raise e) (set_global_index (fun _ => Some probed) g) []
    end.
Proof.
  intros Hidx Htr probed. unfold global_search, on_global_index. run.
  rewrite Hidx, Htr. cbn. run. rewrite Hidx. run. cbn.
  fold probed.
  destruct (ivf_search probed (generate_embedding query) k); reflexivity.
Qed.

(** C3 (as amended): a search for a document that has no in-memory
    index does not fail: it returns the empty list, leaves the manager
    as it is and logs one warning.  A search on an index that exists
    and holds no vectors (the library then labels every hit [-1] or
    with a stored id, of which there are none) also returns the empty
    list, without a warning.  The returned values are the same. *)
Theorem search_missing_or_empty (w : World) (document_id query : string) (k : Z) :
  (indices (self w) !! document_id = None ->
   search document_id query k w =
     mkOutcome (Ok []) w [(WARNING, "No index found for document " +:+ document_id)])
  /\ (forall index hits,
        indices (self w) !! document_id = Some index ->
        flat_rows index = [] ->
        flat_search index (generate_embedding query) k = Ok hits ->
        Forall (fun hit => hit.2 = -1 \/ hit.2 ∈ (flat_rows index).*1) hits ->
        search document_id query k w = mkOutcome (Ok []) w []).
Proof.
  split; [apply search_no_index |].
  intros index hits Hidx Hrows Hhits Hlabels.
  rewrite (search_with_index _ _ _ _ _ Hidx), Hhits.
  rewrite omap_no_result; [reflexivity |].
  rewrite Hrows in Hlabels.
  eapply Forall_impl; [exact Hlabels |].
  intros hit [Hm | Hin]; [exact Hm |]. cbn in Hin. by apply elem_of_nil in Hin.
Qed.

(** C6 (as amended): before the global index is created or trained,
    [global_search] returns the empty list, raises nothing, logs
    nothing and leaves the manager as it is; it gives no signal that
    the index is untrained. *)
Theorem global_search_untrained (g : GlobalIndexManager) (query : string) (k : Z) :
  global_index g = None \/ is_trained g = false ->
  global_search query k g = mkOutcome (Ok []) g [].
Proof.
  intros H. unfold global_search. run.
  destruct H as [H | H]; rewrite H.
  - reflexivity.
  - rewrite orb_true_r. reflexivity.
Qed.

(** C7: an [add_to_global_index] on an untrained manager with a batch
    of fewer than [nlist] vectors returns normally after logging the
    warning; the global metadata table, the rows stored in the global
    index and the trained flag are as before, and when the global index
    had already been created the whole manager is unchanged. *)
Theorem add_to_global_index_deferred (g : GlobalIndexManager) (document_id : string)
    (chunk_ids : list string) (embeddings : ndarray Vec) (chunk_metadata : list pydict) :
  is_trained g = false ->
  nd_len embeddings < nlist g ->
  let o := add_to_global_index document_id chunk_ids embeddings chunk_metadata g in
  out_val o = Ok tt
  /\ out_log o = [(WARNING, "Global index not trained yet. Need more vectors.")]
  /\ global_metadata (out_state o) = global_metadata g
  /\ global_rows (out_state o) = global_rows g
  /\ is_trained (out_state o) = false
  /\ (is_Some (global_index g) -> out_state o = g).
Proof.
  intros Htr Hlen.
  assert (Hge : (nd_len embeddings >=? nlist g) = false).
  { rewrite Z.geb_leb. apply Z.leb_gt. lia. }
  unfold add_to_global_index, create_global_index, global_rows. run.
  destruct (global_index g) as [index|] eqn:Hidx; cbn;
    rewrite ?Hge; cbn; rewrite ?Htr, ?Hge; cbn; rewrite ?Htr; cbn;
    rewrite ?Hidx.
  - repeat split; auto.
  - repeat split; try reflexivity; [assumption |]. intros [? ?]. discriminate.
Qed.

(** *** [add_embeddings] *)

Lemma world_eta (w : World) :
  mkWorld (mkManager (index_path (self w)) (indices (self w)) (metadata (self w))) (fs w)
  = w.
Proof. destruct w as [[? ? ?] ?]. reflexivity. Qed.

Lemma create_index_run (document_id : string) (w : World) :
  create_index document_id w =
    mkOutcome (Ok (IndexFlatIP get_dimension))
      (set_metadata <[document_id := ∅]>
         (set_indices <[document_id := IndexFlatIP get_dimension]> w))
      [(INFO, "Created FAISS index for document " +:+ document_id)].
Proof. reflexivity. Qed.

Lemma store_metadata_run (document_id : string) (start_id : Z)
    (items : list (string * pydict)) :
  forall (i : Z) (w : World) (table : gmap Z pydict),
    metadata (self w) !! document_id = Some table ->
    store_metadata document_id start_id i items w =
      mkOutcome (Ok tt)
        (set_metadata <[document_id := write_entries start_id i items table]> w) [].
Proof.
  induction items as [|[chunk_id meta] rest IH]; intros i w table Htable.
  - cbn. unfold set_metadata. rewrite (insert_id _ _ _ Htable), world_eta. reflexivity.
  - cbn [store_metadata write_entries]. run. rewrite Htable. cbn.
    erewrite IH; [| cbn; apply lookup_insert_eq].
    unfold set_metadata. cbn. rewrite insert_insert_eq. reflexivity.
Qed.

Lemma with_index_lookup (document_id : string) (w : World) :
  indices (self (with_index document_id w)) !! document_id
  = Some (doc_index document_id (with_index document_id w)).
Proof.
  unfold with_index, doc_index. case_decide as Hin.
  - apply elem_of_dom in Hin as [index Hindex]. rewrite Hindex. reflexivity.
  - rewrite create_index_run. cbn. rewrite !lookup_insert_eq. reflexivity.
Qed.

Lemma with_index_table (document_id : string) (w : World) :
  has_table document_id w ->
  metadata (self (with_index document_id w)) !! document_id
  = Some (doc_table document_id (with_index document_id w)).
Proof.
  intros Hwf. unfold with_index, doc_table. case_decide as Hin.
  - apply Hwf, elem_of_dom in Hin as [table Htable]. rewrite Htable. reflexivity.
  - rewrite create_index_run. cbn. rewrite !lookup_insert_eq. reflexivity.
Qed.

Lemma add_embeddings_run (w : World) (document_id : string) (chunk_ids : list string)
    (embeddings : ndarray Vec) (chunk_metadata : list pydict) :
  has_table document_id w ->
  let w1 := with_index document_id w in
  let start_id := Z.of_nat (size (doc_table document_id w1)) in
  add_embeddings document_id chunk_ids embeddings chunk_metadata w =
    match add_with_ids (doc_index document_id w1) embeddings
            (numeric_ids start_id chunk_ids) with
    | Raise e => mkOutcome (Raise e) w1 (with_index_log document_id w)
    | Ok index' =>
        mkOutcome (Ok tt)
          (set_metadata
             <[document_id := write_entries start_id 0 (zip chunk_ids chunk_metadata)
                                (doc_table document_id w1)]>
             (set_indices <[document_id := index']> w1))
          (with_index_log document_id w ++
             [(INFO, "Added " +:+ pretty (Z.of_nat (List.length chunk_ids))
                     +:+ " embeddings to index " +:+ document_id)])
    end.
Proof.
  intros Hwf w1 start_id.
  pose proof (with_index_lookup document_id w) as Hidx.
  pose proof (with_index_table document_id w Hwf) as Htab.
  fold w1 in Hidx, Htab.
  unfold add_embeddings. run.
  revert Hidx Htab. subst start_id w1. unfold with_index, with_index_log.
  destruct (decide (document_id ∈ dom (indices (self w)))) as [Hin|Hnin];
    [| rewrite create_index_run; cbn [out_state out_val out_log]].
  all: match goal with
       | |- indices (self ?W) !! _ = _ -> _ =>
           intros Hidx Htab; rewrite Hidx;
           fold (doc_table document_id W);
           fold (numeric_ids (Z.of_nat (size (doc_table document_id W))) chunk_ids);
           destruct (add_with_ids (doc_index document_id W) embeddings
                       (numeric_ids (Z.of_nat (size (doc_table document_id W)))
                                    chunk_ids)) as [index'|e];
           [ rewrite (store_metadata_run _ _ _ _ _ (doc_table document_id W));
             [| exact Htab] |]
       end.
  all: cbn; rewrite ?app_nil_r; reflexivity.
Qed.

Lemma write_entries_other (start_id : Z) (items : list (string * pydict)) :
  forall (i : Z) (table : gmap Z pydict) (j : Z),
    j < start_id + i \/ start_id + i + Z.of_nat (List.length items) <= j ->
    write_entries start_id i items table !! j = table !! j.
Proof.
  induction items as [|[chunk_id meta] rest IH]; intros i table j Hj; [reflexivity |].
  cbn [write_entries]. cbn [List.length] in Hj.
  rewrite IH by lia. apply lookup_insert_ne. lia.
Qed.

Lemma write_entries_written (start_id : Z) (items : list (string * pydict)) :
  forall (i : Z) (table : gmap Z pydict) (n : nat) (chunk_id : string) (meta : pydict),
    items !! n = Some (chunk_id, meta) ->
    write_entries start_id i items table !! (start_id + i + Z.of_nat n)
    = Some (entry chunk_id meta).
Proof.
  induction items as [|[c m] rest IH]; intros i table n chunk_id meta Hn; [done |].
  cbn [write_entries]. destruct n as [|n].
  - injection Hn as -> ->.
    rewrite write_entries_other by lia.
    replace (start_id + i + Z.of_nat 0) with (start_id + i) by lia.
    apply lookup_insert_eq.
  - replace (start_id + i + Z.of_nat (S n)) with (start_id + (i + 1) + Z.of_nat n) by lia.
    apply IH. exact Hn.
Qed.

Lemma numeric_ids_length (start_id : Z) (chunk_ids : list string) :
  List.length (numeric_ids start_id chunk_ids) = List.length chunk_ids.
Proof.
  unfold numeric_ids, range.
  rewrite !length_map, length_seq. lia.
Qed.

Lemma with_index_stats (document_id : string) (w : World) :
  document_id ∉ dom (indices (self w)) ->
  with_index document_id w =
    set_metadata <[document_id := ∅]>
      (set_indices <[document_id := IndexFlatIP get_dimension]> w).
Proof.
  intros Hnin. unfold with_index. case_decide; [done |]. reflexivity.
Qed.

(** C2 (as amended): an add that fails does so inside the implicit
    preparation or in faiss, before any vector or metadata entry is
    stored; a batch whose width differs from the dimension of the index
    fails with the [AssertionError] of faiss.  When the document already
    had an index the manager is exactly as before the call.  When it had
    none, the failed call leaves behind the index it created on the way:
    empty, with an empty metadata table, so that the statistics show 0
    vectors and 0 metadata entries. *)
Theorem add_embeddings_failure (w : World) (document_id : string)
    (chunk_ids : list string) (embeddings : ndarray Vec) (chunk_metadata : list pydict) :
  has_table document_id w ->
  let o := add_embeddings document_id chunk_ids embeddings chunk_metadata w in
  (nd_cols embeddings <> flat_d (doc_index document_id (with_index document_id w)) ->
   out_val o = Raise AssertionError)
  /\ (forall e, out_val o = Raise e ->
        (document_id ∈ dom (indices (self w)) -> out_state o = w)
        /\ (document_id ∉ dom (indices (self w)) ->
              indices (self (out_state o))
              = <[document_id := IndexFlatIP get_dimension]> (indices (self w))
              /\ metadata (self (out_state o))
                 = <[document_id := ∅]> (metadata (self w))
              /\ fs (out_state o) = fs w
              /\ get_index_stats document_id (out_state o)
                 = Some (mkStats 0 get_dimension 0))).
Proof.
  intros Hwf o. subst o. rewrite (add_embeddings_run _ _ _ _ _ Hwf). split.
  - intros Hdim. unfold add_with_ids.
    apply Z.eqb_neq in Hdim. rewrite Hdim. reflexivity.
  - intros e He.
    destruct (add_with_ids _ _ _) as [index'|e']; [discriminate |].
    cbn [out_state]. split.
    + intros Hin. unfold with_index. case_decide; [reflexivity | done].
    + intros Hnin. rewrite (with_index_stats _ _ Hnin).
      unfold get_index_stats. cbn. rewrite !lookup_insert_eq. cbn.
      rewrite map_size_empty. auto.
Qed.

(** C4 (as amended): an add whose number of chunk ids differs from its
    number of vectors fails with the [AssertionError] of faiss, and
    nothing is stored.  The length of the metadata sequence is not
    checked: when the chunk ids and the vectors agree in number and the
    width is right the add succeeds, every vector is stored, and
    metadata entries are written for as many leading chunks as there
    are metadata records; no other entry of the table changes. *)
Theorem add_embeddings_lengths (w : World) (document_id : string)
    (chunk_ids : list string) (embeddings : ndarray Vec) (chunk_metadata : list pydict) :
  has_table document_id w ->
  let o := add_embeddings document_id chunk_ids embeddings chunk_metadata w in
  let w1 := with_index document_id w in
  let start_id := Z.of_nat (size (doc_table document_id w1)) in
  (List.length chunk_ids <> List.length (nd_rows embeddings) ->
   out_val o = Raise AssertionError /\ out_state o = w1)
  /\ (List.length chunk_ids = List.length (nd_rows embeddings) ->
      nd_cols embeddings = flat_d (doc_index document_id w1) ->
      out_val o = Ok tt
      /\ flat_rows (doc_index document_id (out_state o))
         = flat_rows (doc_index document_id w1)
           ++ zip (numeric_ids start_id chunk_ids) (nd_rows embeddings)
      /\ (forall n chunk_id meta,
            zip chunk_ids chunk_metadata !! n = Some (chunk_id, meta) ->
            doc_table document_id (out_state o) !! (start_id + Z.of_nat n)
            = Some (entry chunk_id meta))
      /\ (forall j,
            j < start_id
            \/ start_id + Z.of_nat (List.length chunk_ids `min` List.length chunk_metadata)
               <= j ->
            doc_table document_id (out_state o) !! j
            = doc_table document_id w1 !! j)).
Proof.
  intros Hwf o w1 start_id. subst o.
  rewrite (add_embeddings_run _ _ _ _ _ Hwf). fold w1. fold start_id.
  unfold add_with_ids, nd_len. rewrite numeric_ids_length. split.
  - intros Hlen.
    destruct (nd_cols embeddings =? flat_d (doc_index document_id w1)); cbn.
    + destruct (Z.eqb_spec (Z.of_nat (List.length chunk_ids))
                  (Z.of_nat (List.length (nd_rows embeddings)))); [lia |].
      cbn. auto.
    + auto.
  - intros Hlen Hdim. rewrite Hdim, Z.eqb_refl, Hlen, Z.eqb_refl. cbn [negb].
    cbn [out_val out_state]. split; [reflexivity |].
    unfold doc_index, doc_table. cbn. rewrite !lookup_insert_eq. cbn.
    split; [reflexivity |]. split.
    + intros n chunk_id meta Hn.
      rewrite <- (write_entries_written start_id _ 0 (doc_table document_id w1)
                    n chunk_id meta Hn).
      f_equal. lia.
    + intros j Hj. apply write_entries_other.
      rewrite length_zip. lia.
Qed.

(** *** [save_index] and [load_index] *)

Lemma length_app_string (a b : string) :
  String.length (a +:+ b) = (String.length a + String.length b)%nat.
Proof. induction a as [|c a IH]; simpl; [reflexivity | f_equal; exact IH]. Qed.

(** The length of a joined path is that of the suffix of its file name
    plus a number that depends on the rest only. *)
Lemma path_join_length (a document_id : string) :
  exists n : nat,
    forall suffix, String.prefix "/" suffix = false -> suffix <> EmptyString ->
      String.length (path_join a (document_id +:+ suffix))
      = (n + String.length suffix)%nat.
Proof.
  unfold path_join.
  destruct document_id as [|c d].
  - destruct (String.eqb a "" || ends_with_sep a).
    + exists (String.length a). intros s' Hs' _. change (String.append "" s') with s'. rewrite Hs'.
      apply length_app_string.
    + exists (String.length a + 1)%nat. intros s' Hs' _.
      change (String.append "" s') with s'. rewrite Hs'.
      rewrite !length_app_string. cbn. lia.
  - assert (Hp : forall s, String.prefix "/" (String c d +:+ s)
                           = if Ascii.ascii_dec "/"%char c then true else false).
    { intros s.
      change (String.prefix "/" (String c d +:+ s))
        with (if Ascii.ascii_dec "/"%char c then String.prefix "" (d +:+ s) else false).
      destruct (Ascii.ascii_dec "/"%char c); [| reflexivity].
      destruct (d +:+ s); reflexivity. }
    destruct (Ascii.ascii_dec "/"%char c).
    + exists (S (String.length d)). intros s' _ _. rewrite Hp.
      rewrite length_app_string. reflexivity.
    + destruct (String.eqb a "" || ends_with_sep a).
      * exists (String.length a + S (String.length d))%nat. intros s' _ _.
        rewrite Hp, !length_app_string. cbn. lia.
      * exists (String.length a + 1 + S (String.length d))%nat. intros s' _ _.
        rewrite Hp, !length_app_string. cbn. lia.
Qed.

Lemma index_file_ne_meta_file (w : World) (document_id : string) :
  index_file w document_id <> meta_file w document_id.
Proof.
  unfold index_file, meta_file. intros Heq.
  destruct (path_join_length (index_path (self w)) document_id) as [n Hn].
  pose proof (Hn ".index" eq_refl ltac:(discriminate)) as H1.
  pose proof (Hn ".meta" eq_refl ltac:(discriminate)) as H2.
  rewrite Heq in H1. rewrite H1 in H2. cbn in H2. lia.
Qed.

Lemma save_index_run (w : World) (document_id : string) (index : IndexIDMap Vec) :
  indices (self w) !! document_id = Some index ->
  save_index document_id w =
    mkOutcome (Ok tt)
      (set_fs <[meta_file w document_id := pickle_dump (doc_table document_id w)]>
         (set_fs <[index_file w document_id := write_index index]> w))
      [(INFO, "Saved index for document " +:+ document_id)].
Proof.
  intros Hidx. unfold save_index. run. rewrite Hidx. reflexivity.
Qed.

(** C5: when the serialisers of faiss and pickle give back what was
    written, saving the index of a document and loading it into a new
    manager on the same directory succeeds, and every search of that
    document in the new manager returns what the same search returns in
    the original one: the same results with the same scores in the same
    order (or the same exception), with the same log. *)
Theorem save_load_roundtrip (w : World) (document_id query : string) (k : Z) :
  (forall index, read_index (write_index index) = Ok index) ->
  (forall table, pickle_load (pickle_dump table) = Ok table) ->
  is_Some (indices (self w) !! document_id) ->
  let saved := out_state (save_index document_id w) in
  let fresh := mkWorld (__init__ (index_path (self w))) (fs saved) in
  let loaded := load_index document_id fresh in
  out_val loaded = Ok true
  /\ out_val (search document_id query k (out_state loaded))
     = out_val (search document_id query k w)
  /\ out_log (search document_id query k (out_state loaded))
     = out_log (search document_id query k w).
Proof.
  intros Hfaiss Hpickle [index Hidx] saved fresh loaded.
  assert (Hloaded : loaded =
    mkOutcome (Ok true)
      (set_metadata <[document_id := doc_table document_id w]>
         (set_indices <[document_id := index]> fresh))
      [(INFO, "Loaded index for document " +:+ document_id)]).
  { subst loaded fresh saved. rewrite (save_index_run _ _ _ Hidx).
    unfold load_index. run. unfold index_file, meta_file. cbn.
    fold (index_file w document_id). fold (meta_file w document_id).
    rewrite lookup_insert_ne by (apply not_eq_sym, index_file_ne_meta_file).
    rewrite !lookup_insert_eq. cbn. rewrite Hfaiss. cbn. rewrite Hpickle. reflexivity. }
  rewrite Hloaded. cbn [out_val out_state]. split; [reflexivity |].
  rewrite (search_with_index w _ _ _ _ Hidx).
  erewrite search_with_index; [| cbn; apply lookup_insert_eq].
  cbn. rewrite lookup_insert_eq. cbn. fold (doc_table document_id w).
  destruct (flat_search index (generate_embedding query) k); split; reflexivity.
Qed.

(** *** The order and the number of results *)

Lemma result_of_hit_score (table : gmap Z pydict) (document_id : string)
    (hit : Score * Z) (r : SearchResult) :
  result_of_hit table document_id hit = Some r -> score r = hit.1.
Proof.
  destruct hit as [s i]. unfold result_of_hit.
  destruct (i =? -1); [discriminate |].
  case_decide; [discriminate |].
  intros [= <-]. reflexivity.
Qed.

Lemma result_of_hit_no_entry (table : gmap Z pydict) (document_id : string)
    (s : Score) (i : Z) :
  table !! i = None -> result_of_hit table document_id (s, i) = None.
Proof.
  intros Hnone. unfold result_of_hit. rewrite Hnone.
  destruct (i =? -1); [reflexivity |].
  cbn. case_decide; [reflexivity | done].
Qed.

Lemma global_result_of_hit_no_entry (table : gmap Z pydict) (s : Score) (i : Z) :
  table !! i = None -> global_result_of_hit table (s, i) = None.
Proof.
  intros Hnone. unfold global_result_of_hit. rewrite Hnone.
  destruct (i =? -1); [reflexivity |].
  cbn. case_decide; [reflexivity | done].
Qed.

Lemma omap_length_le {A B} (f : A -> option B) (l : list A) :
  (List.length (omap f l) <= List.length l)%nat.
Proof.
  induction l as [|a l IH]; cbn; [lia |].
  destruct (f a); cbn; lia.
Qed.

Lemma omap_strongly_sorted {A B} (f : A -> option B)
    (RA : relation A) (RB : relation B) (l : list A) :
  (forall a1 a2 b1 b2, f a1 = Some b1 -> f a2 = Some b2 -> RA a1 a2 -> RB b1 b2) ->
  StronglySorted RA l -> StronglySorted RB (omap f l).
Proof.
  intros Hf. induction 1 as [|a l Hsorted IH Hall]; cbn; [constructor |].
  destruct (f a) as [b|] eqn:Hfa; [| exact IH].
  constructor; [exact IH |].
  apply Forall_forall. intros b' Hb'.
  apply list_elem_of_omap in Hb' as (a' & Ha' & Hfa').
  rewrite Forall_forall in Hall. eauto.
Qed.

(** C8 (as amended): a search on an existing index returns the hits of
    faiss that have metadata, in the order in which faiss returned
    them.  So the list has at most [k] results when faiss returns [k]
    hits, and it is sorted by descending score when the hits are.  The
    code does not reorder: results of equal score keep the order that
    faiss gave them, whatever their ordinals. *)
Theorem search_keeps_library_order (w : World) (document_id query : string) (k : Z)
    (index : IndexIDMap Vec) (hits : list (Score * Z)) :
  indices (self w) !! document_id = Some index ->
  flat_search index (generate_embedding query) k = Ok hits ->
  let results := omap (result_of_hit (doc_table document_id w) document_id) hits in
  out_val (search document_id query k w) = Ok results
  /\ (Z.of_nat (List.length hits) = k -> Z.of_nat (List.length results) <= k)
  /\ (forall ge : relation Score,
        StronglySorted (fun h1 h2 => ge h1.1 h2.1) hits ->
        StronglySorted (fun r1 r2 => ge (score r1) (score r2)) results).
Proof.
  intros Hidx Hhits results.
  rewrite (search_with_index _ _ _ _ _ Hidx), Hhits. cbn [out_val].
  split; [reflexivity |]. split.
  - intros Hk. pose proof (omap_length_le
      (result_of_hit (doc_table document_id w) document_id) hits).
    subst results. lia.
  - intros ge. apply omap_strongly_sorted.
    intros h1 h2 r1 r2 H1 H2.
    rewrite (result_of_hit_score _ _ _ _ H1), (result_of_hit_score _ _ _ _ H2).
    auto.
Qed.

(** *** Every document with an index has a metadata table *)

Lemma has_table_init (index_path document_id : string) (files : gmap string Blob) :
  has_table document_id (mkWorld (__init__ index_path) files).
Proof. intros Hin. cbn in Hin. rewrite dom_empty_L in Hin. by apply not_elem_of_empty in Hin. Qed.

Lemma has_table_with_index (w : World) (document_id other : string) :
  has_table other w -> has_table other (with_index document_id w).
Proof.
  unfold has_table, with_index. intros Hwf. case_decide; [exact Hwf |].
  rewrite create_index_run. cbn. rewrite !dom_insert_L, !elem_of_union. tauto.
Qed.

Lemma has_table_add_embeddings (w : World) (document_id other : string)
    (chunk_ids : list string) (embeddings : ndarray Vec) (chunk_metadata : list pydict) :
  has_table document_id w ->
  has_table other w ->
  has_table other
    (out_state (add_embeddings document_id chunk_ids embeddings chunk_metadata w)).
Proof.
  intros Hdoc Hother. rewrite (add_embeddings_run _ _ _ _ _ Hdoc).
  pose proof (has_table_with_index w document_id other Hother) as Hw1.
  destruct (add_with_ids _ _ _) as [index'|e]; cbn [out_state]; [| exact Hw1].
  unfold has_table in *. cbn. rewrite !dom_insert_L, !elem_of_union. tauto.
Qed.

Lemma has_table_delete_index (w : World) (document_id other : string) :
  has_table other w -> has_table other (out_state (delete_index document_id w)).
Proof.
  unfold has_table, delete_index. run. intros Hwf. cbn.
  rewrite !dom_delete_L, !elem_of_difference. tauto.
Qed.

Lemma has_table_load_index (w : World) (document_id other : string) (loaded : bool) :
  has_table other w ->
  out_val (load_index document_id w) = Ok loaded ->
  has_table other (out_state (load_index document_id w)).
Proof.
  unfold has_table, load_index. run. intros Hwf.
  destruct (fs w !! index_file w document_id) as [index_blob|]; [| intros _; exact Hwf].
  destruct (fs w !! meta_file w document_id) as [meta_blob|]; [| intros _; exact Hwf].
  destruct (read_index index_blob) as [index|e]; cbn; [| discriminate].
  destruct (pickle_load meta_blob) as [table|e]; cbn; [| discriminate].
  intros _. rewrite !dom_insert_L, !elem_of_union. tauto.
Qed.

End WithLib.

(** *** Facts at concrete inputs *)

(** C10: in [search] and in [global_search] the results are the hits of
    faiss, in order, without those labelled [-1] and those whose ordinal
    has no (or an empty) entry in the metadata table; a hit whose ordinal
    has no entry gives no result and raises nothing.  Hence a search can
    return fewer than [k] results from an index that holds [k] vectors:
    it does so for the document of [world_orphan], which has two vectors
    and metadata for one. *)
Theorem hits_without_metadata_dropped :
  (forall (L : Lib) (w : World) (document_id query : string) (k : Z)
          (index : IndexIDMap Vec) (hits : list (Score * Z)),
      indices (self w) !! document_id = Some index ->
      flat_search index (generate_embedding query) k = Ok hits ->
      search document_id query k w
      = mkOutcome (Ok (omap (result_of_hit (doc_table document_id w) document_id) hits))
                  w []
      /\ forall s i, doc_table document_id w !! i = None ->
           result_of_hit (doc_table document_id w) document_id (s, i) = None)
  /\ (forall (L : Lib) (g : GlobalIndexManager) (query : string) (k : Z)
             (index : IndexIVFFlat Vec) (hits : list (Score * Z)),
        global_index g = Some index ->
        is_trained g = true ->
        ivf_search (set_nprobe (Z.min 10 (nlist g)) index) (generate_embedding query) k
        = Ok hits ->
        out_val (global_search query k g)
        = Ok (omap (global_result_of_hit (global_metadata g)) hits)
        /\ out_log (global_search query k g) = []
        /\ forall s i, global_metadata g !! i = None ->
             global_result_of_hit (global_metadata g) (s, i) = None)
  /\ (exists results,
        2 <= ntotal (doc_index (L:=lib2) "doc" (world_orphan (L:=lib2) batch2))
        /\ out_val (search (L:=lib2) "doc" "query" 2 (world_orphan (L:=lib2) batch2)) = Ok results
        /\ Z.of_nat (List.length results) < 2).
Proof.
  split; [| split].
  - intros L w document_id query k index hits Hidx Hhits.
    rewrite (search_with_index _ _ _ _ _ Hidx), Hhits.
    split; [reflexivity |]. intros s i. apply result_of_hit_no_entry.
  - intros L g query k index hits Hidx Htr Hhits.
    rewrite (global_search_trained _ _ _ _ Hidx Htr). cbv zeta. rewrite Hhits.
    cbn [out_val out_log]. repeat split.
    intros s i. apply global_result_of_hit_no_entry.
  - eexists. split; [| split].
    + vm_compute. discriminate.
    + vm_compute. reflexivity.
    + vm_compute. reflexivity.
Qed.

Lemma hits_without_metadata_dropped_witness :
  (indices (self (world_orphan (L:=lib2) batch2)) !! "doc"
   = Some (mk_flat 2 [(0, [1; 0]); (1, [1; 0])])
   /\ flat_search (Lib:=lib2) (mk_flat 2 [(0, [1; 0]); (1, [1; 0])])
        (generate_embedding (Lib:=lib2) "query") 2 = Ok [(5, 0); (5, 1)]
   /\ doc_table (L:=lib2) "doc" (world_orphan (L:=lib2) batch2) !! 1 = None
   /\ result_of_hit (L:=lib2) (doc_table "doc" (world_orphan (L:=lib2) batch2))
        "doc" (5, 1) = None)
  /\ (global_index (global_orphan (L:=lib2) batch2)
      = Some (mk_ivf 2 2 true [[1; 0]; [1; 0]] [(0, [1; 0]); (1, [1; 0])] 1)
      /\ is_trained (global_orphan (L:=lib2) batch2) = true
      /\ global_metadata (global_orphan (L:=lib2) batch2) !! 1 = None
      /\ out_val (global_search (L:=lib2) "query" 2 (global_orphan (L:=lib2) batch2))
         = Ok (omap (global_result_of_hit (L:=lib2)
                       (global_metadata (global_orphan (L:=lib2) batch2)))
                    [(5, 0); (5, 1)])).
Proof.
  assert (Hidx : indices (self (world_orphan (L:=lib2) batch2)) !! "doc"
                 = Some (mk_flat 2 [(0, [1; 0]); (1, [1; 0])]))
    by (vm_compute; reflexivity).
  assert (Hhits : flat_search (Lib:=lib2) (mk_flat 2 [(0, [1; 0]); (1, [1; 0])])
                    (generate_embedding (Lib:=lib2) "query") 2 = Ok [(5, 0); (5, 1)])
    by (vm_compute; reflexivity).
  assert (Hnone : doc_table (L:=lib2) "doc" (world_orphan (L:=lib2) batch2) !! 1 = None)
    by (vm_compute; reflexivity).
  assert (Hgidx : global_index (global_orphan (L:=lib2) batch2)
                  = Some (mk_ivf 2 2 true [[1; 0]; [1; 0]] [(0, [1; 0]); (1, [1; 0])] 1))
    by (vm_compute; reflexivity).
  assert (Htr : is_trained (global_orphan (L:=lib2) batch2) = true)
    by (vm_compute; reflexivity).
  assert (Hgnone : global_metadata (global_orphan (L:=lib2) batch2) !! 1 = None)
    by (vm_compute; reflexivity).
  destruct hits_without_metadata_dropped as (Hsearch & Hglobal & _).
  split.
  - split; [exact Hidx | split; [exact Hhits | split; [exact Hnone |]]].
    destruct (Hsearch lib2 (world_orphan (L:=lib2) batch2) "doc" "query" 2 _ _ Hidx Hhits)
      as [_ Hdrop].
    exact (Hdrop 5 1 Hnone).
  - split; [exact Hgidx | split; [exact Htr | split; [exact Hgnone |]]].
    refine (proj1 (Hglobal lib2 (global_orphan (L:=lib2) batch2) "query" 2 _
                     [(5, 0); (5, 1)] Hgidx Htr _)).
    vm_compute. reflexivity.
Defined.

(** C2's scenario: a 300-dimensional vector for a new
    document in a manager of dimension 384 fails, and the failed call has
    created the index of the document. *)
Lemma failed_add_creates_index :
  let o := add_embeddings (L:=lib384) "doc" ["c0"] batch300 [meta_of "x" 1]
             (empty_world (L:=lib384)) in
  out_val o = Raise AssertionError
  /\ indices (self (empty_world (L:=lib384))) !! "doc" = None
  /\ get_index_stats (L:=lib384) "doc" empty_world = None
  /\ indices (self (out_state o)) !! "doc" = Some (IndexFlatIP 384)
  /\ get_index_stats "doc" (out_state o) = Some (mkStats 0 384 0)
  /\ out_state o <> empty_world.
Proof.
  cbv zeta. repeat split; try (vm_compute; reflexivity).
  intros Heq.
  apply (f_equal (fun w => indices (self w) !! "doc")) in Heq.
  vm_compute in Heq. discriminate.
Qed.

Lemma add_embeddings_failure_witness :
  let o := add_embeddings (L:=lib384) "doc" ["c0"] batch300 [meta_of "x" 1]
             (empty_world (L:=lib384)) in
  has_table (L:=lib384) "doc" empty_world
  /\ nd_cols batch300
     <> flat_d (doc_index (L:=lib384) "doc" (with_index "doc" empty_world))
  /\ ("doc" ∉ dom (indices (self (empty_world (L:=lib384)))))
  /\ out_val o = Raise AssertionError
  /\ get_index_stats "doc" (out_state o) = Some (mkStats 0 384 0).
Proof.
  cbv zeta.
  assert (Hwf : has_table (L:=lib384) "doc" empty_world).
  { intros Hin. apply elem_of_dom in Hin as [index Hin]. vm_compute in Hin. discriminate. }
  assert (Hdim : nd_cols batch300
                 <> flat_d (doc_index (L:=lib384) "doc" (with_index "doc" empty_world)))
    by (vm_compute; discriminate).
  assert (Hnin : "doc" ∉ dom (indices (self (empty_world (L:=lib384))))).
  { intros Hin. apply elem_of_dom in Hin as [index Hin]. vm_compute in Hin. discriminate. }
  destruct (add_embeddings_failure (L:=lib384) empty_world "doc" ["c0"] batch300
              [meta_of "x" 1] Hwf) as [Hraise Hstate].
  pose proof (Hraise Hdim) as Hval.
  destruct (Hstate _ Hval) as [_ Hnew].
  destruct (Hnew Hnin) as (_ & _ & _ & Hstats).
  repeat split; assumption.
Defined.

(** C3's scenario: a search for a document without an index returns the
    empty list instead of failing, which is also what a search on the
    index of a document that holds no vectors returns. *)
Lemma search_without_index_returns_empty :
  indices (self (empty_world (L:=lib2))) !! "doc" = None
  /\ out_val (search (L:=lib2) "doc" "query" 3 empty_world) = Ok []
  /\ indices (self (world_created (L:=lib2))) !! "doc" = Some (IndexFlatIP 2)
  /\ out_val (search (L:=lib2) "doc" "query" 3 world_created)
     = out_val (search (L:=lib2) "doc" "query" 3 empty_world).
Proof. repeat split; vm_compute; reflexivity. Qed.

Lemma search_missing_or_empty_witness :
  (indices (self (empty_world (L:=lib2))) !! "doc" = None
   /\ search (L:=lib2) "doc" "query" 3 empty_world
      = mkOutcome (Ok []) empty_world
          [(WARNING, "No index found for document doc")])
  /\ (indices (self (world_created (L:=lib2))) !! "doc" = Some (IndexFlatIP 2)
      /\ flat_search (Lib:=lib2) (IndexFlatIP 2) (generate_embedding (Lib:=lib2) "query") 3
         = Ok (replicate 3 (Scan.lowest, -1))
      /\ search (L:=lib2) "doc" "query" 3 world_created
         = mkOutcome (Ok []) world_created []).
Proof.
  assert (Hnone : indices (self (empty_world (L:=lib2))) !! "doc" = None)
    by (vm_compute; reflexivity).
  assert (Hidx : indices (self (world_created (L:=lib2))) !! "doc" = Some (IndexFlatIP 2))
    by (vm_compute; reflexivity).
  assert (Hhits : flat_search (Lib:=lib2) (IndexFlatIP 2)
                    (generate_embedding (Lib:=lib2) "query") 3
                  = Ok (replicate 3 (Scan.lowest, -1)))
    by (vm_compute; reflexivity).
  split.
  - split; [exact Hnone |].
    exact (proj1 (search_missing_or_empty (L:=lib2) empty_world "doc" "query" 3) Hnone).
  - split; [exact Hidx | split; [exact Hhits |]].
    apply (proj2 (search_missing_or_empty (L:=lib2) world_created "doc" "query" 3)
             (IndexFlatIP 2) (replicate 3 (Scan.lowest, -1)) Hidx eq_refl Hhits).
    repeat constructor.
Defined.

(** C4's scenario: two chunk ids, two vectors and one metadata record.
    The three lengths differ, the add succeeds, both vectors are stored
    and one metadata entry is written. *)
Lemma add_with_short_metadata_succeeds :
  let o := add_embeddings (L:=lib2) "doc" ["c0"; "c1"] batch2 [meta_of "x" 1]
             (empty_world (L:=lib2)) in
  List.length [meta_of "x" 1] <> List.length (nd_rows batch2)
  /\ out_val o = Ok tt
  /\ get_index_stats "doc" (out_state o) = Some (mkStats 2 2 1).
Proof.
  cbv zeta. split; [cbn; lia |]. split; vm_compute; reflexivity.
Qed.

Lemma add_embeddings_lengths_witness :
  has_table (L:=lib2) "doc" empty_world
  /\ (List.length ["c0"; "c1"; "c2"; "c3"; "c4"] <> List.length (nd_rows batch4)
      /\ out_val (add_embeddings (L:=lib2) "doc" ["c0"; "c1"; "c2"; "c3"; "c4"] batch4
                    [meta_of "a" 1; meta_of "b" 1; meta_of "c" 1; meta_of "d" 1;
                     meta_of "e" 1] empty_world)
         = Raise AssertionError)
  /\ (List.length ["c0"; "c1"] = List.length (nd_rows batch2)
      /\ nd_cols batch2
         = flat_d (doc_index (L:=lib2) "doc" (with_index "doc" empty_world))
      /\ out_val (add_embeddings (L:=lib2) "doc" ["c0"; "c1"] batch2 [meta_of "x" 1]
                    empty_world)
         = Ok tt).
Proof.
  assert (Hwf : has_table (L:=lib2) "doc" empty_world).
  { intros Hin. apply elem_of_dom in Hin as [index Hin]. vm_compute in Hin. discriminate. }
  assert (Hne : List.length ["c0"; "c1"; "c2"; "c3"; "c4"]
                <> List.length (nd_rows batch4)) by (cbn; lia).
  assert (Hdim : nd_cols batch2
                 = flat_d (doc_index (L:=lib2) "doc" (with_index "doc" empty_world)))
    by (vm_compute; reflexivity).
  split; [exact Hwf |]. split.
  - split; [exact Hne |].
    exact (proj1 (proj1 (add_embeddings_lengths (L:=lib2) empty_world "doc"
                           ["c0"; "c1"; "c2"; "c3"; "c4"] batch4
                           [meta_of "a" 1; meta_of "b" 1; meta_of "c" 1; meta_of "d" 1;
                            meta_of "e" 1] Hwf) Hne)).
  - split; [reflexivity | split; [exact Hdim |]].
    exact (proj1 (proj2 (add_embeddings_lengths (L:=lib2) empty_world "doc"
                           ["c0"; "c1"] batch2 [meta_of "x" 1] Hwf) eq_refl Hdim)).
Defined.

Lemma save_load_roundtrip_witness :
  (forall index, read_index (Lib:=lib2) (write_index index) = Ok index)
  /\ (forall table, pickle_load (Lib:=lib2) (pickle_dump table) = Ok table)
  /\ is_Some (indices (self (world_two (L:=lib2) batch2)) !! "doc")
  /\ out_val (search (L:=lib2) "doc" "query" 2
                (out_state
                   (load_index "doc"
                      (mkWorld (__init__ "/tmp/faiss_indices")
                         (fs (out_state (save_index "doc"
                                           (world_two (L:=lib2) batch2))))))))
     = out_val (search (L:=lib2) "doc" "query" 2 (world_two (L:=lib2) batch2)).
Proof.
  assert (Hfaiss : forall index, read_index (Lib:=lib2) (write_index index) = Ok index)
    by reflexivity.
  assert (Hpickle : forall table, pickle_load (Lib:=lib2) (pickle_dump table) = Ok table)
    by reflexivity.
  assert (Hidx : is_Some (indices (self (world_two (L:=lib2) batch2)) !! "doc"))
    by (vm_compute; eauto).
  split; [exact Hfaiss | split; [exact Hpickle | split; [exact Hidx |]]].
  exact (proj1 (proj2 (save_load_roundtrip (L:=lib2) (world_two (L:=lib2) batch2)
                         "doc" "query" 2 Hfaiss Hpickle Hidx))).
Defined.

(** C6's scenario: the outcome of [global_search] on an untrained global
    index (value and log) is that of a search on a trained index that
    matches nothing; nothing in it tells the two apart. *)
Lemma untrained_search_gives_no_signal :
  let untrained := global_search (L:=lib2) "query" 3 global_untrained in
  let trained := global_search (L:=lib2) "query" 3 (global_trained_empty (L:=lib2) batch2) in
  is_trained (global_untrained (L:=lib2)) = false
  /\ is_trained (global_trained_empty (L:=lib2) batch2) = true
  /\ out_val untrained = Ok []
  /\ out_log untrained = []
  /\ out_val trained = out_val untrained
  /\ out_log trained = out_log untrained.
Proof. cbv zeta. repeat split; vm_compute; reflexivity. Qed.

Lemma global_search_untrained_witness :
  (global_index (global_untrained (L:=lib2)) = None
   \/ is_trained (global_untrained (L:=lib2)) = false)
  /\ global_search (L:=lib2) "query" 3 global_untrained
     = mkOutcome (Ok []) global_untrained [].
Proof.
  assert (H : global_index (global_untrained (L:=lib2)) = None
              \/ is_trained (global_untrained (L:=lib2)) = false)
    by (right; reflexivity).
  split; [exact H |].
  exact (global_search_untrained (L:=lib2) global_untrained "query" 3 H).
Defined.

Lemma add_to_global_index_deferred_witness :
  is_trained (global_untrained (L:=lib2)) = false
  /\ nd_len batch1 < nlist (global_untrained (L:=lib2))
  /\ out_state (add_to_global_index (L:=lib2) "doc" ["c0"] batch1 [meta_of "x" 1]
                  global_untrained)
     = global_untrained.
Proof.
  assert (Htr : is_trained (global_untrained (L:=lib2)) = false) by reflexivity.
  assert (Hlen : nd_len batch1 < nlist (global_untrained (L:=lib2)))
    by (vm_compute; reflexivity).
  split; [exact Htr | split; [exact Hlen |]].
  apply (add_to_global_index_deferred (L:=lib2) global_untrained "doc" ["c0"] batch1
           [meta_of "x" 1] Htr Hlen).
  vm_compute. eauto.
Defined.

(** C8's scenario: with a library that ranks the newer of two rows of
    equal score first, the chunk of ordinal 1 is returned before the
    chunk of ordinal 0 although their scores are equal. *)
Lemma search_ties_follow_library :
  let w := world_two (L:=lib2_newest) batch2 in
  exists r0 r1 : SearchResult (L:=lib2_newest),
    flat_search (Lib:=lib2_newest) (doc_index (L:=lib2_newest) "doc" w)
      (generate_embedding (Lib:=lib2_newest) "query") 2
    = Ok [(5, 1); (5, 0)]
    /\ result_of_hit (L:=lib2_newest) (doc_table (L:=lib2_newest) "doc" w) "doc" (5, 0)
       = Some r0
    /\ result_of_hit (L:=lib2_newest) (doc_table (L:=lib2_newest) "doc" w) "doc" (5, 1)
       = Some r1
    /\ out_val (search (L:=lib2_newest) "doc" "query" 2 w) = Ok [r1; r0]
    /\ score r1 = score r0.
Proof.
  cbv zeta. eexists _, _.
  split; [vm_compute; reflexivity |].
  split; [vm_compute; reflexivity |].
  split; [vm_compute; reflexivity |].
  split; vm_compute; reflexivity.
Qed.

Lemma search_keeps_library_order_witness :
  indices (self (world_two (L:=lib2) batch2')) !! "doc"
  = Some (mk_flat 2 [(0, [1; 0]); (1, [0; 1])])
  /\ flat_search (Lib:=lib2) (mk_flat 2 [(0, [1; 0]); (1, [0; 1])])
       (generate_embedding (Lib:=lib2) "a query") 2 = Ok [(7, 0); (1, 1)]
  /\ Z.of_nat (List.length
                 (omap (result_of_hit (L:=lib2)
                          (doc_table "doc" (world_two (L:=lib2) batch2')) "doc")
                       [(7, 0); (1, 1)])) <= 2.
Proof.
  assert (Hidx : indices (self (world_two (L:=lib2) batch2')) !! "doc"
                 = Some (mk_flat 2 [(0, [1; 0]); (1, [0; 1])])).
  { vm_compute. reflexivity. }
  assert (Hhits : flat_search (Lib:=lib2) (mk_flat 2 [(0, [1; 0]); (1, [0; 1])])
                    (generate_embedding (Lib:=lib2) "a query") 2 = Ok [(7, 0); (1, 1)])
    by (vm_compute; reflexivity).
  split; [exact Hidx | split; [exact Hhits |]].
  apply (search_keeps_library_order (L:=lib2) (world_two (L:=lib2) batch2')
           "doc" "a query" 2 _ _ Hidx Hhits).
  reflexivity.
Defined.

End IndexFacts.

(** ** Further properties of the chunker *)

Module ChunkerFacts.

Import PDF ChunkerSpec Fixtures Examples.

(** *** Strings *)

Lemma get_in_range (s : string) (n : nat) :
  (n < String.length s)%nat -> exists c, String.get n s = Some c.
Proof.
  revert n. induction s as [|c s IH]; intros n Hn; cbn in Hn; [lia |].
  destruct n as [|n]; cbn; [eauto |]. apply IH. lia.
Qed.

Lemma getitem_in_range (s : string) (j : Z) :
  0 <= j < len s -> exists c, getitem s j = Ok c.
Proof.
  intros Hj. unfold getitem.
  assert (Hneg : (j <? 0) = false) by lia.
  assert (Hge : (len s <=? j) = false) by lia.
  cbv zeta. rewrite !Hneg, Hge. cbn.
  assert (Hn : (Z.to_nat j < String.length s)%nat) by (unfold len in Hj; lia).
  destruct (get_in_range s _ Hn) as [c Hc]. rewrite Hc. eauto.
Qed.

Lemma substring_length_le (s : string) (n m : nat) :
  (String.length (String.substring n m s) <= m)%nat
  /\ (String.length (String.substring n m s) <= String.length s - n)%nat.
Proof.
  revert n m. induction s as [|c s IH]; intros n m.
  - destruct n, m; cbn; lia.
  - destruct n as [|n].
    + destruct m as [|m]; cbn; [lia |]. destruct (IH 0%nat m). lia.
    + cbn. destruct (IH n m). lia.
Qed.

(** A slice of two characters ends inside the string. *)
Lemma slice_two_inside (s : string) (a : Z) :
  len (slice s a (a + 2)) = 2 -> a + 2 <= len s.
Proof.
  unfold slice, adjust. intros Hlen.
  assert (0 <= len s) by (unfold len; lia).
  destruct (Z.ltb_spec a 0), (Z.ltb_spec (a + 2) 0);
    match type of Hlen with
    | context [if ?b then _ else _] => destruct b eqn:Hlo
    end.
  all: try (vm_compute in Hlen; discriminate Hlen).
  all: apply Z.ltb_lt in Hlo.
  all: match type of Hlen with
       | len (String.substring ?n ?m ?t) = _ =>
           destruct (substring_length_le t n m); unfold len in *; lia
       end.
Qed.

Lemma range_bounds (n i : Z) : i ∈ range n -> 0 <= i < n.
Proof.
  unfold range. intros Hi.
  apply list_elem_of_In, in_map_iff in Hi as (j & <- & Hj).
  apply in_seq in Hj. lia.
Qed.

(** *** [_find_break_point] *)

Lemma find_paragraph_found (text : string) (position : Z) (offsets : list Z) (p : Z) :
  find_paragraph text position offsets = Some p ->
  exists i, i ∈ offsets /\ p = position + i + 2 /\ p <= len text.
Proof.
  induction offsets as [|i rest IH]; [discriminate |]; cbn [find_paragraph find_sentence find_word].
  destruct (position + i <? len text); cbn [andb].
  - destruct (String.eqb_spec (slice text (position + i) (position + i + 2))
                (String NL (String NL EmptyString))) as [Heq|_].
    + intros [= <-]. exists i. split; [left |]. split; [reflexivity |].
      apply slice_two_inside. rewrite Heq. reflexivity.
    + intros H. destruct (IH H) as (j & Hj & Hp). exists j. split; [by right | exact Hp].
  - intros H. destruct (IH H) as (j & Hj & Hp). exists j. split; [by right | exact Hp].
Qed.

Lemma find_sentence_found (text : string) (position : Z) (offsets : list Z) (p : Z) :
  find_sentence text position offsets = Ok (Some p) ->
  exists i, i ∈ offsets /\ p = position + i + 1 /\ position + i < len text.
Proof.
  induction offsets as [|i rest IH]; [discriminate |]; cbn [find_paragraph find_sentence find_word].
  assert (Hrest : find_sentence text position rest = Ok (Some p) ->
                  exists j, j ∈ i :: rest /\ p = position + j + 1 /\ position + j < len text).
  { intros H. destruct (IH H) as (j & Hj & Hp). exists j. split; [by right | exact Hp]. }
  destruct (Z.ltb_spec (position + i) (len text)) as [Hlt|_]; [| exact Hrest].
  destruct (getitem text (position + i)) as [char|e]; unfold mbind, result_bind; cbv beta iota; [| discriminate].
  destruct (char_in char ".!?"); [| exact Hrest].
  destruct (position + i + 1 >=? len text).
  - intros [= <-]. exists i. split; [left | auto].
  - destruct (getitem text (position + i + 1)) as [next|e]; unfold mbind, result_bind; cbv beta iota; [| discriminate].
    destruct (Ascii.eqb next " "); [| exact Hrest].
    intros [= <-]. exists i. split; [left | auto].
Qed.

Lemma find_word_found (text : string) (position : Z) (offsets : list Z) (p : Z) :
  find_word text position offsets = Ok (Some p) ->
  exists i, i ∈ offsets /\ p = position + i + 1 /\ position + i < len text.
Proof.
  induction offsets as [|i rest IH]; [discriminate |]; cbn [find_paragraph find_sentence find_word].
  assert (Hrest : find_word text position rest = Ok (Some p) ->
                  exists j, j ∈ i :: rest /\ p = position + j + 1 /\ position + j < len text).
  { intros H. destruct (IH H) as (j & Hj & Hp). exists j. split; [by right | exact Hp]. }
  destruct (Z.ltb_spec (position + i) (len text)) as [Hlt|_]; [| exact Hrest].
  destruct (getitem text (position + i)) as [char|e]; unfold mbind, result_bind; cbv beta iota; [| discriminate].
  destruct (Ascii.eqb char " "); [| exact Hrest].
  intros [= <-]. exists i. split; [left | auto].
Qed.

Lemma find_sentence_total (text : string) (position : Z) (offsets : list Z) :
  Forall (fun i => 0 <= position + i) offsets ->
  exists r, find_sentence text position offsets = Ok r.
Proof.
  induction 1 as [|i rest Hi _ IH]; [cbn; eauto |]; cbn [find_sentence find_word].
  destruct (Z.ltb_spec (position + i) (len text)) as [Hlt|_]; [| exact IH].
  destruct (getitem_in_range text (position + i)) as [char ->]; [lia |]. unfold mbind, result_bind; cbv beta iota.
  destruct (char_in char ".!?"); [| exact IH].
  destruct (Z.geb_spec (position + i + 1) (len text)) as [|Hlt']; [eauto |].
  destruct (getitem_in_range text (position + i + 1)) as [next ->]; [lia |]. unfold mbind, result_bind; cbv beta iota.
  destruct (Ascii.eqb next " "); [eauto | exact IH].
Qed.

Lemma find_word_total (text : string) (position : Z) (offsets : list Z) :
  Forall (fun i => 0 <= position + i) offsets ->
  exists r, find_word text position offsets = Ok r.
Proof.
  induction 1 as [|i rest Hi _ IH]; [cbn; eauto |]; cbn [find_sentence find_word].
  destruct (Z.ltb_spec (position + i) (len text)) as [Hlt|_]; [| exact IH].
  destruct (getitem_in_range text (position + i)) as [char ->]; [lia |]. unfold mbind, result_bind; cbv beta iota.
  destruct (Ascii.eqb char " "); [eauto | exact IH].
Qed.

Lemma find_break_point_offsets (text : string) (position : Z) (i : Z) :
  i ∈ range (Z.min 200 (len text - position)) ->
  0 <= i < 200 /\ position + i < len text.
Proof. intros Hi. apply range_bounds in Hi. lia. Qed.

Lemma find_break_point_found (text : string) (position p : Z) :
  _find_break_point text position = Ok p ->
  position <= p <= position + 201 /\ (position <= len text -> p <= len text).
Proof.
  unfold _find_break_point.
  set (offsets := range (Z.min 200 (len text - position))).
  pose proof (find_break_point_offsets text position) as Hoff. fold offsets in Hoff.
  destruct (find_paragraph text position offsets) as [q|] eqn:Hpar.
  { intros [= <-]. apply find_paragraph_found in Hpar as (i & Hi & -> & Hle).
    apply Hoff in Hi. lia. }
  destruct (find_sentence text position offsets) as [[q|]|e] eqn:Hsen; cbn;
    [| | discriminate].
  { intros [= <-]. apply find_sentence_found in Hsen as (i & Hi & -> & Hlt).
    apply Hoff in Hi. lia. }
  destruct (find_word text position offsets) as [[q|]|e] eqn:Hword; cbn;
    [| | discriminate].
  { intros [= <-]. apply find_word_found in Hword as (i & Hi & -> & Hlt).
    apply Hoff in Hi. lia. }
  intros [= <-]. lia.
Qed.

Lemma find_break_point_total (text : string) (position : Z) :
  0 <= position -> exists p, _find_break_point text position = Ok p.
Proof.
  intros Hpos. unfold _find_break_point.
  set (offsets := range (Z.min 200 (len text - position))).
  pose proof (find_break_point_offsets text position) as Hoff. fold offsets in Hoff.
  assert (Hnonneg : Forall (fun i => 0 <= position + i) offsets).
  { apply Forall_forall. intros i Hi. apply Hoff in Hi. lia. }
  destruct (find_paragraph text position offsets); [eauto |].
  destruct (find_sentence_total text position offsets Hnonneg) as [[q|] ->]; cbn;
    [eauto |].
  destruct (find_word_total text position offsets Hnonneg) as [[q|] ->]; cbn; eauto.
Qed.

(** X2: a break point, when [_find_break_point] returns one, is never
    before the position it was asked for, at most 201 characters after it,
    and not beyond the end of the text when the position is not; for a
    position that is not negative the search raises nothing. *)
Theorem find_break_point_bounds (text : string) (position : Z) :
  (forall p, _find_break_point text position = Ok p ->
     position <= p <= position + 201 /\ (position <= len text -> p <= len text))
  /\ (0 <= position -> exists p, _find_break_point text position = Ok p).
Proof.
  split.
  - intros p. apply find_break_point_found.
  - apply find_break_point_total.
Qed.

(** *** [_get_page_for_position] *)

(** X1: in a page table sorted by [start_char] whose first page does not
    start after the position, [_get_page_for_position] returns the number
    of the last page that starts at or before the position; for an empty
    table it returns 1. *)
Theorem get_page_for_position_sorted (char_position : Z) (page_texts : list PageText) :
  (page_texts = [] -> _get_page_for_position char_position page_texts = 1)
  /\ (forall first rest,
        page_texts = first :: rest ->
        StronglySorted (fun p q => pt_start_char p <= pt_start_char q) page_texts ->
        pt_start_char first <= char_position ->
        exists before page after,
          page_texts = before ++ page :: after
          /\ _get_page_for_position char_position page_texts = pt_page_number page
          /\ pt_start_char page <= char_position
          /\ Forall (fun q => char_position < pt_start_char q) after).
Proof.
  split; [intros ->; reflexivity |].
  intros first rest -> Hsorted Hfirst.
  revert first Hsorted Hfirst.
  induction rest as [|next rest IH]; intros first Hsorted Hfirst.
  - exists [], first, []. cbn. auto.
  - cbn [_get_page_for_position].
    destruct (Z.gtb_spec (pt_start_char next) char_position) as [Hgt|Hle].
    + exists [], first, (next :: rest). cbn. repeat split; [exact Hfirst |].
      apply StronglySorted_inv in Hsorted as [Hrest Hall].
      apply StronglySorted_inv in Hrest as [_ Hnext].
      constructor; [lia |].
      eapply Forall_impl; [exact Hnext |]. cbn. intros q Hq. lia.
    + apply StronglySorted_inv in Hsorted as [Hrest _].
      destruct (IH next Hrest Hle) as (before & page & after & Heq & Hres & Hstart & Hafter).
      exists (first :: before), page, after.
      rewrite Heq. cbn. repeat split; assumption.
Qed.

(** *** One iteration of the loop *)

(** What one run of the loop body does, with the window end singled out. *)
Lemma loop_body_window (self : PDFProcessor) (text : string)
    (page_texts : list PageText) (st st' : loop_state) :
  0 < chunk_size self ->
  ls_start st < len text ->
  loop_body self text page_texts st = Ok st' ->
  exists end_,
    ls_start st < end_ <= len text
    /\ (end_ = len text /\ len text <= ls_start st + chunk_size self
        \/ ls_start st + chunk_size self <= end_
           /\ ls_start st + chunk_size self < len text)
    /\ (let content := strip (slice text (ls_start st) end_) in
        (min_chunk_size self <= len content
         /\ ls_chunks st' =
              ls_chunks st ++
                [mkChunk content (_get_page_for_position (ls_start st) page_texts)
                   (ls_chunk_index st) (ls_start st) end_ (len content / 4)]
         /\ ls_chunk_index st' = ls_chunk_index st + 1)
        \/ (len content < min_chunk_size self
            /\ ls_chunks st' = ls_chunks st
            /\ ls_chunk_index st' = ls_chunk_index st))
    /\ ls_start st' =
         if match last (ls_chunks st') with
            | Some c => end_ - chunk_overlap self <=? start_char c
            | None => false
            end
         then end_ else end_ - chunk_overlap self.
Proof.
  intros Hsize Hguard H. unfold loop_body in H.
  set (start := ls_start st) in *.
  assert (Hend : (exists end_,
            (if start + chunk_size self <? len text
             then break_point ← _find_break_point text (start + chunk_size self);
                  Ok (if break_point >? start then break_point
                      else start + chunk_size self)
             else Ok (len text)) = Ok end_
            /\ start < end_ <= len text
            /\ (end_ = len text /\ len text <= start + chunk_size self
                \/ start + chunk_size self <= end_
                   /\ start + chunk_size self < len text))
          \/ exists e,
            (if start + chunk_size self <? len text
             then break_point ← _find_break_point text (start + chunk_size self);
                  Ok (if break_point >? start then break_point
                      else start + chunk_size self)
             else Ok (len text)) = Raise e).
  { destruct (Z.ltb_spec (start + chunk_size self) (len text)) as [Hlt|Hge].
    - destruct (_find_break_point text (start + chunk_size self)) as [bp|e] eqn:Hbp;
        unfold mbind, result_bind; cbv beta iota; [| right; eauto].
      apply find_break_point_found in Hbp as [Hbp Hle].
      left. exists bp.
      destruct (Z.gtb_spec bp start) as [_|]; [| lia].
      split; [reflexivity | lia].
    - left. exists (len text). split; [reflexivity | lia]. }
  destruct Hend as [(end_ & Hend & Hrange & Hcase) | [e Hend]];
    rewrite Hend in H; unfold mbind, result_bind in H; cbv beta iota in H;
    [| discriminate].
  set (content := strip (slice text start end_)).
  exists end_. split; [exact Hrange |]. split; [exact Hcase |].
  unfold _estimate_tokens in H.
  fold content in H.
  destruct (Z.geb_spec (len content) (min_chunk_size self)) as [Hkeep|Hdrop];
    injection H as <-; cbn [ls_chunks ls_chunk_index ls_start];
    (split; [| reflexivity]); [left | right]; auto.
Qed.

(** *** The invariant of the loop *)

Lemma sorted_last_is_max (chunks : list PDFChunk) (c : PDFChunk) :
  StronglySorted (fun c1 c2 => start_char c1 < start_char c2) chunks ->
  last chunks = Some c ->
  Forall (fun c0 => start_char c0 <= start_char c) chunks.
Proof.
  intros Hsorted Hlast. apply last_Some in Hlast as [l ->].
  apply StronglySorted_app in Hsorted as (Hcross & _ & _).
  apply Forall_app. split.
  - apply Forall_forall. intros c0 Hc0.
    assert (start_char c0 < start_char c); [| lia].
    apply Hcross; [exact Hc0 | by left].
  - repeat constructor. lia.
Qed.

(** The next window starts after every chunk appended so far. *)
Lemma next_start_above (self : PDFProcessor) (chunks : list PDFChunk) (end_ : Z) :
  StronglySorted (fun c1 c2 => start_char c1 < start_char c2) chunks ->
  Forall (fun c => start_char c < end_) chunks ->
  Forall (fun c =>
            start_char c <
            if match last chunks with
               | Some c => end_ - chunk_overlap self <=? start_char c
               | None => false
               end
            then end_ else end_ - chunk_overlap self) chunks.
Proof.
  intros Hsorted Hbelow.
  destruct (last chunks) as [cl|] eqn:Hlast.
  - pose proof (sorted_last_is_max chunks cl Hsorted Hlast) as Hmax.
    destruct (Z.leb_spec (end_ - chunk_overlap self) (start_char cl)) as [_|Hgt];
      [exact Hbelow |].
    eapply Forall_impl; [exact Hmax |]. cbn. intros c Hc. lia.
  - apply last_None in Hlast as ->. constructor.
Qed.

Lemma loop_body_inv (self : PDFProcessor) (text : string)
    (page_texts : list PageText) (st st' : loop_state) :
  0 < chunk_size self ->
  ls_start st < len text ->
  loop_inv self text page_texts st ->
  loop_body self text page_texts st = Ok st' ->
  loop_inv self text page_texts st'.
Proof.
  intros Hsize Hguard (Hidx & Hnth & Hsorted & Hbelow & Hok) Hbody.
  destruct (loop_body_window _ _ _ _ _ Hsize Hguard Hbody)
    as (end_ & Hrange & _ & Hchunks & Hstart).
  cbv zeta in Hchunks.
  set (content := strip (slice text (ls_start st) end_)) in *.
  assert (Hbelow_end : Forall (fun c => start_char c < end_) (ls_chunks st)).
  { eapply Forall_impl; [exact Hbelow |]. cbn. intros c Hc. lia. }
  unfold loop_inv. rewrite Hstart.
  destruct Hchunks as [(Hkeep & -> & ->) | (Hdrop & -> & ->)].
  - assert (Hsorted' : StronglySorted (fun c1 c2 => start_char c1 < start_char c2)
                         (ls_chunks st ++
                            [mkChunk content
                               (_get_page_for_position (ls_start st) page_texts)
                               (ls_chunk_index st) (ls_start st) end_
                               (len content / 4)])).
    { apply StronglySorted_app. split; [| split; [exact Hsorted | repeat constructor]].
      intros c1 c2 Hc1 Hc2. apply list_elem_of_singleton in Hc2 as ->. cbn.
      rewrite Forall_forall in Hbelow. auto. }
    split; [rewrite length_app; cbn; lia |].
    split.
    { intros i c Hc. apply lookup_app_Some in Hc as [Hc | [Hge Hc]]; [eauto |].
      destruct (i - List.length (ls_chunks st))%nat as [|n] eqn:Hn; [| done].
      injection Hc as <-. cbn. lia. }
    split; [exact Hsorted' |].
    split.
    { apply next_start_above; [exact Hsorted' |].
      apply Forall_app. split; [exact Hbelow_end |]. repeat constructor. cbn. lia. }
    apply Forall_app. split; [exact Hok |]. repeat constructor; cbn; lia.
  - split; [exact Hidx |]. split; [exact Hnth |]. split; [exact Hsorted |].
    split; [| exact Hok].
    apply next_start_above; assumption.
Qed.

Lemma chunk_loop_inv (self : PDFProcessor) (text : string)
    (page_texts : list PageText) (fuel : nat) :
  0 < chunk_size self ->
  forall st chunks,
    loop_inv self text page_texts st ->
    chunk_loop self text page_texts fuel st = Some (Ok chunks) ->
    exists st', loop_inv self text page_texts st' /\ ls_chunks st' = chunks.
Proof.
  intros Hsize. induction fuel as [|fuel IH]; intros st chunks Hinv; cbn [chunk_loop].
  - destruct (ls_start st <? len text); [discriminate |].
    intros [= <-]. eauto.
  - destruct (Z.ltb_spec (ls_start st) (len text)) as [Hguard|_].
    + destruct (loop_body self text page_texts st) as [st'|e] eqn:Hbody; [| discriminate].
      intros Hloop.
      exact (IH st' chunks (loop_body_inv _ _ _ _ _ Hsize Hguard Hinv Hbody) Hloop).
    + intros [= <-]. eauto.
Qed.

Lemma loop_inv_initial (self : PDFProcessor) (text : string) (page_texts : list PageText) :
  loop_inv self text page_texts (mkLoop 0 0 []).
Proof.
  unfold loop_inv. cbn. repeat split; try constructor. intros i c Hc. done.
Qed.

(** X3: with a positive [chunk_size], whenever [chunk_text] returns a list
    of chunks, the chunk at position [i] has [chunk_index = i] and the
    [start_char] values increase strictly along the list. *)
Theorem chunk_text_indices_and_order (normalize_NFKC : string -> string)
    (self : PDFProcessor) (fuel : nat) (text : string) (page_texts : list PageText)
    (chunks : list PDFChunk) :
  0 < chunk_size self ->
  chunk_text normalize_NFKC self fuel text page_texts = Some (Ok chunks) ->
  (forall (i : nat) c, chunks !! i = Some c -> chunk_index c = Z.of_nat i)
  /\ StronglySorted (fun c1 c2 => start_char c1 < start_char c2) chunks.
Proof.
  intros Hsize. unfold chunk_text.
  destruct (len (_clean_text normalize_NFKC text) <? min_chunk_size self).
  - intros [= <-]. split; [| repeat constructor].
    intros [|i] c Hc; [| done]. injection Hc as <-. reflexivity.
  - intros Hloop.
    destruct (chunk_loop_inv _ _ _ _ Hsize _ _ (loop_inv_initial _ _ _) Hloop)
      as (st' & (_ & Hnth & Hsorted & _) & <-).
    auto.
Qed.

(** X4: with a positive [chunk_size], every chunk that [chunk_text]
    returns for a text that is not shorter than [min_chunk_size] lies
    inside the cleaned text with [start_char < end_char <= len(text)]; its
    content is the stripped slice between the two offsets and has at least
    [min_chunk_size] characters, its token count is a quarter of the
    content length and its page is the one looked up for [start_char]. *)
Theorem chunk_text_chunks_well_formed (normalize_NFKC : string -> string)
    (self : PDFProcessor) (fuel : nat) (text : string) (page_texts : list PageText)
    (chunks : list PDFChunk) :
  0 < chunk_size self ->
  min_chunk_size self <= len (_clean_text normalize_NFKC text) ->
  chunk_text normalize_NFKC self fuel text page_texts = Some (Ok chunks) ->
  Forall (chunk_ok self (_clean_text normalize_NFKC text) page_texts) chunks.
Proof.
  intros Hsize Hlong. unfold chunk_text.
  destruct (Z.ltb_spec (len (_clean_text normalize_NFKC text)) (min_chunk_size self));
    [lia |].
  intros Hloop.
  destruct (chunk_loop_inv _ _ _ _ Hsize _ _ (loop_inv_initial _ _ _) Hloop)
    as (st' & (_ & _ & _ & _ & Hok) & <-).
  exact Hok.
Qed.

(** *** Termination *)

Lemma loop_body_returns (self : PDFProcessor) (text : string)
    (page_texts : list PageText) (st : loop_state) :
  0 < chunk_size self ->
  0 <= ls_start st ->
  exists st', loop_body self text page_texts st = Ok st'.
Proof.
  intros Hsize Hstart. unfold loop_body.
  destruct (ls_start st + chunk_size self <? len text).
  - destruct (find_break_point_total text (ls_start st + chunk_size self)) as [bp ->];
      [lia |].
    unfold mbind, result_bind; cbv beta iota.
    destruct (len _ >=? min_chunk_size self); eauto.
  - unfold mbind, result_bind; cbv beta iota.
    destruct (len _ >=? min_chunk_size self); eauto.
Qed.

Lemma loop_body_progress (self : PDFProcessor) (text : string)
    (page_texts : list PageText) (st st' : loop_state) :
  0 < chunk_size self ->
  chunk_overlap self <= 0 \/ min_chunk_size self <= 0 ->
  ls_start st < len text ->
  loop_body self text page_texts st = Ok st' ->
  ls_start st < ls_start st'.
Proof.
  intros Hsize Hcfg Hguard Hbody.
  destruct (loop_body_window _ _ _ _ _ Hsize Hguard Hbody)
    as (end_ & Hrange & _ & Hchunks & ->).
  cbv zeta in Hchunks.
  destruct Hchunks as [(_ & -> & _) | (Hdrop & _ & _)].
  - rewrite last_snoc. cbn.
    destruct (Z.leb_spec (end_ - chunk_overlap self) (ls_start st)); lia.
  - destruct Hcfg as [Hov | Hmin].
    + destruct (match last (ls_chunks st') with
                | Some c => end_ - chunk_overlap self <=? start_char c
                | None => false
                end); lia.
    + assert (0 <= len (strip (slice text (ls_start st) end_))) by (unfold len; lia).
      lia.
Qed.

Lemma chunk_loop_returns (self : PDFProcessor) (text : string)
    (page_texts : list PageText) :
  0 < chunk_size self ->
  chunk_overlap self <= 0 \/ min_chunk_size self <= 0 ->
  forall (fuel : nat) (st : loop_state),
    0 <= ls_start st ->
    (Z.to_nat (len text - ls_start st) <= fuel)%nat ->
    exists chunks, chunk_loop self text page_texts fuel st = Some (Ok chunks).
Proof.
  intros Hsize Hcfg. induction fuel as [|fuel IH]; intros st Hstart Hfuel;
    cbn [chunk_loop].
  - destruct (Z.ltb_spec (ls_start st) (len text)); [lia | eauto].
  - destruct (Z.ltb_spec (ls_start st) (len text)) as [Hguard|_]; [| eauto].
    destruct (loop_body_returns self text page_texts st Hsize Hstart) as [st' Hbody].
    rewrite Hbody.
    pose proof (loop_body_progress _ _ _ _ _ Hsize Hcfg Hguard Hbody).
    apply IH; lia.
Qed.

(** X5: with a positive [chunk_size] and either no overlap
    ([chunk_overlap <= 0]) or no minimum ([min_chunk_size <= 0]),
    [chunk_text] returns a list of chunks after at most [len(text)]
    iterations of its loop, whatever the text: no window is repeated and
    nothing is raised. *)
Theorem chunk_text_returns (normalize_NFKC : string -> string)
    (self : PDFProcessor) (fuel : nat) (text : string) (page_texts : list PageText) :
  0 < chunk_size self ->
  chunk_overlap self <= 0 \/ min_chunk_size self <= 0 ->
  (Z.to_nat (len (_clean_text normalize_NFKC text)) <= fuel)%nat ->
  exists chunks,
    chunk_text normalize_NFKC self fuel text page_texts = Some (Ok chunks).
Proof.
  intros Hsize Hcfg Hfuel. unfold chunk_text.
  destruct (len (_clean_text normalize_NFKC text) <? min_chunk_size self); [eauto |].
  apply chunk_loop_returns; cbn; try assumption; lia.
Qed.

(** *** [strip] *)

Lemma lstrip_head (s : string) : head_space (lstrip s) = false.
Proof.
  induction s as [|c s IH]; cbn; [reflexivity |].
  destruct (isspace c) eqn:Hc; [exact IH |]. cbn. exact Hc.
Qed.

Lemma lstrip_fixed (s : string) : head_space s = false -> lstrip s = s.
Proof. destruct s as [|c s]; cbn; [reflexivity |]. intros ->. reflexivity. Qed.

Lemma rstrip_head (s : string) : head_space s = false -> head_space (rstrip s) = false.
Proof.
  destruct s as [|c s]; cbn; [reflexivity |]. intros Hc.
  destruct (rstrip s); rewrite ?Hc; cbn; exact Hc.
Qed.

Lemma rstrip_last (s : string) : last_space (rstrip s) = false.
Proof.
  induction s as [|c s IH]; cbn; [reflexivity |].
  destruct (rstrip s) as [|d t] eqn:Ht.
  - destruct (isspace c) eqn:Hc; cbn; [reflexivity | exact Hc].
  - exact IH.
Qed.

Lemma rstrip_fixed (s : string) : last_space s = false -> rstrip s = s.
Proof.
  induction s as [|c s IH]; [reflexivity |].
  destruct s as [|d t].
  - cbn. intros ->. reflexivity.
  - intros Hlast. change (last_space (String d t) = false) in Hlast.
    cbn [rstrip]. cbn [rstrip] in IH. rewrite (IH Hlast). reflexivity.
Qed.

Lemma strip_edges (s : string) :
  head_space (strip s) = false /\ last_space (strip s) = false.
Proof.
  unfold strip. split; [| apply rstrip_last].
  apply rstrip_head, lstrip_head.
Qed.

Lemma strip_fixed (s : string) :
  head_space s = false -> last_space s = false -> strip s = s.
Proof.
  intros Hhead Hlast. unfold strip. rewrite (lstrip_fixed _ Hhead).
  apply rstrip_fixed, Hlast.
Qed.

Lemma substring_full (s : string) : String.substring 0 (String.length s) s = s.
Proof. induction s as [|c s IH]; cbn; [reflexivity | by rewrite IH]. Qed.

Lemma slice_full (s : string) : slice s 0 (len s) = s.
Proof.
  unfold slice, adjust, len. cbn [Z.ltb Z.compare].
  destruct (Z.ltb_spec (Z.of_nat (String.length s)) 0) as [|_]; [lia |].
  rewrite Z.min_id.
  destruct (Z.min_spec 0 (Z.of_nat (String.length s))) as [[_ ->] | [Hle ->]].
  - destruct (Z.ltb_spec 0 (Z.of_nat (String.length s))) as [Hpos|Hzero].
    + rewrite Z.sub_0_r, Nat2Z.id. apply substring_full.
    + destruct s; [reflexivity | cbn in Hzero; lia].
  - destruct s; [| cbn in Hle; lia]. reflexivity.
Qed.

(** *** Offsets are not negative *)

Lemma loop_body_nonneg (self : PDFProcessor) (text : string)
    (page_texts : list PageText) (st st' : loop_state) :
  0 < chunk_size self ->
  chunk_overlap self <= chunk_size self ->
  strip text = text ->
  min_chunk_size self <= len text ->
  ls_start st < len text ->
  0 <= ls_start st ->
  Forall (fun c => 0 <= start_char c) (ls_chunks st) ->
  ls_start st = 0 \/ ls_chunks st <> [] \/ chunk_size self < len text ->
  loop_body self text page_texts st = Ok st' ->
  0 <= ls_start st'
  /\ Forall (fun c => 0 <= start_char c) (ls_chunks st')
  /\ (ls_start st' = 0 \/ ls_chunks st' <> [] \/ chunk_size self < len text).
Proof.
  intros Hsize Hov Hstrip Hlong Hguard Hstart Hchunks0 Hcase Hbody.
  destruct (loop_body_window _ _ _ _ _ Hsize Hguard Hbody)
    as (end_ & Hrange & Hend & Hchunks & ->).
  cbv zeta in Hchunks.
  assert (Hall : Forall (fun c => 0 <= start_char c) (ls_chunks st')).
  { destruct Hchunks as [(_ & -> & _) | (_ & -> & _)]; [| exact Hchunks0].
    apply Forall_app. split; [exact Hchunks0 |]. repeat constructor. exact Hstart. }
  split; [| split; [exact Hall |]].
  - destruct (last (ls_chunks st')) as [cl|] eqn:Hlast.
    + assert (0 <= start_char cl).
      { rewrite Forall_forall in Hall. apply Hall.
        apply last_Some in Hlast as [l ->]. apply elem_of_app. right. by left. }
      destruct (Z.leb_spec (end_ - chunk_overlap self) (start_char cl)); lia.
    + apply last_None in Hlast.
      destruct Hchunks as [(_ & Happ & _) | (Hdrop & Hsame & _)].
      { rewrite Hlast in Happ. by destruct (ls_chunks st). }
      destruct Hend as [[-> Hlast_window] | [Hfull _]]; [| lia].
      destruct Hcase as [Hzero | [Hne | Hbig]]; [| congruence | lia].
      rewrite Hzero, slice_full, Hstrip in Hdrop. lia.
  - destruct (decide (ls_chunks st' = [])) as [Hnil|]; [| auto].
    right. right.
    destruct Hchunks as [(_ & Happ & _) | (Hdrop & Hsame & _)].
    { rewrite Hnil in Happ. by destruct (ls_chunks st). }
    destruct Hend as [[-> Hlast_window] | [_ Hfull]]; [| lia].
    destruct Hcase as [Hzero | [Hne | Hbig]]; [| congruence | lia].
    rewrite Hzero, slice_full, Hstrip in Hdrop. lia.
Qed.

Lemma chunk_loop_nonneg (self : PDFProcessor) (text : string)
    (page_texts : list PageText) :
  0 < chunk_size self ->
  chunk_overlap self <= chunk_size self ->
  strip text = text ->
  min_chunk_size self <= len text ->
  forall (fuel : nat) (st : loop_state) (chunks : list PDFChunk),
    0 <= ls_start st ->
    Forall (fun c => 0 <= start_char c) (ls_chunks st) ->
    ls_start st = 0 \/ ls_chunks st <> [] \/ chunk_size self < len text ->
    chunk_loop self text page_texts fuel st = Some (Ok chunks) ->
    Forall (fun c => 0 <= start_char c) chunks.
Proof.
  intros Hsize Hov Hstrip Hlong.
  induction fuel as [|fuel IH]; intros st chunks Hstart Hall Hcase; cbn [chunk_loop].
  - destruct (ls_start st <? len text); [discriminate |]. by intros [= <-].
  - destruct (Z.ltb_spec (ls_start st) (len text)) as [Hguard|_];
      [| by intros [= <-]].
    destruct (loop_body self text page_texts st) as [st'|e] eqn:Hbody; [| discriminate].
    destruct (loop_body_nonneg _ _ _ _ _ Hsize Hov Hstrip Hlong Hguard Hstart Hall
                Hcase Hbody) as (Hstart' & Hall' & Hcase').
    apply IH; assumption.
Qed.

Lemma clean_text_stripped (normalize_NFKC : string -> string) (text : string) :
  strip (_clean_text normalize_NFKC text) = _clean_text normalize_NFKC text.
Proof.
  unfold _clean_text.
  destruct (strip_edges (normalize_NFKC (remove_char NUL (sub_ws false text)))).
  apply strip_fixed; assumption.
Qed.

(** X6: with a positive [chunk_size] and an overlap that is not larger than
    it, no chunk returned by [chunk_text] starts at a negative offset. *)
Theorem chunk_text_starts_nonnegative (normalize_NFKC : string -> string)
    (self : PDFProcessor) (fuel : nat) (text : string) (page_texts : list PageText)
    (chunks : list PDFChunk) :
  0 < chunk_size self ->
  chunk_overlap self <= chunk_size self ->
  chunk_text normalize_NFKC self fuel text page_texts = Some (Ok chunks) ->
  Forall (fun c => 0 <= start_char c) chunks.
Proof.
  intros Hsize Hov. unfold chunk_text.
  destruct (Z.ltb_spec (len (_clean_text normalize_NFKC text)) (min_chunk_size self)).
  - intros [= <-]. repeat constructor. cbn. lia.
  - apply (chunk_loop_nonneg self _ page_texts Hsize Hov
             (clean_text_stripped normalize_NFKC text)); cbn; auto. lia.
Qed.

(** X7: the text that [_clean_text] returns neither starts nor ends with a
    whitespace character, and the same holds of the content of every chunk
    that [chunk_text] returns. *)
Theorem clean_text_and_chunks_stripped (normalize_NFKC : string -> string)
    (self : PDFProcessor) (fuel : nat) (text : string) (page_texts : list PageText) :
  (head_space (_clean_text normalize_NFKC text) = false
   /\ last_space (_clean_text normalize_NFKC text) = false)
  /\ (forall chunks,
        0 < chunk_size self ->
        chunk_text normalize_NFKC self fuel text page_texts = Some (Ok chunks) ->
        Forall (fun c => head_space (content c) = false
                         /\ last_space (content c) = false) chunks).
Proof.
  assert (Hclean : head_space (_clean_text normalize_NFKC text) = false
                   /\ last_space (_clean_text normalize_NFKC text) = false)
    by apply strip_edges.
  split; [exact Hclean |].
  intros chunks Hsize. unfold chunk_text.
  destruct (len (_clean_text normalize_NFKC text) <? min_chunk_size self).
  - intros [= <-]. repeat constructor; apply Hclean.
  - intros Hloop.
    destruct (chunk_loop_inv _ _ _ _ Hsize _ _ (loop_inv_initial _ _ _) Hloop)
      as (st' & (_ & _ & _ & _ & Hok) & <-).
    eapply Forall_impl; [exact Hok |]. cbn.
    intros c (_ & _ & -> & _). apply strip_edges.
Qed.

(** *** The theorems at concrete inputs *)

Lemma get_page_for_position_sorted_witness :
  StronglySorted (fun p q => pt_start_char p <= pt_start_char q) three_pages
  /\ 0 <= 120
  /\ exists before page after,
       three_pages = before ++ page :: after
       /\ _get_page_for_position 120 three_pages = pt_page_number page
       /\ pt_start_char page <= 120
       /\ Forall (fun q => 120 < pt_start_char q) after.
Proof.
  assert (Hsorted : StronglySorted (fun p q => pt_start_char p <= pt_start_char q)
                      three_pages)
    by (repeat constructor; cbn; lia).
  assert (Hfirst : 0 <= 120) by lia.
  split; [exact Hsorted | split; [exact Hfirst |]].
  exact (proj2 (get_page_for_position_sorted 120 three_pages) _ _ eq_refl Hsorted Hfirst).
Defined.

Lemma find_break_point_bounds_witness :
  _find_break_point sentence_text 3 = Ok 12
  /\ 0 <= 3
  /\ (3 <= 12 <= 3 + 201 /\ (3 <= len sentence_text -> 12 <= len sentence_text))
  /\ exists p, _find_break_point sentence_text 3 = Ok p.
Proof.
  assert (Hfound : _find_break_point sentence_text 3 = Ok 12) by (vm_compute; reflexivity).
  assert (Hpos : 0 <= 3) by lia.
  split; [exact Hfound | split; [exact Hpos | split]].
  - exact (proj1 (find_break_point_bounds sentence_text 3) 12 Hfound).
  - exact (proj2 (find_break_point_bounds sentence_text 3) Hpos).
Defined.

Lemma chunk_text_indices_and_order_witness :
  0 < chunk_size keeping_processor
  /\ chunk_text (fun s => s) keeping_processor 5 stall_text stall_pages
     = Some (Ok [mkChunk "aaaaaaaaaa" 1 0 0 10 2; mkChunk "aa" 1 1 8 10 0])
  /\ StronglySorted (fun c1 c2 => start_char c1 < start_char c2)
       [mkChunk "aaaaaaaaaa" 1 0 0 10 2; mkChunk "aa" 1 1 8 10 0].
Proof.
  assert (Hsize : 0 < chunk_size keeping_processor) by (vm_compute; reflexivity).
  assert (Hrun : chunk_text (fun s => s) keeping_processor 5 stall_text stall_pages
                 = Some (Ok [mkChunk "aaaaaaaaaa" 1 0 0 10 2; mkChunk "aa" 1 1 8 10 0]))
    by (vm_compute; reflexivity).
  split; [exact Hsize | split; [exact Hrun |]].
  exact (proj2 (chunk_text_indices_and_order _ _ _ _ _ _ Hsize Hrun)).
Defined.

Lemma chunk_text_chunks_well_formed_witness :
  0 < chunk_size keeping_processor
  /\ min_chunk_size keeping_processor <= len (_clean_text (fun s => s) stall_text)
  /\ chunk_text (fun s => s) keeping_processor 5 stall_text stall_pages
     = Some (Ok [mkChunk "aaaaaaaaaa" 1 0 0 10 2; mkChunk "aa" 1 1 8 10 0])
  /\ Forall (chunk_ok keeping_processor (_clean_text (fun s => s) stall_text) stall_pages)
       [mkChunk "aaaaaaaaaa" 1 0 0 10 2; mkChunk "aa" 1 1 8 10 0].
Proof.
  assert (Hsize : 0 < chunk_size keeping_processor) by (vm_compute; reflexivity).
  assert (Hlong : min_chunk_size keeping_processor
                  <= len (_clean_text (fun s => s) stall_text))
    by (vm_compute; discriminate).
  assert (Hrun : chunk_text (fun s => s) keeping_processor 5 stall_text stall_pages
                 = Some (Ok [mkChunk "aaaaaaaaaa" 1 0 0 10 2; mkChunk "aa" 1 1 8 10 0]))
    by (vm_compute; reflexivity).
  split; [exact Hsize | split; [exact Hlong | split; [exact Hrun |]]].
  exact (chunk_text_chunks_well_formed _ _ _ _ _ _ Hsize Hlong Hrun).
Defined.

Lemma chunk_text_returns_witness :
  0 < chunk_size disjoint_processor
  /\ (chunk_overlap disjoint_processor <= 0 \/ min_chunk_size disjoint_processor <= 0)
  /\ (Z.to_nat (len (_clean_text (fun s => s) stall_text)) <= 10)%nat
  /\ exists chunks,
       chunk_text (fun s => s) disjoint_processor 10 stall_text stall_pages
       = Some (Ok chunks).
Proof.
  assert (Hsize : 0 < chunk_size disjoint_processor) by (vm_compute; reflexivity).
  assert (Hcfg : chunk_overlap disjoint_processor <= 0
                 \/ min_chunk_size disjoint_processor <= 0)
    by (left; vm_compute; discriminate).
  assert (Hfuel : (Z.to_nat (len (_clean_text (fun s => s) stall_text)) <= 10)%nat)
    by (vm_compute; lia).
  split; [exact Hsize | split; [exact Hcfg | split; [exact Hfuel |]]].
  exact (chunk_text_returns (fun s => s) disjoint_processor 10 stall_text stall_pages
           Hsize Hcfg Hfuel).
Defined.

Lemma chunk_text_starts_nonnegative_witness :
  0 < chunk_size keeping_processor
  /\ chunk_overlap keeping_processor <= chunk_size keeping_processor
  /\ chunk_text (fun s => s) keeping_processor 5 stall_text stall_pages
     = Some (Ok [mkChunk "aaaaaaaaaa" 1 0 0 10 2; mkChunk "aa" 1 1 8 10 0])
  /\ Forall (fun c => 0 <= start_char c)
       [mkChunk "aaaaaaaaaa" 1 0 0 10 2; mkChunk "aa" 1 1 8 10 0].
Proof.
  assert (Hsize : 0 < chunk_size keeping_processor) by (vm_compute; reflexivity).
  assert (Hov : chunk_overlap keeping_processor <= chunk_size keeping_processor)
    by (vm_compute; discriminate).
  assert (Hrun : chunk_text (fun s => s) keeping_processor 5 stall_text stall_pages
                 = Some (Ok [mkChunk "aaaaaaaaaa" 1 0 0 10 2; mkChunk "aa" 1 1 8 10 0]))
    by (vm_compute; reflexivity).
  split; [exact Hsize | split; [exact Hov | split; [exact Hrun |]]].
  exact (chunk_text_starts_nonnegative _ _ _ _ _ _ Hsize Hov Hrun).
Defined.

Lemma clean_text_and_chunks_stripped_witness :
  0 < chunk_size keeping_processor
  /\ chunk_text (fun s => s) keeping_processor 5 stall_text stall_pages
     = Some (Ok [mkChunk "aaaaaaaaaa" 1 0 0 10 2; mkChunk "aa" 1 1 8 10 0])
  /\ Forall (fun c => head_space (content c) = false /\ last_space (content c) = false)
       [mkChunk "aaaaaaaaaa" 1 0 0 10 2; mkChunk "aa" 1 1 8 10 0].
Proof.
  assert (Hsize : 0 < chunk_size keeping_processor) by (vm_compute; reflexivity).
  assert (Hrun : chunk_text (fun s => s) keeping_processor 5 stall_text stall_pages
                 = Some (Ok [mkChunk "aaaaaaaaaa" 1 0 0 10 2; mkChunk "aa" 1 1 8 10 0]))
    by (vm_compute; reflexivity).
  split; [exact Hsize | split; [exact Hrun |]].
  exact (proj2 (clean_text_and_chunks_stripped (fun s => s) keeping_processor 5
                  stall_text stall_pages) _ Hsize Hrun).
Defined.

End ChunkerFacts.

(** ** Further properties of [FAISSIndexManager] *)

Module ManagerFacts.

Import Index IndexSpec ManagerSpec MultiSearch Fixtures Examples IndexFacts.

Section WithLib.

Context {L : Lib}.

(** *** Ordinals and metadata stay in step *)

Lemma entry_not_empty (chunk_id : string) (meta : pydict) : entry chunk_id meta <> ∅.
Proof.
  intros Hempty.
  assert (Hsome : is_Some (entry chunk_id meta !! "chunk_id")).
  { unfold entry. apply lookup_union_is_Some. right.
    rewrite lookup_singleton_eq. eauto. }
  rewrite Hempty, lookup_empty in Hsome. by destruct Hsome.
Qed.

Lemma write_entries_lookup (start_id : Z) (items : list (string * pydict))
    (i : Z) (table : gmap Z pydict) (j : Z) :
  write_entries start_id i items table !! j =
    if decide (start_id + i <= j < start_id + i + Z.of_nat (List.length items))
    then (fun item => entry item.1 item.2) <$> items !! Z.to_nat (j - start_id - i)
    else table !! j.
Proof.
  case_decide as Hj.
  - destruct (lookup_lt_is_Some_2 items (Z.to_nat (j - start_id - i)))
      as [[chunk_id meta] Hitem]; [lia |].
    rewrite Hitem.
    replace j with (start_id + i + Z.of_nat (Z.to_nat (j - start_id - i))) at 1 by lia.
    rewrite (write_entries_written start_id items i table _ _ _ Hitem). reflexivity.
  - apply write_entries_other. lia.
Qed.

Lemma write_entries_size (start_id : Z) (items : list (string * pydict)) :
  forall (i : Z) (table : gmap Z pydict),
    (forall j, start_id + i <= j -> table !! j = None) ->
    size (write_entries start_id i items table) = (size table + List.length items)%nat.
Proof.
  induction items as [|[chunk_id meta] rest IH]; intros i table Hfresh;
    cbn [write_entries List.length]; [lia |].
  rewrite IH.
  - rewrite map_size_insert_None by (apply Hfresh; lia). lia.
  - intros j Hj. rewrite lookup_insert_ne by lia. apply Hfresh. lia.
Qed.

Lemma seq_shifted (m : nat) :
  forall a b : nat,
    List.map Z.of_nat (seq (a + b) m)
    = List.map (fun i => Z.of_nat a + i) (List.map Z.of_nat (seq b m)).
Proof.
  induction m as [|m IH]; intros a b; cbn; [reflexivity |].
  f_equal; [lia |].
  rewrite <- IH. f_equal. f_equal. lia.
Qed.

Lemma ordinals_app (n : nat) (chunk_ids : list string) :
  ordinals (n + List.length chunk_ids)
  = ordinals n ++ numeric_ids (Z.of_nat n) chunk_ids.
Proof.
  unfold ordinals, numeric_ids, range.
  rewrite seq_app, List.map_app, Nat2Z.id. f_equal.
  rewrite <- seq_shifted. f_equal. f_equal. lia.
Qed.

Lemma add_embeddings_stores (w : World) (document_id : string) (chunk_ids : list string)
    (embeddings : ndarray Vec) (chunk_metadata : list pydict) :
  has_table document_id w ->
  List.length chunk_ids = List.length (nd_rows embeddings) ->
  nd_cols embeddings = flat_d (doc_index document_id (with_index document_id w)) ->
  let w1 := with_index document_id w in
  let start_id := Z.of_nat (size (doc_table document_id w1)) in
  out_val (add_embeddings document_id chunk_ids embeddings chunk_metadata w) = Ok tt
  /\ out_state (add_embeddings document_id chunk_ids embeddings chunk_metadata w)
     = set_metadata
         <[document_id := write_entries start_id 0 (zip chunk_ids chunk_metadata)
                            (doc_table document_id w1)]>
         (set_indices
            <[document_id :=
                mk_flat (flat_d (doc_index document_id w1))
                  (flat_rows (doc_index document_id w1)
                   ++ zip (numeric_ids start_id chunk_ids) (nd_rows embeddings))]> w1).
Proof.
  intros Hwf Hlen Hdim w1 start_id.
  rewrite (add_embeddings_run _ _ _ _ _ Hwf). fold w1. fold start_id.
  unfold add_with_ids, nd_len.
  rewrite numeric_ids_length, Hdim, Z.eqb_refl, Hlen, Z.eqb_refl. cbn [negb].
  split; reflexivity.
Qed.

Lemma with_index_in_sync (w : World) (document_id : string) :
  document_id ∉ dom (indices (self w)) \/ in_sync document_id w ->
  in_sync document_id (with_index document_id w).
Proof.
  intros [Hfresh | Hsync].
  - rewrite (with_index_stats _ _ Hfresh).
    exists (IndexFlatIP get_dimension), ∅. cbn.
    rewrite !lookup_insert_eq.
    split; [reflexivity |]. split; [reflexivity |]. split; [reflexivity |].
    split; [apply map_size_empty |]. split.
    + intros j. rewrite lookup_empty. split; [by intros [x Hx] | cbn; lia].
    + intros j meta Hj. by rewrite lookup_empty in Hj.
  - unfold with_index. case_decide as Hin; [exact Hsync |].
    destruct Hsync as (index & table & Hidx & _). exfalso. apply Hin.
    apply elem_of_dom. eauto.
Qed.

Lemma in_sync_has_table (w : World) (document_id : string) :
  document_id ∉ dom (indices (self w)) \/ in_sync document_id w ->
  has_table document_id w.
Proof.
  intros [Hfresh | (index & table & _ & Htable & _)] Hin; [done |].
  apply elem_of_dom. eauto.
Qed.

Lemma add_embeddings_in_step (w : World) (document_id : string)
    (chunk_ids : list string) (embeddings : ndarray Vec) (chunk_metadata : list pydict) :
  document_id ∉ dom (indices (self w)) \/ in_sync document_id w ->
  List.length chunk_ids = List.length (nd_rows embeddings) ->
  List.length chunk_metadata = List.length chunk_ids ->
  nd_cols embeddings = flat_d (doc_index document_id (with_index document_id w)) ->
  let o := add_embeddings document_id chunk_ids embeddings chunk_metadata w in
  let total := (ntotal (doc_index document_id (with_index document_id w))
                + Z.of_nat (List.length chunk_ids)) in
  out_val o = Ok tt
  /\ in_sync document_id (out_state o)
  /\ get_index_stats document_id (out_state o) = Some (mkStats total get_dimension total).
Proof.
  intros Hstate Hlen Hmeta Hdim o total. subst o total.
  destruct (add_embeddings_stores w document_id chunk_ids embeddings chunk_metadata
              (in_sync_has_table _ _ Hstate) Hlen Hdim) as [Hval ->].
  split; [exact Hval |].
  destruct (with_index_in_sync _ _ Hstate)
    as (index & table & Hidx & Htable & Hord & Hsize & Hkeys & Hfull).
  set (w1 := with_index document_id w) in *.
  unfold doc_index, doc_table, ntotal. rewrite Hidx, Htable. cbn [from_option]. unfold id.
  rewrite Hsize.
  set (n := List.length (flat_rows index)) in *.
  assert (Hzip : List.length (zip chunk_ids chunk_metadata) = List.length chunk_ids).
  { rewrite length_zip. lia. }
  assert (Hrows : List.length (flat_rows index
                               ++ zip (numeric_ids (Z.of_nat n) chunk_ids)
                                      (nd_rows embeddings))
                  = (n + List.length chunk_ids)%nat).
  { rewrite length_app, length_zip, numeric_ids_length. fold n. lia. }
  assert (Hfresh : forall j, Z.of_nat n + 0 <= j -> table !! j = None).
  { intros j Hj. apply eq_None_not_Some. rewrite Hkeys. lia. }
  assert (Hsize' : size (write_entries (Z.of_nat n) 0 (zip chunk_ids chunk_metadata) table)
                   = (n + List.length chunk_ids)%nat).
  { rewrite (write_entries_size _ _ _ _ Hfresh), Hzip. lia. }
  split.
  - eexists _, _. cbn. rewrite !lookup_insert_eq.
    split; [reflexivity |]. split; [reflexivity |]. cbn [flat_rows].
    rewrite Hrows. split; [| split; [exact Hsize' | split]].
    + rewrite fmap_app, fst_zip by (rewrite numeric_ids_length; lia).
      rewrite Hord. symmetry. apply ordinals_app.
    + intros j. rewrite write_entries_lookup, Hzip. case_decide as Hj.
      * split; [lia |]. intros _.
        destruct (lookup_lt_is_Some_2 (zip chunk_ids chunk_metadata)
                    (Z.to_nat (j - Z.of_nat n - 0))) as [item ->]; [lia |].
        cbn. eauto.
      * rewrite Hkeys. lia.
    + intros j meta. rewrite write_entries_lookup. case_decide as Hj.
      * destruct (zip chunk_ids chunk_metadata !! _) as [item|]; [| done].
        intros [= <-]. apply entry_not_empty.
      * apply Hfull.
  - unfold get_index_stats. cbn. rewrite !lookup_insert_eq. cbn [from_option flat_rows]. unfold id.
    unfold ntotal. cbn [flat_rows]. rewrite Hrows, Hsize'.
    f_equal. f_equal; lia.
Qed.

(** X8: on a document that is new or whose index and metadata are in step,
    an add with as many chunk ids as vectors and metadata records, of the
    right dimension, succeeds and leaves them in step: the stored ordinals
    are again [0 .. n-1], each with a non-empty metadata entry, and the
    statistics show the same number of vectors and of metadata entries. *)
Theorem add_embeddings_keeps_sync (w : World) (document_id : string)
    (chunk_ids : list string) (embeddings : ndarray Vec) (chunk_metadata : list pydict) :
  document_id ∉ dom (indices (self w)) \/ in_sync document_id w ->
  List.length chunk_ids = List.length (nd_rows embeddings) ->
  List.length chunk_metadata = List.length chunk_ids ->
  nd_cols embeddings = flat_d (doc_index document_id (with_index document_id w)) ->
  let o := add_embeddings document_id chunk_ids embeddings chunk_metadata w in
  let total := (ntotal (doc_index document_id (with_index document_id w))
                + Z.of_nat (List.length chunk_ids)) in
  out_val o = Ok tt
  /\ in_sync document_id (out_state o)
  /\ get_index_stats document_id (out_state o) = Some (mkStats total get_dimension total).
Proof.
  apply add_embeddings_in_step.
Qed.

(** *** What is added is what is found *)

Lemma entry_lookup_other (chunk_id : string) (meta : pydict) (key : string) :
  key <> "chunk_id" -> entry chunk_id meta !! key = meta !! key.
Proof.
  intros Hkey. unfold entry. rewrite lookup_union, lookup_singleton_ne by done.
  by destruct (meta !! key).
Qed.

Lemma entry_lookup_chunk_id (chunk_id : string) (meta : pydict) :
  entry chunk_id meta !! "chunk_id" = Some (default (PStr chunk_id) (meta !! "chunk_id")).
Proof.
  unfold entry. rewrite lookup_union, lookup_singleton_eq.
  by destruct (meta !! "chunk_id").
Qed.

(** X9: after a successful add, a hit of faiss on the ordinal given to the
    [n]-th chunk of the batch yields a result with the score of the hit,
    the id of the document, the [content] and [page_number] of the chunk's
    metadata record (or their defaults), and the chunk id that was passed,
    unless the metadata record has a [chunk_id] key of its own, which then
    wins; the vector of the chunk is stored under that ordinal. *)
Theorem added_chunk_is_found (w : World) (document_id : string)
    (chunk_ids : list string) (embeddings : ndarray Vec) (chunk_metadata : list pydict)
    (n : nat) (chunk_id : string) (meta : pydict) (vector : Vec) (s : Score) :
  has_table document_id w ->
  List.length chunk_ids = List.length (nd_rows embeddings) ->
  nd_cols embeddings = flat_d (doc_index document_id (with_index document_id w)) ->
  zip chunk_ids chunk_metadata !! n = Some (chunk_id, meta) ->
  nd_rows embeddings !! n = Some vector ->
  let o := add_embeddings document_id chunk_ids embeddings chunk_metadata w in
  let ordinal := Z.of_nat (size (doc_table document_id (with_index document_id w)))
                 + Z.of_nat n in
  result_of_hit (doc_table document_id (out_state o)) document_id (s, ordinal)
  = Some (mkSearchResult
            (default (PStr chunk_id) (meta !! "chunk_id"))
            (default (PStr "") (meta !! "content"))
            s
            (default (PInt 0) (meta !! "page_number"))
            (PStr document_id))
  /\ (ordinal, vector) ∈ flat_rows (doc_index document_id (out_state o)).
Proof.
  intros Hwf Hlen Hdim Hitem Hrow o ordinal. subst o ordinal.
  destruct (add_embeddings_stores w document_id chunk_ids embeddings chunk_metadata
              Hwf Hlen Hdim) as [_ ->].
  set (w1 := with_index document_id w).
  set (start_id := Z.of_nat (size (doc_table document_id w1))).
  unfold doc_table at 1, doc_index at 1. cbn. rewrite !lookup_insert_eq.
  cbn [from_option flat_rows]. unfold id. split.
  - unfold result_of_hit.
    assert (Hnot : (start_id + Z.of_nat n =? -1) = false)
      by (apply Z.eqb_neq; unfold start_id; lia).
    rewrite Hnot.
    replace (start_id + Z.of_nat n) with (start_id + 0 + Z.of_nat n) by lia.
    rewrite (write_entries_written _ _ _ _ _ _ _ Hitem). cbn [from_option]. unfold id.
    case_decide as Hempty; [by apply entry_not_empty in Hempty |].
    rewrite entry_lookup_chunk_id, !entry_lookup_other by done.
    reflexivity.
  - unfold doc_index. cbn. rewrite lookup_insert_eq. cbn [from_option flat_rows]. unfold id.
    apply elem_of_app. right.
    apply list_elem_of_lookup. exists n.
    apply lookup_zip_with_Some. exists (start_id + Z.of_nat n), vector.
    split; [reflexivity |]. split; [| exact Hrow].
    unfold numeric_ids, range.
    apply lookup_zip_with_Some in Hitem as (c & m & _ & Hc & _).
    apply lookup_lt_Some in Hc.
    rewrite !list_lookup_fmap, lookup_seq_lt by lia. reflexivity.
Qed.

Lemma ordinals_bounds (n : nat) (j : Z) : j ∈ ordinals n -> 0 <= j < Z.of_nat n.
Proof.
  unfold ordinals. intros Hj.
  apply list_elem_of_In, in_map_iff in Hj as (i & <- & Hi).
  apply in_seq in Hi. lia.
Qed.

(** X10: while the index and the metadata of a document are in step and
    faiss labels its hits with [-1] or a stored ordinal, [search] drops
    nothing but the hits labelled [-1]: the scores of the results are the
    scores of the other hits, in order. *)
Theorem search_in_sync_keeps_hits (w : World) (document_id query : string) (k : Z)
    (index : IndexIDMap Vec) (hits : list (Score * Z)) :
  in_sync document_id w ->
  indices (self w) !! document_id = Some index ->
  flat_search index (generate_embedding query) k = Ok hits ->
  Forall (fun hit => hit.2 = -1 \/ hit.2 ∈ (flat_rows index).*1) hits ->
  exists results,
    out_val (search document_id query k w) = Ok results
    /\ score <$> results = (filter (fun hit => hit.2 <> -1) hits).*1.
Proof.
  intros (index' & table & Hidx' & Htable & Hord & _ & Hkeys & Hfull) Hidx Hhits Hlabels.
  rewrite Hidx in Hidx'. injection Hidx' as <-.
  rewrite (search_with_index _ _ _ _ _ Hidx), Hhits. cbn [out_val].
  eexists. split; [reflexivity |].
  rewrite Htable. cbn [from_option]. unfold id. clear Hhits.
  induction Hlabels as [|[s j] hits Hj _ IH]; [reflexivity |].
  cbn [omap list_omap]. rewrite filter_cons. cbn [snd] in *.
  destruct Hj as [-> | Hj].
  - cbn. rewrite decide_False by (intros H; by apply H). exact IH.
  - rewrite Hord in Hj. apply ordinals_bounds in Hj.
    destruct (proj2 (Hkeys j) Hj) as [meta Hmeta].
    unfold result_of_hit at 1.
    assert (Hnot : (j =? -1) = false) by (apply Z.eqb_neq; lia).
    rewrite Hnot, Hmeta. cbn [from_option]. unfold id.
    rewrite decide_False by (by apply (Hfull j)).
    rewrite decide_True by lia. cbn. f_equal. exact IH.
Qed.

(** *** What a method leaves alone *)

Lemma store_metadata_frame (document_id : string) (start_id : Z)
    (items : list (string * pydict)) :
  forall (i : Z) (w : World),
    let w' := out_state (store_metadata document_id start_id i items w) in
    index_path (self w') = index_path (self w)
    /\ indices (self w') = indices (self w)
    /\ fs w' = fs w
    /\ (forall other, other <> document_id ->
          metadata (self w') !! other = metadata (self w) !! other).
Proof.
  induction items as [|[c m] rest IH]; intros i w; [cbn; done |].
  cbn [store_metadata]. run.
  destruct (metadata (self w) !! document_id) as [table|] eqn:Htab; run; [| done].
  match goal with
  | |- context [store_metadata _ _ _ _ ?W] =>
      specialize (IH (i + 1) W);
      destruct (store_metadata document_id start_id (i + 1) rest W) as [v w' l]
  end.
  cbn [out_state] in *. destruct IH as (Hp & Hi & Hf & Hm).
  split; [exact Hp |]. split; [exact Hi |]. split; [exact Hf |].
  intros other Hother. rewrite (Hm other Hother). cbn.
  by rewrite lookup_insert_ne.
Qed.

Ltac add_frame_tail document_id other :=
  match goal with
  | |- context [add_with_ids ?I ?X ?N] =>
      destruct (add_with_ids I X N) as [index'|e]; run; [| done]
  end;
  match goal with
  | |- context [store_metadata ?D ?S ?I ?Items ?W] =>
      let Hframe := fresh "Hframe" in
      pose proof (store_metadata_frame D S Items I W) as Hframe;
      destruct (store_metadata D S I Items W) as [v w' l];
      cbn [out_state] in Hframe;
      destruct Hframe as (Hp & Hi & Hf & Hm);
      cbn in Hp, Hf;
      destruct v; cbn [out_state]; intros (Hp0 & Hf0 & Hother);
      (split; [congruence |]; split; [congruence |]; intros Hne;
       destruct (Hother Hne) as [Hi0 Hm0];
       rewrite Hi, (Hm other Hne); cbn; rewrite ?lookup_insert_ne by done;
       split; first [assumption | reflexivity])
  end.

(** X11: whether it succeeds or raises, [add_embeddings] changes nothing
    but the index and the metadata table of its document: the index and
    the table of every other document, the index directory and the files
    in it are as before. *)
Theorem add_embeddings_other_documents (w : World) (document_id other : string)
    (chunk_ids : list string) (embeddings : ndarray Vec) (chunk_metadata : list pydict) :
  let w' := out_state (add_embeddings document_id chunk_ids embeddings chunk_metadata w) in
  index_path (self w') = index_path (self w)
  /\ fs w' = fs w
  /\ (other <> document_id ->
      indices (self w') !! other = indices (self w) !! other
      /\ metadata (self w') !! other = metadata (self w) !! other).
Proof.
  assert (Hwith : index_path (self (with_index document_id w)) = index_path (self w)
                  /\ fs (with_index document_id w) = fs w
                  /\ (other <> document_id ->
                      indices (self (with_index document_id w)) !! other
                      = indices (self w) !! other
                      /\ metadata (self (with_index document_id w)) !! other
                         = metadata (self w) !! other)).
  { unfold with_index. case_decide; [done |].
    rewrite create_index_run. cbn.
    split; [done |]. split; [done |]. intros Hne.
    by rewrite !lookup_insert_ne. }
  revert Hwith. unfold with_index, add_embeddings. run.
  destruct (decide (document_id ∈ dom (indices (self w)))) as [Hin|Hnin];
    [| rewrite create_index_run]; cbn [out_state out_val out_log]; run.
  - destruct (indices (self w) !! document_id) as [index|]; run; [| done].
    add_frame_tail document_id other.
  - cbn. rewrite lookup_insert_eq. run.
    add_frame_tail document_id other.
Qed.

(** X12: [delete_index] never raises; after it the document has no
    index, no metadata table and no file, a search of it finds nothing,
    its statistics are empty and it cannot be loaded; deleting again
    changes nothing; the other documents and the other files are as
    before. *)
Theorem delete_index_forgets (w : World) (document_id query : string) (k : Z) :
  let o := delete_index document_id w in
  out_val o = Ok tt
  /\ indices (self (out_state o)) !! document_id = None
  /\ metadata (self (out_state o)) !! document_id = None
  /\ fs (out_state o) !! index_file w document_id = None
  /\ fs (out_state o) !! meta_file w document_id = None
  /\ out_val (search document_id query k (out_state o)) = Ok []
  /\ get_index_stats document_id (out_state o) = None
  /\ load_index document_id (out_state o) = mkOutcome (Ok false) (out_state o) []
  /\ out_state (delete_index document_id (out_state o)) = out_state o
  /\ (forall other, other <> document_id ->
        indices (self (out_state o)) !! other = indices (self w) !! other
        /\ metadata (self (out_state o)) !! other = metadata (self w) !! other)
  /\ (forall path, path <> index_file w document_id -> path <> meta_file w document_id ->
        fs (out_state o) !! path = fs w !! path).
Proof.
  unfold delete_index, index_file, meta_file. run. cbn.
  assert (Hidx : delete document_id (indices (self w)) !! document_id = None)
    by apply lookup_delete_eq.
  split; [done |]. split; [exact Hidx |]. split; [apply lookup_delete_eq |].
  split.
  { rewrite lookup_delete_ne by (symmetry; apply index_file_ne_meta_file).
    apply lookup_delete_eq. }
  split; [apply lookup_delete_eq |].
  split; [rewrite search_no_index by exact Hidx; reflexivity |].
  split; [unfold get_index_stats; cbn; by rewrite Hidx |].
  split.
  { unfold load_index, index_file, meta_file. run. cbn.
    rewrite (lookup_delete_ne _ (path_join _ (_ +:+ ".meta")))
      by (symmetry; apply index_file_ne_meta_file).
    by rewrite lookup_delete_eq. }
  split.
  { unfold set_fs, set_metadata, set_indices. cbn.
    rewrite !delete_delete_eq. f_equal.
    apply map_eq. intros path.
    destruct (decide (path = path_join (index_path (self w)) (document_id +:+ ".meta")))
      as [-> | Hm]; [by rewrite !lookup_delete_eq |].
    rewrite !(lookup_delete_ne _ (path_join _ (_ +:+ ".meta"))) by done.
    destruct (decide (path = path_join (index_path (self w)) (document_id +:+ ".index")))
      as [-> | Hi]; [by rewrite !lookup_delete_eq |].
    by rewrite !lookup_delete_ne. }
  split.
  { intros other Hne. by rewrite !lookup_delete_ne. }
  intros path H1 H2. by rewrite !lookup_delete_ne.
Qed.

(** X13: [save_index] changes nothing in memory and writes no file but
    the index file and the metadata file of its document; for a document
    without an index it writes nothing and logs nothing. *)
Theorem save_index_writes_two_files (w : World) (document_id : string) :
  let o := save_index document_id w in
  out_val o = Ok tt
  /\ self (out_state o) = self w
  /\ (forall path, path <> index_file w document_id -> path <> meta_file w document_id ->
        fs (out_state o) !! path = fs w !! path)
  /\ (indices (self w) !! document_id = None -> o = mkOutcome (Ok tt) w [])
  /\ (forall index, indices (self w) !! document_id = Some index ->
        fs (out_state o) !! index_file w document_id = Some (write_index index)
        /\ fs (out_state o) !! meta_file w document_id
           = Some (pickle_dump (doc_table document_id w))).
Proof.
  destruct (indices (self w) !! document_id) as [index|] eqn:Hidx.
  - rewrite (save_index_run _ _ _ Hidx). cbn.
    split; [done |]. split; [done |]. split.
    { intros path H1 H2. by rewrite !lookup_insert_ne. }
    split; [done |]. intros index' [= <-]. split.
    + rewrite lookup_insert_ne by (symmetry; apply index_file_ne_meta_file).
      apply lookup_insert_eq.
    + apply lookup_insert_eq.
  - unfold save_index. run. rewrite Hidx. cbn. done.
Qed.

(** X14: when the index file or the metadata file of a document is
    missing, [load_index] returns [False] and changes nothing, also when
    the other file is there. *)
Theorem load_index_missing_file (w : World) (document_id : string) :
  fs w !! index_file w document_id = None \/ fs w !! meta_file w document_id = None ->
  load_index document_id w = mkOutcome (Ok false) w [].
Proof.
  intros H. unfold load_index. run.
  destruct H as [-> | ->]; [reflexivity |].
  by destruct (fs w !! index_file w document_id).
Qed.

(** X15: when the index file can be read and the metadata file cannot,
    [load_index] raises the error of [pickle.load] after it has replaced
    the in-memory index: the document then has the index of the file and
    the metadata table it had before, and the files are as before. *)
Theorem load_index_unreadable_metadata (w : World) (document_id : string)
    (index_blob meta_blob : Blob) (index : IndexIDMap Vec) (e : exn) :
  fs w !! index_file w document_id = Some index_blob ->
  fs w !! meta_file w document_id = Some meta_blob ->
  read_index index_blob = Ok index ->
  pickle_load meta_blob = Raise e ->
  let o := load_index document_id w in
  out_val o = Raise e
  /\ indices (self (out_state o)) !! document_id = Some index
  /\ metadata (self (out_state o)) = metadata (self w)
  /\ fs (out_state o) = fs w.
Proof.
  intros Hi Hm Hread Hload. unfold load_index. run.
  rewrite Hi, Hm. cbn. rewrite Hread. cbn. rewrite Hload. cbn.
  split; [done |]. split; [apply lookup_insert_eq |]. done.
Qed.

(** X16: when both files of a document can be read, [load_index] returns
    [True] and the document has the index and the metadata table of the
    files, whatever it had in memory before; the other documents and the
    files are as before. *)
Theorem load_index_replaces (w : World) (document_id : string)
    (index_blob meta_blob : Blob) (index : IndexIDMap Vec) (table : gmap Z pydict) :
  fs w !! index_file w document_id = Some index_blob ->
  fs w !! meta_file w document_id = Some meta_blob ->
  read_index index_blob = Ok index ->
  pickle_load meta_blob = Ok table ->
  let o := load_index document_id w in
  out_val o = Ok true
  /\ indices (self (out_state o)) !! document_id = Some index
  /\ metadata (self (out_state o)) !! document_id = Some table
  /\ fs (out_state o) = fs w
  /\ (forall other, other <> document_id ->
        indices (self (out_state o)) !! other = indices (self w) !! other
        /\ metadata (self (out_state o)) !! other = metadata (self w) !! other).
Proof.
  intros Hi Hm Hread Hload. unfold load_index. run.
  rewrite Hi, Hm. cbn. rewrite Hread. cbn. rewrite Hload. cbn.
  split; [done |]. split; [apply lookup_insert_eq |].
  split; [apply lookup_insert_eq |]. split; [done |].
  intros other Hne. by rewrite !lookup_insert_ne.
Qed.

(** *** [search_multiple_documents] *)

Lemma search_state (w : World) (document_id query : string) (k : Z) :
  out_state (search document_id query k w) = w.
Proof.
  destruct (indices (self w) !! document_id) as [index|] eqn:Hidx.
  - rewrite (search_with_index _ _ _ _ _ Hidx).
    by destruct (flat_search index (generate_embedding query) k).
  - by rewrite search_no_index.
Qed.

Section Ranking.

Variable score_lt : Score -> Score -> bool.

(** [a] is not below [b]. *)
Let not_below (a b : SearchResult) : Prop := score_lt (score a) (score b) = false.

Hypothesis score_lt_asym : forall a b, score_lt a b = true -> score_lt b a = false.
Hypothesis score_ge_trans :
  forall a b c, score_lt a b = false -> score_lt b c = false -> score_lt a c = false.

Lemma insert_by_score_perm (r : SearchResult) (l : list SearchResult) :
  insert_by_score score_lt r l ≡ₚ r :: l.
Proof using Type.
  induction l as [|r' l IH]; cbn; [done |].
  destruct (score_lt (score r) (score r')); [| done].
  rewrite IH. apply Permutation_swap.
Qed.

Lemma sort_by_score_perm (l : list SearchResult) : sort_by_score score_lt l ≡ₚ l.
Proof using Type.
  induction l as [|r l IH]; cbn; [done |].
  by rewrite insert_by_score_perm, IH.
Qed.

Lemma insert_by_score_sorted (r : SearchResult) (l : list SearchResult) :
  StronglySorted not_below l -> StronglySorted not_below (insert_by_score score_lt r l).
Proof using score_lt_asym score_ge_trans.
  induction 1 as [|r' l Hsorted IH Hall]; cbn; [repeat constructor |].
  destruct (score_lt (score r) (score r')) eqn:Hlt.
  - constructor; [exact IH |].
    apply Forall_forall. intros x Hx.
    rewrite insert_by_score_perm in Hx. apply elem_of_cons in Hx as [-> | Hx].
    + by apply score_lt_asym.
    + rewrite Forall_forall in Hall. by apply Hall.
  - constructor; [by constructor |].
    constructor; [exact Hlt |].
    eapply Forall_impl; [exact Hall |].
    intros x Hx. by eapply score_ge_trans.
Qed.

Lemma sort_by_score_sorted (l : list SearchResult) :
  StronglySorted not_below (sort_by_score score_lt l).
Proof using score_lt_asym score_ge_trans.
  induction l as [|r l IH]; cbn; [constructor |].
  by apply insert_by_score_sorted.
Qed.

Lemma search_each_run (w : World) (query : string) (k : Z) (document_ids : list string)
    (per_document : list (list SearchResult)) :
  Forall2 (fun doc_id results => out_val (search doc_id query k w) = Ok results)
          document_ids per_document ->
  forall all_results,
    out_val (search_each document_ids query k all_results w)
    = Ok (all_results ++ List.concat per_document)
    /\ out_state (search_each document_ids query k all_results w) = w.
Proof using Type.
  induction 1 as [|d rs ds pd Hsearch _ IH]; intros all_results; cbn [search_each List.concat].
  - run. by rewrite app_nil_r.
  - run. pose proof (search_state w d query k) as Hstate.
    destruct (search d query k w) as [v w' l]. cbn in Hsearch, Hstate. subst v w'.
    destruct (IH (all_results ++ rs)) as [Hval Hst].
    destruct (search_each ds query k (all_results ++ rs) w) as [v w' l'].
    cbn in Hval, Hst. subst v w'. cbn. by rewrite <- app_assoc.
Qed.

(** X17: when the search of every requested document returns and
    scores are ordered by [<] as numbers are (no NaN), the results of
    [search_multiple_documents] are some of the results of these
    searches, in descending order of score; no result left out has a
    greater score than one returned; for [k >= 0] there are [k] of them,
    or all when there are fewer; the manager is unchanged. *)
Theorem search_multiple_documents_ranked (w : World) (document_ids : list string)
    (query : string) (k : Z) (per_document : list (list SearchResult)) :
  Forall2 (fun doc_id results => out_val (search doc_id query k w) = Ok results)
          document_ids per_document ->
  let o := search_multiple_documents score_lt document_ids query k w in
  exists results left_out,
    out_val o = Ok results
    /\ out_state o = w
    /\ results ++ left_out ≡ₚ List.concat per_document
    /\ StronglySorted (fun a b => score_lt (score a) (score b) = false) results
    /\ (forall r r', r ∈ results -> r' ∈ left_out ->
          score_lt (score r) (score r') = false)
    /\ (0 <= k ->
        Z.of_nat (List.length results)
        = Z.min k (Z.of_nat (List.length (List.concat per_document)))).
Proof using score_lt_asym score_ge_trans.
  intros Hsearches o. subst o. unfold search_multiple_documents. run.
  destruct (search_each_run w query k document_ids per_document Hsearches [])
    as [Hval Hst].
  destruct (search_each document_ids query k [] w) as [v w' l].
  cbn in Hval, Hst. subst v w'. cbn [app out_val out_state].
  set (sorted := sort_by_score score_lt (List.concat per_document)).
  set (n := Z.to_nat (adjust (Z.of_nat (List.length sorted)) k)).
  exists (take n sorted), (drop n sorted).
  pose proof (sort_by_score_sorted (List.concat per_document)) as Hsorted. fold sorted in Hsorted.
  rewrite <- (take_drop n sorted) in Hsorted.
  split; [reflexivity |]. split; [reflexivity |].
  split; [rewrite take_drop; apply sort_by_score_perm |].
  split; [by apply StronglySorted_app_1_l in Hsorted |].
  split.
  - intros r r' Hr Hr'. by eapply (StronglySorted_app_1_elem_of not_below).
  - intros Hk. rewrite length_take. subst n. unfold adjust.
    assert (Hlen : List.length sorted = List.length (List.concat per_document))
      by (unfold sorted; by rewrite sort_by_score_perm).
    destruct (k <? 0) eqn:Hneg; [lia |]. lia.
Qed.

End Ranking.

(** *** The upload route *)

(** X25: the upload route stores a new document so that every chunk can
    be found: with one id and one vector per chunk, the add succeeds, a
    hit of faiss on ordinal [n] gives the id, the content and the page
    number of the [n]-th chunk, and the statistics of the document count
    one vector and one metadata entry per chunk. *)
Theorem uploaded_chunk_is_found (w : World) (document_id : string)
    (chunk_ids : list string) (chunks : list PDF.PDFChunk) (embeddings : ndarray Vec)
    (n : nat) (chunk_id : string) (chunk : PDF.PDFChunk) (s : Score) :
  document_id ∉ dom (indices (self w)) ->
  List.length chunk_ids = List.length chunks ->
  List.length (nd_rows embeddings) = List.length chunks ->
  nd_cols embeddings = get_dimension ->
  chunk_ids !! n = Some chunk_id ->
  chunks !! n = Some chunk ->
  let o := add_embeddings document_id chunk_ids embeddings
             (Routes.upload_metadata chunks) w in
  let total := Z.of_nat (List.length chunks) in
  out_val o = Ok tt
  /\ result_of_hit (doc_table document_id (out_state o)) document_id (s, Z.of_nat n)
     = Some (mkSearchResult (PStr chunk_id) (PStr (PDF.content chunk)) s
               (PInt (PDF.page_number chunk)) (PStr document_id))
  /\ get_index_stats document_id (out_state o) = Some (mkStats total get_dimension total).
Proof.
  intros Hfresh Hids Hrows Hcols Hid Hchunk o total. subst o total.
  assert (Hlen : List.length chunk_ids = List.length (nd_rows embeddings)) by lia.
  assert (Hmeta : List.length (Routes.upload_metadata chunks) = List.length chunk_ids)
    by (unfold Routes.upload_metadata; rewrite length_map; lia).
  assert (Hdim : nd_cols embeddings
                 = flat_d (doc_index document_id (with_index document_id w))).
  { rewrite (with_index_stats _ _ Hfresh). unfold doc_index. cbn.
    by rewrite lookup_insert_eq. }
  destruct (add_embeddings_in_step w document_id chunk_ids embeddings
              (Routes.upload_metadata chunks) (or_introl Hfresh) Hlen Hmeta Hdim)
    as (Hval & _ & Hstats).
  split; [exact Hval |]. split.
  - destruct (add_embeddings_stores w document_id chunk_ids embeddings
                (Routes.upload_metadata chunks)
                (in_sync_has_table _ _ (or_introl Hfresh)) Hlen Hdim) as [_ ->].
    rewrite (with_index_stats _ _ Hfresh).
    unfold doc_table. cbn. rewrite !lookup_insert_eq. cbn [from_option]. unfold id.
    rewrite map_size_empty.
    assert (Hitem : zip chunk_ids (Routes.upload_metadata chunks) !! n
                    = Some (chunk_id, Routes.chunk_metadata_of chunk)).
    { apply lookup_zip_with_Some. exists chunk_id, (Routes.chunk_metadata_of chunk).
      split; [reflexivity |]. split; [exact Hid |].
      unfold Routes.upload_metadata. change List.map with (@fmap list _).
      by rewrite list_lookup_fmap, Hchunk. }
    unfold result_of_hit.
    assert (Hnot : (Z.of_nat n =? -1) = false) by (apply Z.eqb_neq; lia).
    rewrite Hnot.
    pose proof (write_entries_written 0 _ 0 ∅ n _ _ Hitem) as Hwritten.
    replace (0 + 0 + Z.of_nat n) with (Z.of_nat n) in Hwritten by lia.
    change (Z.of_nat 0) with 0. rewrite Hwritten. cbn [from_option]. unfold id.
    case_decide as Hempty; [by apply entry_not_empty in Hempty |].
    rewrite entry_lookup_chunk_id, !entry_lookup_other by done.
    unfold Routes.chunk_metadata_of.
    rewrite lookup_insert_ne, lookup_singleton_ne by done.
    rewrite (lookup_insert_ne _ "page_number" "content"), lookup_singleton_eq by done.
    rewrite lookup_insert_eq. reflexivity.
  - rewrite Hstats. rewrite (with_index_stats _ _ Hfresh).
    unfold doc_index, ntotal. cbn. rewrite lookup_insert_eq. cbn.
    do 2 f_equal; lia.
Qed.

End WithLib.

(** *** Instances *)

Lemma empty_world_fresh : "doc" ∉ dom (indices (self (empty_world (L:=lib2)))).
Proof.
  intros Hin. apply elem_of_dom in Hin as [index Hin]. vm_compute in Hin. discriminate.
Qed.

Lemma empty_world_dimension (batch : ndarray (list Z)) :
  nd_cols batch = 2 ->
  nd_cols batch = flat_d (doc_index (L:=lib2) "doc" (with_index "doc" empty_world)).
Proof. intros ->. vm_compute. reflexivity. Qed.

Lemma add_embeddings_keeps_sync_witness :
  let o := add_embeddings (L:=lib2) "doc" ["c0"; "c1"] batch2
             [meta_of "x" 1; meta_of "y" 2] empty_world in
  ("doc" ∉ dom (indices (self (empty_world (L:=lib2)))))
  /\ out_val o = Ok tt
  /\ get_index_stats "doc" (out_state o) = Some (mkStats 2 2 2).
Proof.
  cbv zeta. split; [exact empty_world_fresh |].
  destruct (add_embeddings_keeps_sync (L:=lib2) empty_world "doc" ["c0"; "c1"] batch2
              [meta_of "x" 1; meta_of "y" 2] (or_introl empty_world_fresh)
              eq_refl eq_refl (empty_world_dimension batch2 eq_refl))
    as (Hval & _ & Hstats).
  split; [exact Hval |]. rewrite Hstats. vm_compute. reflexivity.
Defined.

Lemma added_chunk_is_found_witness :
  has_table (L:=lib2) "doc" empty_world
  /\ result_of_hit (L:=lib2) (doc_table "doc" (world_two (L:=lib2) batch2')) "doc" (5, 1)
     = Some (mkSearchResult (L:=lib2) (PStr "c1") (PStr "y") 5 (PInt 2) (PStr "doc"))
  /\ (1, [0; 1]) ∈ flat_rows (doc_index (L:=lib2) "doc" (world_two (L:=lib2) batch2')).
Proof.
  assert (Hwf : has_table (L:=lib2) "doc" empty_world)
    by (intros Hin; by apply empty_world_fresh in Hin).
  split; [exact Hwf |].
  exact (added_chunk_is_found (L:=lib2) empty_world "doc" ["c0"; "c1"] batch2'
           [meta_of "x" 1; meta_of "y" 2] 1 "c1" (meta_of "y" 2) [0; 1] 5
           Hwf eq_refl (empty_world_dimension batch2' eq_refl) eq_refl eq_refl).
Defined.

Lemma world_two_in_sync : in_sync (L:=lib2) "doc" (world_two (L:=lib2) batch2').
Proof.
  exact (proj1 (proj2 (add_embeddings_in_step (L:=lib2) empty_world "doc" ["c0"; "c1"]
                         batch2' [meta_of "x" 1; meta_of "y" 2]
                         (or_introl empty_world_fresh) eq_refl eq_refl
                         (empty_world_dimension batch2' eq_refl)))).
Qed.

Lemma search_in_sync_keeps_hits_witness :
  indices (self (world_two (L:=lib2) batch2')) !! "doc"
  = Some (mk_flat 2 [(0, [1; 0]); (1, [0; 1])])
  /\ flat_search (Lib:=lib2) (mk_flat 2 [(0, [1; 0]); (1, [0; 1])])
       (generate_embedding (Lib:=lib2) "query") 3 = Ok [(5, 0); (0, 1); (Scan.lowest, -1)]
  /\ exists results,
       out_val (search (L:=lib2) "doc" "query" 3 (world_two (L:=lib2) batch2')) = Ok results
       /\ score <$> results = [5; 0].
Proof.
  assert (Hidx : indices (self (world_two (L:=lib2) batch2')) !! "doc"
                 = Some (mk_flat 2 [(0, [1; 0]); (1, [0; 1])]))
    by (vm_compute; reflexivity).
  assert (Hhits : flat_search (Lib:=lib2) (mk_flat 2 [(0, [1; 0]); (1, [0; 1])])
                    (generate_embedding (Lib:=lib2) "query") 3
                  = Ok [(5, 0); (0, 1); (Scan.lowest, -1)])
    by (vm_compute; reflexivity).
  split; [exact Hidx |]. split; [exact Hhits |].
  apply (search_in_sync_keeps_hits (L:=lib2) (world_two (L:=lib2) batch2') "doc" "query" 3
           (mk_flat 2 [(0, [1; 0]); (1, [0; 1])]) [(5, 0); (0, 1); (Scan.lowest, -1)]
           world_two_in_sync Hidx Hhits).
  apply Forall_forall. intros hit Hhit. rewrite !elem_of_cons in Hhit.
  destruct Hhit as [-> | [-> | [-> | Hnil]]];
    [right | right | left | by apply elem_of_nil in Hnil];
    cbn; rewrite ?elem_of_cons; auto.
Defined.

Lemma load_index_missing_file_witness :
  fs (empty_world (L:=lib2)) !! index_file (empty_world (L:=lib2)) "doc" = None
  /\ load_index (L:=lib2) "doc" empty_world = mkOutcome (Ok false) empty_world [].
Proof.
  assert (Hmissing : fs (empty_world (L:=lib2)) !! index_file (empty_world (L:=lib2)) "doc"
                     = None) by (vm_compute; reflexivity).
  split; [exact Hmissing |].
  exact (load_index_missing_file (L:=lib2) empty_world "doc" (or_introl Hmissing)).
Defined.

Lemma load_index_unreadable_metadata_witness :
  pickle_load (Lib:=lib2) (Scan.IndexFile (IndexFlatIP 2)) = Raise RuntimeError
  /\ out_val (load_index (L:=lib2) "doc" world_bad_meta) = Raise RuntimeError
  /\ metadata (self (out_state (load_index (L:=lib2) "doc" world_bad_meta)))
     = metadata (self world_bad_meta).
Proof.
  split; [reflexivity |].
  destruct (load_index_unreadable_metadata (L:=lib2) world_bad_meta "doc"
              (Scan.IndexFile (mk_flat 2 [(0, [1; 0]); (1, [0; 1])]))
              (Scan.IndexFile (IndexFlatIP 2))
              (mk_flat 2 [(0, [1; 0]); (1, [0; 1])]) RuntimeError)
    as (Hval & _ & Hmeta & _);
    [vm_compute; reflexivity | vm_compute; reflexivity | reflexivity | reflexivity |].
  split; [exact Hval | exact Hmeta].
Defined.

Lemma load_index_replaces_witness :
  fs world_saved !! index_file world_saved "doc"
  = Some (Scan.IndexFile (mk_flat 2 [(0, [1; 0]); (1, [0; 1])]))
  /\ out_val (load_index (L:=lib2) "doc" world_saved) = Ok true
  /\ indices (self (out_state (load_index (L:=lib2) "doc" world_saved))) !! "doc"
     = Some (mk_flat 2 [(0, [1; 0]); (1, [0; 1])]).
Proof.
  assert (Hfile : fs world_saved !! index_file world_saved "doc"
                  = Some (Scan.IndexFile (mk_flat 2 [(0, [1; 0]); (1, [0; 1])])))
    by (vm_compute; reflexivity).
  split; [exact Hfile |].
  destruct (load_index_replaces (L:=lib2) world_saved "doc"
              (Scan.IndexFile (mk_flat 2 [(0, [1; 0]); (1, [0; 1])]))
              (Scan.MetaFile (doc_table (L:=lib2) "doc" (world_two (L:=lib2) batch2')))
              (mk_flat 2 [(0, [1; 0]); (1, [0; 1])])
              (doc_table (L:=lib2) "doc" (world_two (L:=lib2) batch2')))
    as (Hval & Hidx & _);
    [exact Hfile | vm_compute; reflexivity | reflexivity | reflexivity |].
  split; [exact Hval | exact Hidx].
Defined.

Lemma search_multiple_documents_ranked_witness :
  (forall a b, Z.ltb a b = true -> Z.ltb b a = false)
  /\ exists results left_out,
       out_val (search_multiple_documents (L:=lib2) Z.ltb ["doc"; "none"] "query" 1
                  (world_two (L:=lib2) batch2')) = Ok results
       /\ out_state (search_multiple_documents (L:=lib2) Z.ltb ["doc"; "none"] "query" 1
                       (world_two (L:=lib2) batch2')) = world_two (L:=lib2) batch2'
       /\ results ++ left_out
          ≡ₚ [mkSearchResult (L:=lib2) (PStr "c0") (PStr "x") 5 (PInt 1) (PStr "doc")].
Proof.
  assert (Hasym : forall a b, Z.ltb a b = true -> Z.ltb b a = false).
  { intros a b Hab. apply Z.ltb_lt in Hab. apply Z.ltb_ge. lia. }
  assert (Htrans : forall a b c, Z.ltb a b = false -> Z.ltb b c = false -> Z.ltb a c = false).
  { intros a b c Hab Hbc. apply Z.ltb_ge in Hab, Hbc. apply Z.ltb_ge. lia. }
  split; [exact Hasym |].
  destruct (search_multiple_documents_ranked (L:=lib2) Z.ltb Hasym Htrans
              (world_two (L:=lib2) batch2') ["doc"; "none"] "query" 1
              [[mkSearchResult (L:=lib2) (PStr "c0") (PStr "x") 5 (PInt 1) (PStr "doc")]; []])
    as (results & left_out & Hval & Hstate & Hperm & _).
  { constructor; [vm_compute; reflexivity |].
    constructor; [vm_compute; reflexivity | constructor]. }
  exists results, left_out. split; [exact Hval |]. split; [exact Hstate |]. exact Hperm.
Defined.

Lemma uploaded_chunk_is_found_witness :
  let o := add_embeddings (L:=lib2) "doc" ["c0"; "c1"] batch2'
             (Routes.upload_metadata two_chunks) empty_world in
  ("doc" ∉ dom (indices (self (empty_world (L:=lib2)))))
  /\ out_val o = Ok tt
  /\ result_of_hit (L:=lib2) (doc_table "doc" (out_state o)) "doc" (5, 1)
     = Some (mkSearchResult (L:=lib2) (PStr "c1") (PStr "Next") 5 (PInt 2) (PStr "doc")).
Proof.
  cbv zeta. split; [exact empty_world_fresh |].
  destruct (uploaded_chunk_is_found (L:=lib2) empty_world "doc" ["c0"; "c1"] two_chunks
              batch2' 1 "c1" (PDF.mkChunk "Next" 2 1 13 17 1) 5
              empty_world_fresh eq_refl eq_refl eq_refl eq_refl eq_refl)
    as (Hval & Hhit & _).
  split; [exact Hval | exact Hhit].
Defined.

End ManagerFacts.

(** ** Further properties of [GlobalIndexManager] *)

Module GlobalFacts.

Import Index IndexSpec ManagerSpec Fixtures Examples IndexFacts.

Section WithLib.

Context {L : Lib}.

Lemma global_eta (g : GlobalIndexManager) :
  mkGlobal (base g) (nlist g) (global_index g) (global_metadata g) (is_trained g) = g.
Proof. by destruct g. Qed.

Lemma store_global_metadata_run (document_id : string) (start_id : Z)
    (items : list (string * pydict)) :
  forall (i : Z) (g : GlobalIndexManager),
    store_global_metadata document_id start_id i items g =
      mkOutcome (Ok tt)
        (set_global_metadata (write_global_entries document_id start_id i items) g) [].
Proof.
  induction items as [|[c m] rest IH]; intros i g; cbn [store_global_metadata].
  - run. unfold set_global_metadata. cbn. by rewrite global_eta.
  - run. rewrite IH. reflexivity.
Qed.

Lemma write_global_entries_other (document_id : string) (start_id : Z)
    (items : list (string * pydict)) :
  forall (i : Z) (table : gmap Z pydict) (j : Z),
    j < start_id + i ->
    write_global_entries document_id start_id i items table !! j = table !! j.
Proof.
  induction items as [|[c m] rest IH]; intros i table j Hj; [done |].
  cbn [write_global_entries]. rewrite IH by lia. apply lookup_insert_ne. lia.
Qed.

Lemma write_global_entries_written (document_id : string) (start_id : Z)
    (items : list (string * pydict)) :
  forall (i : Z) (table : gmap Z pydict) (n : nat) (chunk_id : string) (meta : pydict),
    items !! n = Some (chunk_id, meta) ->
    write_global_entries document_id start_id i items table !! (start_id + i + Z.of_nat n)
    = Some (global_entry document_id chunk_id meta).
Proof.
  induction items as [|[c m] rest IH]; intros i table n chunk_id meta Hn; [done |].
  cbn [write_global_entries]. destruct n as [|n].
  - injection Hn as -> ->.
    rewrite write_global_entries_other by lia.
    replace (start_id + i + Z.of_nat 0) with (start_id + i) by lia.
    apply lookup_insert_eq.
  - replace (start_id + i + Z.of_nat (S n)) with (start_id + (i + 1) + Z.of_nat n) by lia.
    by apply IH.
Qed.

Lemma add_to_global_index_run (g : GlobalIndexManager) (document_id : string)
    (chunk_ids : list string) (embeddings : ndarray Vec) (chunk_metadata : list pydict) :
  global_ok g ->
  nd_cols embeddings = get_dimension ->
  List.length chunk_ids = List.length (nd_rows embeddings) ->
  is_trained g = true \/ nlist g <= nd_len embeddings ->
  let start_id := Z.of_nat (size (global_metadata g)) in
  let index := ready_index g embeddings in
  exists log,
  add_to_global_index document_id chunk_ids embeddings chunk_metadata g =
    mkOutcome (Ok tt)
      (mkGlobal (base g) (nlist g)
         (Some (mk_ivf (ivf_d index) (ivf_nlist index) true (ivf_training index)
                  (ivf_rows index ++ zip (numeric_ids start_id chunk_ids)
                                         (nd_rows embeddings))
                  (nprobe index)))
         (write_global_entries document_id start_id 0 (zip chunk_ids chunk_metadata)
            (global_metadata g))
         true)
      log.
Proof.
  intros Hok Hdim Hlen Henough start_id index. subst start_id index.
  unfold global_ok in Hok. unfold ready_index.
  assert (Hids : (Z.of_nat (List.length (numeric_ids (Z.of_nat (size (global_metadata g)))
                                           chunk_ids)) =? nd_len embeddings) = true).
  { apply Z.eqb_eq. unfold numeric_ids, range, nd_len.
    rewrite !length_map, length_seq. lia. }
  unfold numeric_ids in *.
  unfold add_to_global_index, create_global_index, train_global, on_global_index. run.
  destruct (global_index g) as [index|] eqn:Hidx; cbn [from_option]; unfold id.
  - destruct Hok as (Htr & Hd & Hn).
    destruct (is_trained g) eqn:Hflag.
    + cbn. rewrite Hflag. cbn. rewrite Hidx. run. unfold ivf_add_with_ids.
      rewrite Hd, Hdim, Z.eqb_refl, Hids, Htr. cbn.
      rewrite store_global_metadata_run. unfold set_global_metadata, set_global_index.
      cbn. rewrite ?Htr, ?Hflag, <- ?Hd. cbn. eauto.
    + destruct Henough as [? | Henough]; [done |].
      assert (Hge : (nd_len embeddings >=? nlist g) = true)
        by (rewrite Z.geb_leb; apply Z.leb_le; lia).
      assert (Hlt : (nd_len embeddings <? nlist g) = false) by (apply Z.ltb_ge; lia).
      cbn. rewrite ?Hflag, ?Hge. cbn. rewrite ?Hflag, ?Hge, ?Hidx. run. unfold train.
      rewrite Hd, Hdim, Z.eqb_refl, Htr, Hn, Hlt. cbn.
      unfold ivf_add_with_ids. cbn.
      rewrite ?Hdim, ?Hd, ?Z.eqb_refl, ?Hids. cbn.
      rewrite store_global_metadata_run. unfold set_global_metadata, set_global_index.
      cbn. rewrite ?Htr, ?Hflag, <- ?Hd. cbn. eauto.
  - destruct Henough as [Htrue | Henough]; [congruence |].
    assert (Hge : (nd_len embeddings >=? nlist g) = true)
      by (rewrite Z.geb_leb; apply Z.leb_le; lia).
    assert (Hlt : (nd_len embeddings <? nlist g) = false) by (apply Z.ltb_ge; lia).
    cbn. rewrite ?Hge. cbn. unfold train. cbn.
    rewrite ?Hdim, ?Z.eqb_refl, ?Hlt. cbn.
    unfold ivf_add_with_ids. cbn. rewrite ?Hdim, ?Z.eqb_refl, ?Hids. cbn.
    rewrite store_global_metadata_run. unfold set_global_metadata, set_global_index.
    cbn. eauto.
Qed.

Lemma global_search_run_untrained (g : GlobalIndexManager) (query : string) (k : Z) :
  global_index g = None \/ is_trained g = false ->
  global_search query k g = mkOutcome (Ok []) g [].
Proof.
  intros H. unfold global_search. run.
  destruct H as [H | H]; rewrite H; [reflexivity |].
  rewrite orb_true_r. reflexivity.
Qed.

Lemma global_entry_not_empty (document_id chunk_id : string) (meta : pydict) :
  global_entry document_id chunk_id meta <> ∅.
Proof.
  intros Hempty.
  assert (Hsome : is_Some (global_entry document_id chunk_id meta !! "chunk_id")).
  { unfold global_entry. apply lookup_union_is_Some. right.
    rewrite lookup_insert_ne, lookup_singleton_eq by done. eauto. }
  rewrite Hempty, lookup_empty in Hsome. by destruct Hsome.
Qed.

(** X18: on a manager whose flag agrees with its global index, a batch
    of the dimension of the embeddings with one id per vector is stored
    when the manager is trained or the batch has at least [nlist]
    vectors: the call returns normally, trains the index on this batch
    if it was untrained, appends the vectors under the ordinals that
    follow the size of the global metadata table, and leaves the flag
    set and in agreement with the index. *)
Theorem add_to_global_index_stores (g : GlobalIndexManager) (document_id : string)
    (chunk_ids : list string) (embeddings : ndarray Vec) (chunk_metadata : list pydict) :
  global_ok g ->
  nd_cols embeddings = get_dimension ->
  List.length chunk_ids = List.length (nd_rows embeddings) ->
  is_trained g = true \/ nlist g <= nd_len embeddings ->
  let o := add_to_global_index document_id chunk_ids embeddings chunk_metadata g in
  let start_id := Z.of_nat (size (global_metadata g)) in
  out_val o = Ok tt
  /\ is_trained (out_state o) = true
  /\ global_ok (out_state o)
  /\ global_rows (out_state o)
     = global_rows g ++ zip (numeric_ids start_id chunk_ids) (nd_rows embeddings)
  /\ global_metadata (out_state o)
     = write_global_entries document_id start_id 0 (zip chunk_ids chunk_metadata)
         (global_metadata g)
  /\ nlist (out_state o) = nlist g
  /\ base (out_state o) = base g.
Proof.
  intros Hok Hdim Hlen Henough o start_id. subst o start_id.
  destruct (add_to_global_index_run g document_id chunk_ids embeddings chunk_metadata
              Hok Hdim Hlen Henough) as [log ->].
  cbn. split; [done |]. split; [done |].
  unfold global_ok, global_rows, ready_index in *. cbn.
  destruct (global_index g) as [index|]; cbn.
  - destruct Hok as (Htr & Hd & Hn).
    destruct (ivf_is_trained index); cbn; done.
  - done.
Qed.

(** X19: after such an add, a hit of faiss on the ordinal given to the
    [n]-th chunk of the batch yields a result with the score of the hit,
    the [content] and [page_number] of the chunk's metadata record (or
    their defaults), and the chunk id and document id that were passed,
    unless the metadata record has a [chunk_id] or [document_id] key of
    its own, which then wins. *)
Theorem global_added_chunk_is_found (g : GlobalIndexManager) (document_id : string)
    (chunk_ids : list string) (embeddings : ndarray Vec) (chunk_metadata : list pydict)
    (n : nat) (chunk_id : string) (meta : pydict) (s : Score) :
  global_ok g ->
  nd_cols embeddings = get_dimension ->
  List.length chunk_ids = List.length (nd_rows embeddings) ->
  is_trained g = true \/ nlist g <= nd_len embeddings ->
  zip chunk_ids chunk_metadata !! n = Some (chunk_id, meta) ->
  let o := add_to_global_index document_id chunk_ids embeddings chunk_metadata g in
  let ordinal := Z.of_nat (size (global_metadata g)) + Z.of_nat n in
  global_result_of_hit (global_metadata (out_state o)) (s, ordinal)
  = Some (mkSearchResult
            (default (PStr chunk_id) (meta !! "chunk_id"))
            (default (PStr "") (meta !! "content"))
            s
            (default (PInt 0) (meta !! "page_number"))
            (default (PStr document_id) (meta !! "document_id"))).
Proof.
  intros Hok Hdim Hlen Henough Hitem o ordinal. subst o ordinal.
  destruct (add_to_global_index_run g document_id chunk_ids embeddings chunk_metadata
              Hok Hdim Hlen Henough) as [log ->].
  cbn [out_state global_metadata]. unfold global_result_of_hit.
  set (start_id := Z.of_nat (size (global_metadata g))).
  assert (Hnot : (start_id + Z.of_nat n =? -1) = false)
    by (apply Z.eqb_neq; unfold start_id; lia).
  rewrite Hnot.
  replace (start_id + Z.of_nat n) with (start_id + 0 + Z.of_nat n) by lia.
  rewrite (write_global_entries_written _ _ _ _ _ _ _ _ Hitem).
  cbn [from_option]. unfold id.
  case_decide as Hempty; [by apply global_entry_not_empty in Hempty |].
  unfold global_entry. rewrite !lookup_union.
  rewrite (lookup_insert_ne _ "document_id" "chunk_id"), lookup_singleton_eq by done.
  rewrite lookup_insert_eq.
  rewrite !(lookup_insert_ne _ "document_id"), !lookup_singleton_ne by done.
  by destruct (meta !! "chunk_id"), (meta !! "content"), (meta !! "page_number"),
       (meta !! "document_id").
Qed.

(** X20: [global_search] changes nothing of a manager but the [nprobe]
    of its global index: the metadata table, the stored vectors, the
    flag and [nlist] are as before, whether the search returns or
    raises, and the flag still agrees with the index. *)
Theorem global_search_keeps_contents (g : GlobalIndexManager) (query : string) (k : Z) :
  let g' := out_state (global_search query k g) in
  global_metadata g' = global_metadata g
  /\ global_rows g' = global_rows g
  /\ is_trained g' = is_trained g
  /\ nlist g' = nlist g
  /\ base g' = base g
  /\ (global_ok g -> global_ok g').
Proof.
  destruct (global_index g) as [index|] eqn:Hidx.
  - destruct (is_trained g) eqn:Hflag.
    + rewrite (global_search_trained g query k index Hidx Hflag). cbv zeta.
      assert (Hstate :
        out_state
          match ivf_search (set_nprobe (Z.min 10 (nlist g)) index)
                  (generate_embedding query) k with
          | Ok hits =>
              mkOutcome (Ok (omap (global_result_of_hit (global_metadata g)) hits))
                (set_global_index
                   (fun _ => Some (set_nprobe (Z.min 10 (nlist g)) index)) g) []
          | Raise e =>
              mkOutcome (Raise e)
                (set_global_index
                   (fun _ => Some (set_nprobe (Z.min 10 (nlist g)) index)) g) []
          end
        = set_global_index (fun _ => Some (set_nprobe (Z.min 10 (nlist g)) index)) g).
      { by destruct (ivf_search _ _ _). }
      rewrite Hstate. unfold global_rows, global_ok. cbn. rewrite Hidx, Hflag.
      do 5 (split; [reflexivity |]). cbn. done.
    + rewrite global_search_run_untrained by (by right). by repeat split.
  - rewrite global_search_run_untrained by (by left). by repeat split.
Qed.

(** X21: [create_global_index] on a manager that has a trained global
    index drops the stored vectors and keeps the flag and the metadata
    table: without training vectors, the flag says trained over an
    untrained empty index, and the next [add_to_global_index] of a
    well-formed batch raises the [RuntimeError] of faiss for an
    untrained index and stores nothing. *)
Theorem create_global_index_keeps_flag (g : GlobalIndexManager) (document_id : string)
    (chunk_ids : list string) (embeddings : ndarray Vec) (chunk_metadata : list pydict) :
  is_trained g = true ->
  nd_cols embeddings = get_dimension ->
  List.length chunk_ids = List.length (nd_rows embeddings) ->
  let o := create_global_index None g in
  let o' := add_to_global_index document_id chunk_ids embeddings chunk_metadata
              (out_state o) in
  out_val o = Ok tt
  /\ is_trained (out_state o) = true
  /\ global_metadata (out_state o) = global_metadata g
  /\ global_index (out_state o) = Some (new_IndexIVFFlat get_dimension (nlist g))
  /\ out_val o' = Raise RuntimeError
  /\ out_state o' = out_state o.
Proof.
  intros Hflag Hdim Hlen.
  assert (Hids : (Z.of_nat (List.length (numeric_ids (Z.of_nat (size (global_metadata g)))
                                           chunk_ids)) =? nd_len embeddings) = true).
  { apply Z.eqb_eq. unfold numeric_ids, range, nd_len.
    rewrite !length_map, length_seq. lia. }
  unfold numeric_ids in Hids.
  unfold create_global_index. run. cbn.
  split; [done |]. split; [exact Hflag |]. split; [done |]. split; [done |].
  unfold add_to_global_index, on_global_index. run. cbn.
  do 2 (rewrite ?Hflag; cbn). unfold ivf_add_with_ids. cbn.
  rewrite Hdim, Z.eqb_refl, Hids. cbn. done.
Qed.
End WithLib.

(** *** Instances *)

Lemma global_new_ok : global_ok (L:=lib2) global_new.
Proof. reflexivity. Qed.

Lemma batch_fills_clusters : nlist (global_new (L:=lib2)) <= nd_len batch2'.
Proof. vm_compute. discriminate. Qed.

Lemma add_to_global_index_stores_witness :
  let o := add_to_global_index (L:=lib2) "doc" ["c0"; "c1"] batch2'
             [meta_of "x" 1; meta_of "y" 2] global_new in
  global_ok (L:=lib2) global_new
  /\ out_val o = Ok tt
  /\ is_trained (out_state o) = true
  /\ global_rows (out_state o) = [(0, [1; 0]); (1, [0; 1])].
Proof.
  cbv zeta. split; [exact global_new_ok |].
  destruct (add_to_global_index_stores (L:=lib2) global_new "doc" ["c0"; "c1"] batch2'
              [meta_of "x" 1; meta_of "y" 2] global_new_ok eq_refl eq_refl
              (or_intror batch_fills_clusters))
    as (Hval & Htrained & _ & Hrows & _).
  split; [exact Hval |]. split; [exact Htrained |]. rewrite Hrows. reflexivity.
Defined.

Lemma global_added_chunk_is_found_witness :
  global_ok (L:=lib2) global_new
  /\ global_result_of_hit (L:=lib2)
       (global_metadata
          (out_state (add_to_global_index (L:=lib2) "doc" ["c0"; "c1"] batch2'
                        [meta_of "x" 1; meta_of "y" 2] global_new)))
       (5, 1)
     = Some (mkSearchResult (L:=lib2) (PStr "c1") (PStr "y") 5 (PInt 2) (PStr "doc")).
Proof.
  split; [exact global_new_ok |].
  exact (global_added_chunk_is_found (L:=lib2) global_new "doc" ["c0"; "c1"] batch2'
           [meta_of "x" 1; meta_of "y" 2] 1 "c1" (meta_of "y" 2) 5
           global_new_ok eq_refl eq_refl (or_intror batch_fills_clusters) eq_refl).
Defined.

Lemma create_global_index_keeps_flag_witness :
  let g := out_state (create_global_index (L:=lib2) None
                        (global_trained_empty (L:=lib2) batch2')) in
  is_trained (global_trained_empty (L:=lib2) batch2') = true
  /\ is_trained g = true
  /\ global_index g = Some (new_IndexIVFFlat 2 2)
  /\ out_val (add_to_global_index (L:=lib2) "doc" ["c0"; "c1"] batch2'
                [meta_of "x" 1; meta_of "y" 2] g) = Raise RuntimeError.
Proof.
  cbv zeta.
  assert (Hflag : is_trained (global_trained_empty (L:=lib2) batch2') = true)
    by reflexivity.
  split; [exact Hflag |].
  destruct (create_global_index_keeps_flag (L:=lib2) (global_trained_empty (L:=lib2) batch2')
              "doc" ["c0"; "c1"] batch2' [meta_of "x" 1; meta_of "y" 2]
              Hflag eq_refl eq_refl)
    as (_ & Htrained & _ & Hindex & Hraise & _).
  split; [exact Htrained |]. split; [exact Hindex | exact Hraise].
Defined.

End GlobalFacts.

(** ** Properties of [build_context] and of [ConversationManager] *)

Module ContextFacts.

Import Index MultiSearch RAG Conversation ContextSpec Fixtures Examples.

Section WithLib.

Context {L : Lib}.

Lemma context_tokens_cons (r : SearchResult) (l : list SearchResult) :
  context_tokens (r :: l) = chunk_tokens r + context_tokens l.
Proof. reflexivity. Qed.

Lemma context_loop_run (self : RAGService) (results : list SearchResult) :
  Forall (fun r => is_Some (pylen (Index.content r))) results ->
  forall (i total : Z) (parts : list string),
  exists m : nat,
    (m <= List.length results)%nat
    /\ context_loop self i results total parts
       = Some (parts ++ parts_from i (take m results))
    /\ (m = 0%nat \/ total + context_tokens (take m results) <= max_context_tokens self)
    /\ ((m < List.length results)%nat ->
        max_context_tokens self < total + context_tokens (take (S m) results)).
Proof.
  induction 1 as [|r rest [n Hn] _ IH]; intros i total parts.
  - exists 0%nat. cbn. rewrite app_nil_r.
    split; [lia |]. split; [reflexivity |]. split; [by left | lia].
  - cbn [context_loop]. rewrite Hn. cbn [mbind option_bind].
    assert (Htok : chunk_tokens r = n / 4) by (unfold chunk_tokens; by rewrite Hn).
    destruct (total + n / 4 >? max_context_tokens self) eqn:Hover;
      rewrite Z.gtb_ltb in Hover; [apply Z.ltb_lt in Hover | apply Z.ltb_ge in Hover].
    + exists 0%nat. rewrite take_0. cbn [parts_from]. rewrite app_nil_r.
      split; [cbn; lia |]. split; [reflexivity |]. split; [by left |].
      intros _. cbn. rewrite Htok, take_0. cbn. lia.
    + destruct (IH (i + 1) (total + n / 4) (parts ++ [context_part i r]))
        as (m & Hm & Hloop & Hfit & Hmax).
      exists (S m).
      change (take (S m) (r :: rest)) with (r :: take m rest).
      change (take (S (S m)) (r :: rest)) with (r :: take (S m) rest).
      rewrite !context_tokens_cons, Htok. cbn [parts_from List.length].
      split; [lia |]. split; [by rewrite Hloop, <- app_assoc |].
      split.
      * right. destruct Hfit as [-> | Hfit]; [rewrite take_0; cbn; lia | lia].
      * intros Hlt. assert (Hlt' : (m < List.length rest)%nat) by lia.
        specialize (Hmax Hlt'). lia.
Qed.

(** X22: when the content of every result is a string, the context
    built by [build_context] is made of the parts of the first [m] of
    the results considered (the first [max_context_chunks]), numbered
    from 1 and joined by blank lines; these [m] results fit the token
    budget together, and [m] is the greatest such number: the result
    after them, when there is one, would exceed the budget. *)
Theorem build_context_greedy_prefix (self : RAGService) (search_results : list SearchResult) :
  Forall (fun r => is_Some (pylen (Index.content r))) search_results ->
  let considered := list_upto search_results (max_context_chunks self) in
  exists m : nat,
    (m <= List.length considered)%nat
    /\ build_context self search_results
       = Some (String.concat (NL +:+ NL) (parts_from 0 (take m considered)))
    /\ (m = 0%nat \/ context_tokens (take m considered) <= max_context_tokens self)
    /\ ((m < List.length considered)%nat ->
        max_context_tokens self < context_tokens (take (S m) considered))
    /\ (0 <= max_context_chunks self -> Z.of_nat m <= max_context_chunks self).
Proof.
  intros Hstr considered.
  assert (Hconsidered : Forall (fun r => is_Some (pylen (Index.content r))) considered)
    by (by apply Forall_take).
  destruct (context_loop_run self considered Hconsidered 0 0 [])
    as (m & Hm & Hloop & Hfit & Hmax).
  exists m. split; [exact Hm |]. split.
  { unfold build_context. fold considered. by rewrite Hloop. }
  split; [destruct Hfit; [by left | right; lia] |].
  split; [intros Hlt; specialize (Hmax Hlt); lia |].
  intros Hk. subst considered. unfold list_upto, adjust in Hm.
  rewrite length_take in Hm.
  destruct (max_context_chunks self <? 0) eqn:Hneg; lia.
Qed.

End WithLib.

(** *** [ConversationManager] *)

Lemma history_tokens_cons (msg : pydict) (l : list pydict) :
  history_tokens (msg :: l) = default 0 (msg_tokens msg) + history_tokens l.
Proof. reflexivity. Qed.

Lemma history_tokens_app (l1 l2 : list pydict) :
  history_tokens (l1 ++ l2) = history_tokens l1 + history_tokens l2.
Proof.
  induction l1 as [|m l1 IH]; [done |].
  change ((m :: l1) ++ l2) with (m :: (l1 ++ l2)).
  rewrite !history_tokens_cons, IH. lia.
Qed.

Lemma history_tokens_reverse (l : list pydict) :
  history_tokens (reverse l) = history_tokens l.
Proof.
  induction l as [|m l IH]; [done |].
  rewrite reverse_cons, history_tokens_app, IH, !history_tokens_cons.
  change (history_tokens []) with 0. lia.
Qed.

Lemma truncate_loop_run (max_tokens : Z) (reversed_messages : list pydict) :
  Forall (fun msg => is_Some (msg_tokens msg)) reversed_messages ->
  forall (total : Z) (truncated : list pydict),
  exists taken rest,
    reversed_messages = taken ++ rest
    /\ truncate_loop max_tokens reversed_messages total truncated
       = Some (reverse taken ++ truncated)
    /\ (taken = [] \/ total + history_tokens taken <= max_tokens)
    /\ (forall msg rest', rest = msg :: rest' ->
          max_tokens < total + history_tokens (msg :: taken)).
Proof.
  induction 1 as [|msg msgs [t Ht] _ IH]; intros total truncated.
  - exists [], []. repeat split; auto. intros ? ? [=].
  - cbn [truncate_loop]. rewrite Ht. cbn [mbind option_bind].
    destruct (total + t >? max_tokens) eqn:Hover;
      rewrite Z.gtb_ltb in Hover; [apply Z.ltb_lt in Hover | apply Z.ltb_ge in Hover].
    + exists [], (msg :: msgs). split; [done |]. split; [done |]. split; [by left |].
      intros msg' rest' [= <- <-]. rewrite history_tokens_cons, Ht.
      change (history_tokens []) with 0. cbn [from_option]. unfold id. lia.
    + destruct (IH (total + t) (msg :: truncated)) as (taken & rest & -> & Hloop & Hfit & Hmax).
      exists (msg :: taken), rest. split; [done |].
      split; [by rewrite Hloop, reverse_cons, <- app_assoc |].
      assert (Hcons : forall l, history_tokens (msg :: l) = t + history_tokens l)
        by (intros l; rewrite history_tokens_cons; by rewrite Ht).
      split.
      * right. rewrite Hcons.
        destruct Hfit as [-> | Hfit]; [change (history_tokens []) with 0; lia | lia].
      * intros msg' rest' ->. specialize (Hmax msg' rest' eq_refl).
        rewrite (history_tokens_cons msg') in *. rewrite Hcons. lia.
Qed.

(** X23: when every message has a string content, [truncate_history]
    returns the longest suffix of the messages, in their order, that
    fits the token budget: the kept messages fit it together, and they
    would not with the last message dropped. *)
Theorem truncate_history_longest_suffix (messages : list pydict) (max_tokens : Z) :
  Forall (fun msg => is_Some (msg_tokens msg)) messages ->
  exists dropped kept,
    messages = dropped ++ kept
    /\ truncate_history messages max_tokens = Some kept
    /\ (kept = [] \/ history_tokens kept <= max_tokens)
    /\ (forall earlier msg, dropped = earlier ++ [msg] ->
          max_tokens < history_tokens (msg :: kept)).
Proof.
  intros Hstr.
  assert (Hrev : Forall (fun msg => is_Some (msg_tokens msg)) (reverse messages))
    by (by apply Forall_reverse).
  destruct (truncate_loop_run max_tokens (reverse messages) Hrev 0 [])
    as (taken & rest & Hsplit & Hloop & Hfit & Hmax).
  exists (reverse rest), (reverse taken).
  split.
  { rewrite <- reverse_app, <- Hsplit. by rewrite reverse_involutive. }
  split; [unfold truncate_history; by rewrite Hloop, app_nil_r |].
  split.
  { destruct Hfit as [-> | Hfit]; [by left | right].
    rewrite history_tokens_reverse. lia. }
  intros earlier msg Hdropped.
  apply (f_equal reverse) in Hdropped.
  rewrite reverse_involutive, reverse_app in Hdropped. cbn in Hdropped.
  specialize (Hmax msg (reverse earlier) Hdropped).
  rewrite history_tokens_cons in *. rewrite history_tokens_reverse. lia.
Qed.

Lemma mapM_stored (messages : list pydict) :
  Forall (fun msg => is_Some (msg !! "role") /\ is_Some (msg !! "content")) messages ->
  exists stored,
    mapM stored_message messages = Some stored
    /\ Forall2 (fun msg st =>
                  msg !! "role" = Some (role st)
                  /\ msg !! "content" = Some (Conversation.content st)
                  /\ msg !! "timestamp" = timestamp st)
               messages stored.
Proof.
  induction 1 as [|msg msgs [[r Hr] [c Hc]] _ (stored & Hmap & Hall)].
  - exists []. split; [done | constructor].
  - exists (mkStored r c (msg !! "timestamp") :: stored). split.
    + cbn [mapM]. rewrite Hmap. unfold stored_message. rewrite Hr, Hc. reflexivity.
    + constructor; [done | exact Hall].
Qed.

(** X24: when every message has a role and a content,
    [format_history_for_storage] stores the last [max_history] messages
    (all when there are fewer), each with its role, its content and its
    timestamp if it has one; with [max_history = 0] it stores all the
    messages, not none. *)
Theorem format_history_keeps_last (self : ConversationManager) (messages : list pydict) :
  0 <= max_history self ->
  Forall (fun msg => is_Some (msg !! "role") /\ is_Some (msg !! "content")) messages ->
  let kept :=
    if max_history self =? 0 then messages
    else drop (List.length messages - Z.to_nat (max_history self)) messages in
  exists stored,
    format_history_for_storage self messages = Some stored
    /\ Forall2 (fun msg st =>
                  msg !! "role" = Some (role st)
                  /\ msg !! "content" = Some (Conversation.content st)
                  /\ msg !! "timestamp" = timestamp st)
               kept stored.
Proof.
  intros Hn Hall kept.
  assert (Hkept : list_from messages (- max_history self) = kept).
  { subst kept. unfold list_from, adjust.
    destruct (max_history self =? 0) eqn:Hz.
    - apply Z.eqb_eq in Hz. rewrite Hz. change (- 0 <? 0) with false. cbv iota.
      rewrite Z.min_l by lia. reflexivity.
    - apply Z.eqb_neq in Hz.
      assert (Hneg : (- max_history self <? 0) = true) by (apply Z.ltb_lt; lia).
      rewrite Hneg. f_equal. lia. }
  unfold format_history_for_storage. rewrite Hkept.
  apply mapM_stored. subst kept.
  destruct (max_history self =? 0); [exact Hall | by apply Forall_drop].
Qed.

(** *** Instances *)

Lemma three_results_strings :
  Forall (fun r => is_Some (pylen (Index.content r))) three_results.
Proof.
  apply Forall_forall. intros r Hr. unfold three_results in Hr.
  rewrite !elem_of_cons in Hr.
  destruct Hr as [-> | [-> | [-> | Hnil]]]; [| | | by apply elem_of_nil in Hnil];
    cbn; eauto.
Qed.

Lemma build_context_greedy_prefix_witness :
  Forall (fun r => is_Some (pylen (Index.content r))) three_results
  /\ exists m : nat,
       (m <= 3)%nat
       /\ build_context (L:=lib2) tight_service three_results
          = Some (String.concat (NL +:+ NL) (parts_from 0 (take m three_results)))
       /\ (m = 0%nat \/ context_tokens (take m three_results) <= 4).
Proof.
  split; [exact three_results_strings |].
  destruct (build_context_greedy_prefix (L:=lib2) tight_service three_results
              three_results_strings) as (m & Hm & Hcontext & Hfit & _).
  exists m. split; [exact Hm |]. split; [exact Hcontext | exact Hfit].
Defined.

Lemma chat_strings : Forall (fun msg => is_Some (msg_tokens msg)) chat.
Proof.
  apply Forall_forall. intros msg Hmsg. unfold chat in Hmsg.
  rewrite !elem_of_cons in Hmsg.
  destruct Hmsg as [-> | [-> | [-> | Hnil]]]; [| | | by apply elem_of_nil in Hnil];
    vm_compute; eauto.
Qed.

Lemma truncate_history_longest_suffix_witness :
  Forall (fun msg => is_Some (msg_tokens msg)) chat
  /\ exists dropped kept,
       chat = dropped ++ kept
       /\ truncate_history chat 4 = Some kept
       /\ (kept = [] \/ history_tokens kept <= 4).
Proof.
  split; [exact chat_strings |].
  destruct (truncate_history_longest_suffix chat 4 chat_strings)
    as (dropped & kept & Hsplit & Htruncated & Hfit & _).
  exists dropped, kept. split; [exact Hsplit |]. split; [exact Htruncated | exact Hfit].
Defined.

Lemma chat_complete :
  Forall (fun msg => is_Some (msg !! "role") /\ is_Some (msg !! "content")) chat.
Proof.
  apply Forall_forall. intros msg Hmsg. unfold chat in Hmsg.
  rewrite !elem_of_cons in Hmsg.
  destruct Hmsg as [-> | [-> | [-> | Hnil]]]; [| | | by apply elem_of_nil in Hnil];
    split; vm_compute; eauto.
Qed.

Lemma format_history_keeps_last_witness :
  0 <= max_history (mkConversation 0)
  /\ exists stored,
       format_history_for_storage (mkConversation 0) chat = Some stored
       /\ List.length stored = 3%nat.
Proof.
  assert (Hn : 0 <= max_history (mkConversation 0)) by (cbn; lia).
  split; [exact Hn |].
  destruct (format_history_keeps_last (mkConversation 0) chat Hn chat_complete)
    as (stored & Hstored & Hall).
  exists stored. split; [exact Hstored |].
  apply Forall2_length in Hall. rewrite <- Hall. reflexivity.
Defined.

End ContextFacts.

(** ** The page table of [extract_text_from_pdf] *)

Module ExtractFacts.

Import PDF Extract Examples.

Lemma string_app_assoc (a b c : string) : (a +:+ b) +:+ c = a +:+ (b +:+ c).
Proof.
  induction a as [|x a IH]; [reflexivity |].
  change (String x ((a +:+ b) +:+ c) = String x (a +:+ (b +:+ c))). by rewrite IH.
Qed.

Lemma len_app (a b : string) : len (a +:+ b) = len a + len b.
Proof.
  unfold len. induction a as [|x a IH]; [reflexivity |].
  change (String.length (String x a +:+ b)) with (S (String.length (a +:+ b))).
  change (String.length (String x a)) with (S (String.length a)). lia.
Qed.

Lemma len_nonneg (s : string) : 0 <= len s.
Proof. unfold len. lia. Qed.

Lemma extract_loop_run (texts : list string) :
  forall (page_num : Z) (full_text : string) (page_texts : list PageText),
    extract_loop texts page_num full_text page_texts
    = (full_text +:+ joined texts,
       page_texts ++ pages_from page_num (len full_text) texts).
Proof.
  induction texts as [|text rest IH]; intros page_num full_text page_texts.
  - cbn. rewrite app_nil_r.
    replace (full_text +:+ EmptyString) with full_text; [reflexivity |].
    induction full_text as [|c s IHs]; [reflexivity |].
    change (String c s = String c (s +:+ EmptyString)). by rewrite <- IHs.
  - cbn [extract_loop joined pages_from]. rewrite IH.
    rewrite string_app_assoc, <- app_assoc. cbn [app].
    rewrite !len_app. change (len (String NL EmptyString)) with 1.
    rewrite string_app_assoc. do 4 f_equal. lia.
Qed.

Lemma extract_text_run (texts : list string) :
  extract_text texts = (joined texts, pages_from 0 0 texts).
Proof. unfold extract_text. by rewrite extract_loop_run. Qed.

Lemma substring_skip (a s : string) (n : nat) :
  String.substring (String.length a) n (a +:+ s) = String.substring 0 n s.
Proof. induction a as [|c a IH]; [reflexivity | exact IH]. Qed.

Lemma substring_prefix (t b : string) :
  String.substring 0 (String.length t) (t +:+ b) = t.
Proof.
  induction t as [|c t IH].
  - by destruct b.
  - change (String c (String.substring 0 (String.length t) (t +:+ b)) = String c t).
    by rewrite IH.
Qed.

(** The text found at [len a] in [a ++ t ++ b]. *)
Lemma slice_middle (a t b : string) :
  slice (a +:+ (t +:+ b)) (len a) (len a + len t) = t.
Proof.
  unfold slice, adjust. rewrite !len_app.
  pose proof (len_nonneg a). pose proof (len_nonneg t). pose proof (len_nonneg b).
  destruct (Z.ltb_spec (len a) 0); [lia |].
  destruct (Z.ltb_spec (len a + len t) 0); [lia |].
  rewrite !Z.min_l by lia.
  destruct (Z.ltb_spec (len a) (len a + len t)) as [Hpos | Hzero].
  - replace (Z.to_nat (len a)) with (String.length a) by (unfold len; lia).
    replace (Z.to_nat (len a + len t - len a)) with (String.length t) by (unfold len; lia).
    by rewrite substring_skip, substring_prefix.
  - destruct t; [reflexivity | unfold len in *; cbn in *; lia].
Qed.

Lemma pages_from_length (texts : list string) :
  forall (page_num start : Z),
    List.length (pages_from page_num start texts) = List.length texts.
Proof.
  induction texts as [|t rest IH]; intros a b; cbn; [reflexivity | by rewrite IH].
Qed.

Lemma pages_from_start (texts : list string) :
  forall (page_num start : Z),
    Forall (fun p => start <= pt_start_char p) (pages_from page_num start texts).
Proof.
  induction texts as [|text rest IH]; intros page_num start; cbn; constructor.
  - cbn. lia.
  - eapply Forall_impl; [apply IH |]. cbn. intros p Hp.
    pose proof (len_nonneg text). lia.
Qed.

Lemma pages_from_sorted (texts : list string) :
  forall (page_num start : Z),
    StronglySorted (fun p q => pt_start_char p < pt_start_char q)
                   (pages_from page_num start texts).
Proof.
  induction texts as [|text rest IH]; intros page_num start; cbn; constructor.
  - apply IH.
  - eapply Forall_impl; [apply pages_from_start |]. cbn. intros p Hp.
    pose proof (len_nonneg text). lia.
Qed.

Lemma pages_from_lookup (texts : list string) :
  forall (page_num start : Z) (prefix : string) (i : nat) (text : string),
    len prefix = start ->
    texts !! i = Some text ->
    exists page,
      pages_from page_num start texts !! i = Some page
      /\ pt_page_number page = page_num + Z.of_nat i + 1
      /\ pt_text page = text
      /\ slice (prefix +:+ joined texts) (pt_start_char page)
               (pt_start_char page + len text) = text.
Proof.
  induction texts as [|t rest IH]; intros page_num start prefix i text Hstart Hi; [done |].
  destruct i as [|i].
  - injection Hi as ->. eexists. split; [reflexivity |]. cbn.
    split; [lia |]. split; [reflexivity |].
    rewrite <- Hstart. apply slice_middle.
  - cbn in Hi.
    assert (Hlen : len (prefix +:+ (t +:+ String NL EmptyString)) = start + len t + 1).
    { rewrite !len_app. change (len (String NL EmptyString)) with 1. lia. }
    destruct (IH (page_num + 1) (start + len t + 1)
                 (prefix +:+ (t +:+ String NL EmptyString)) i text Hlen Hi)
      as (page & Hpage & Hnum & Htext & Hslice).
    exists page. split; [exact Hpage |]. split; [lia |]. split; [exact Htext |].
    cbn [joined].
    replace (prefix +:+ (t +:+ (String NL EmptyString +:+ joined rest)))
      with ((prefix +:+ (t +:+ String NL EmptyString)) +:+ joined rest)
      by (by rewrite !string_app_assoc).
    exact Hslice.
Qed.

Lemma get_page_in_table (texts : list string) :
  forall (page_num start : Z) (i : nat) (page : PageText) (char_position : Z),
    pages_from page_num start texts !! i = Some page ->
    pt_start_char page <= char_position <= pt_start_char page + len (pt_text page) ->
    _get_page_for_position char_position (pages_from page_num start texts)
    = pt_page_number page.
Proof.
  induction texts as [|t rest IH]; intros page_num start i page pos Hi Hpos; [done |].
  cbn [pages_from] in *. cbn [_get_page_for_position].
  destruct rest as [|t' rest].
  - destruct i as [|i]; [by injection Hi as <- | done].
  - cbn [pages_from pt_start_char].
    change (mkPage (page_num + 1 + 1) t' (start + len t + 1)
            :: pages_from (page_num + 1 + 1) (start + len t + 1 + len t' + 1) rest)
      with (pages_from (page_num + 1) (start + len t + 1) (t' :: rest)) in *.
    destruct i as [|i].
    + injection Hi as <-. cbn in Hpos.
      destruct (Z.gtb_spec (start + len t + 1) pos); [reflexivity | lia].
    + cbn in Hi.
      assert (Hfrom : start + len t + 1 <= pt_start_char page).
      { pose proof (pages_from_start (t' :: rest) (page_num + 1) (start + len t + 1)) as Hall.
        rewrite Forall_forall in Hall. apply Hall.
        eapply list_elem_of_lookup_2. exact Hi. }
      destruct (Z.gtb_spec (start + len t + 1) pos); [lia |].
      by apply (IH (page_num + 1) (start + len t + 1) i).
Qed.

(** X26: the page table that [extract_text_from_pdf] builds has one entry
    per page, numbered from 1 in order, with start offsets that increase
    strictly; the text of each page is found in the full text at its
    start offset. *)
Theorem extract_text_page_table (texts : list string) :
  let '(full_text, page_texts) := extract_text texts in
  List.length page_texts = List.length texts
  /\ StronglySorted (fun p q => pt_start_char p < pt_start_char q) page_texts
  /\ (forall (i : nat) (text : string),
        texts !! i = Some text ->
        exists page,
          page_texts !! i = Some page
          /\ pt_page_number page = Z.of_nat i + 1
          /\ pt_text page = text
          /\ slice full_text (pt_start_char page) (pt_start_char page + len text) = text).
Proof.
  rewrite extract_text_run.
  split; [apply pages_from_length |].
  split; [apply pages_from_sorted |].
  intros i text Hi.
  destruct (pages_from_lookup texts 0 0 EmptyString i text eq_refl Hi)
    as (page & Hpage & Hnum & Htext & Hslice).
  exists page. split; [exact Hpage |]. split; [lia |]. split; [exact Htext |].
  exact Hslice.
Qed.

(** X27: with this page table, [_get_page_for_position] gives for every
    offset of the full text the number of the page whose text (or the
    newline that ends it) is at that offset. *)
Theorem page_of_extracted_offset (texts : list string) (i : nat) (page : PageText)
    (char_position : Z) :
  (extract_text texts).2 !! i = Some page ->
  pt_start_char page <= char_position <= pt_start_char page + len (pt_text page) ->
  _get_page_for_position char_position (extract_text texts).2 = Z.of_nat i + 1.
Proof.
  rewrite extract_text_run. cbn [snd]. intros Hi Hpos.
  rewrite (get_page_in_table texts 0 0 i page char_position Hi Hpos).
  destruct (texts !! i) as [text|] eqn:Htext.
  - destruct (pages_from_lookup texts 0 0 EmptyString i text eq_refl Htext)
      as (page' & Hpage' & Hnum & _).
    rewrite Hi in Hpage'. injection Hpage' as <-. lia.
  - apply lookup_ge_None in Htext. apply lookup_lt_Some in Hi.
    rewrite pages_from_length in Hi. lia.
Qed.

Lemma page_of_extracted_offset_witness :
  (extract_text ["ab"; "cde"; "f"]).2 !! 1%nat = Some (mkPage 2 "cde" 3)
  /\ _get_page_for_position 5 (extract_text ["ab"; "cde"; "f"]).2 = 2.
Proof.
  split; [reflexivity |].
  apply (page_of_extracted_offset ["ab"; "cde"; "f"] 1 (mkPage 2 "cde" 3) 5);
    [reflexivity | cbn; unfold len; cbn; lia].
Defined.

End ExtractFacts.

(** ** The guard of the upload route *)

Module RoutesFacts.

Import Routes.

Lemma char_in_app (c : ascii) (a b : string) :
  char_in c (a +:+ b) = char_in c a || char_in c b.
Proof.
  induction a as [|x a IH]; [reflexivity |].
  change (char_in c (String x a +:+ b)) with (Ascii.eqb c x || char_in c (a +:+ b)).
  cbn [char_in]. rewrite IH. by rewrite orb_assoc.
Qed.

Lemma after_last_none (sep : ascii) (s : string) :
  after_last sep s = None <-> char_in sep s = false.
Proof.
  induction s as [|c s IH]; cbn; [done |].
  destruct (after_last sep s) as [t|].
  - split; [done |]. intros H. apply orb_false_elim in H as [_ H].
    by apply IH in H.
  - rewrite (Ascii.eqb_sym sep c).
    destruct (Ascii.eqb c sep); cbn; [done |].
    split; [intros _; by apply IH | done].
Qed.

Lemma after_last_some (sep : ascii) (s t : string) :
  after_last sep s = Some t <->
  exists stem, s = stem +:+ String sep t /\ char_in sep t = false.
Proof.
  revert t. induction s as [|c s IH]; intros t.
  - split; [done |]. intros (stem & Hs & _). by destruct stem.
  - cbn [after_last]. destruct (after_last sep s) as [u|] eqn:Hu.
    + split.
      * intros [= ->]. destruct (proj1 (IH t) eq_refl) as (stem & -> & Ht).
        exists (String c stem). done.
      * intros (stem & Hs & Ht). destruct stem as [|x stem].
        -- cbn in Hs. injection Hs as -> ->.
           apply after_last_none in Ht. congruence.
        -- change (String x stem +:+ String sep t)
             with (String x (stem +:+ String sep t)) in Hs.
           injection Hs as -> ->. apply IH. eauto.
    + apply after_last_none in Hu.
      destruct (Ascii.eqb_spec c sep) as [-> | Hne].
      * split.
        -- intros [= ->]. exists EmptyString. done.
        -- intros (stem & Hs & Ht). destruct stem as [|x stem].
           ++ cbn in Hs. by injection Hs as ->.
           ++ change (String x stem +:+ String sep t)
                with (String x (stem +:+ String sep t)) in Hs.
              injection Hs as -> ->.
              rewrite char_in_app in Hu. cbn in Hu.
              rewrite Ascii.eqb_refl, orb_true_r in Hu. done.
      * split; [done |].
        intros (stem & Hs & Ht). destruct stem as [|x stem].
        -- cbn in Hs. injection Hs as -> _. done.
        -- change (String x stem +:+ String sep t)
             with (String x (stem +:+ String sep t)) in Hs.
           injection Hs as -> ->.
           rewrite char_in_app in Hu. cbn in Hu.
           rewrite Ascii.eqb_refl, orb_true_r in Hu. done.
Qed.

Lemma lower_char_p (c : ascii) : lower_char c = "p"%char <-> c = "p"%char \/ c = "P"%char.
Proof.
  split; [| by intros [-> | ->]].
  destruct c as [[] [] [] [] [] [] [] []]; vm_compute; intros H;
    first [discriminate H | by left | by right].
Qed.

Lemma lower_char_d (c : ascii) : lower_char c = "d"%char <-> c = "d"%char \/ c = "D"%char.
Proof.
  split; [| by intros [-> | ->]].
  destruct c as [[] [] [] [] [] [] [] []]; vm_compute; intros H;
    first [discriminate H | by left | by right].
Qed.

Lemma lower_char_f (c : ascii) : lower_char c = "f"%char <-> c = "f"%char \/ c = "F"%char.
Proof.
  split; [| by intros [-> | ->]].
  destruct c as [[] [] [] [] [] [] [] []]; vm_compute; intros H;
    first [discriminate H | by left | by right].
Qed.

Lemma lower_pdf (extension : string) :
  lower extension = "pdf" <->
  exists p d f,
    extension = String p (String d (String f EmptyString))
    /\ (p = "p"%char \/ p = "P"%char)
    /\ (d = "d"%char \/ d = "D"%char)
    /\ (f = "f"%char \/ f = "F"%char).
Proof.
  split.
  - destruct extension as [|p [|d [|f [|x rest]]]]; cbn; try done.
    intros [= Hp Hd Hf]. exists p, d, f.
    split; [done |]. by rewrite <- lower_char_p, <- lower_char_d, <- lower_char_f.
  - intros (p & d & f & -> & Hp & Hd & Hf). cbn.
    apply lower_char_p in Hp. apply lower_char_d in Hd. apply lower_char_f in Hf.
    by rewrite Hp, Hd, Hf.
Qed.

(** X28: [allowed_file] accepts exactly the file names that end with a
    dot followed by the three letters p, d, f, each in either case;
    nothing has to stand before the dot. *)
Theorem allowed_file_pdf_extension (filename : string) :
  allowed_file filename = true <->
  exists stem p d f,
    filename = stem +:+ String "."%char (String p (String d (String f EmptyString)))
    /\ (p = "p"%char \/ p = "P"%char)
    /\ (d = "d"%char \/ d = "D"%char)
    /\ (f = "f"%char \/ f = "F"%char).
Proof.
  unfold allowed_file. split.
  - intros H. apply andb_prop in H as [_ H].
    destruct (after_last "."%char filename) as [extension|] eqn:Hext; [| done].
    apply String.eqb_eq, lower_pdf in H as (p & d & f & -> & Hp & Hd & Hf).
    apply after_last_some in Hext as (stem & -> & _).
    exists stem, p, d, f. done.
  - intros (stem & p & d & f & -> & Hp & Hd & Hf).
    assert (Hnodot : char_in "."%char (String p (String d (String f EmptyString))) = false).
    { destruct Hp as [-> | ->], Hd as [-> | ->], Hf as [-> | ->]; reflexivity. }
    assert (Hext : after_last "."%char
                     (stem +:+ String "."%char (String p (String d (String f EmptyString))))
                   = Some (String p (String d (String f EmptyString))))
      by (apply after_last_some; eauto).
    rewrite Hext, char_in_app. cbn [char_in]. rewrite Ascii.eqb_refl.
    rewrite orb_true_r. cbn [andb].
    apply String.eqb_eq, lower_pdf. exists p, d, f. done.
Qed.

End RoutesFacts.

(** ** [RAGService.query] *)

Module QueryFacts.

Import Index IndexSpec MultiSearch RAG RAGQuery Fixtures Examples IndexFacts.

Section WithLib.

Context {L : Lib}.

Variable chat_completion : list pydict -> string + (string * Z).
Variable zero : Score.
Variable confidence : list Score -> Score.

Lemma query_no_index (self : RAGService) (document_id q : string) (k : Z) (w : World) :
  indices (Index.self w) !! document_id = None ->
  query chat_completion zero confidence self document_id q k w
  = mkRun (inr (nothing_found zero self)) w
      [(WARNING, "No index found for document " +:+ document_id)] [].
Proof.
  intros Hnone. unfold query. rewrite (search_no_index _ _ _ _ Hnone). reflexivity.
Qed.

(** X29: a query of a document for which the index manager of the
    service holds no index returns the fixed response that nothing was
    found, with no sources and no tokens used, after the warning of the
    manager; OpenAI is not called and the manager is unchanged. *)
Theorem query_without_index (self : RAGService) (document_id q : string) (k : Z)
    (w : World) :
  indices (Index.self w) !! document_id = None ->
  let r := query chat_completion zero confidence self document_id q k w in
  run_val r = inr (nothing_found zero self)
  /\ sources (nothing_found zero self) = []
  /\ tokens_used (nothing_found zero self) = 0
  /\ run_state r = w
  /\ run_log r = [(WARNING, "No index found for document " +:+ document_id)]
  /\ run_errors r = [].
Proof.
  intros Hnone r. subst r. rewrite (query_no_index _ _ _ _ _ Hnone). done.
Qed.

(** X30: the index manager that [RAGService.__init__] creates is empty
    and [query] only searches it: whatever the files on disk, every
    query of a sequence of queries on a new service returns the response
    that nothing was found. *)
Theorem new_service_finds_nothing (self : RAGService) (index_path : string)
    (disk : gmap string Blob) (requests : list (string * string * Z)) :
  Forall (fun r => r = inr (nothing_found zero self))
         (queries chat_completion zero confidence self requests
            (mkWorld (__init__ index_path) disk)).
Proof.
  induction requests as [|[[document_id q] k] rest IH]; [constructor |].
  cbn [queries]. rewrite query_no_index by apply lookup_empty.
  constructor; [reflexivity | exact IH].
Qed.

End WithLib.

Lemma query_without_index_witness :
  indices (Index.self (empty_world (L:=lib2))) !! "doc" = None
  /\ run_val (query (L:=lib2) (fun _ => inr ("An answer.", 42)) 0 (fun _ => 1)
                default_service "doc" "What is this?" 5 empty_world)
     = inr (nothing_found (L:=lib2) 0 default_service).
Proof.
  assert (Hnone : indices (Index.self (empty_world (L:=lib2))) !! "doc" = None)
    by (vm_compute; reflexivity).
  split; [exact Hnone |].
  exact (proj1 (query_without_index (L:=lib2) (fun _ => inr ("An answer.", 42)) 0
                  (fun _ => 1) default_service "doc" "What is this?" 5 empty_world
                  Hnone)).
Defined.

End QueryFacts.
